(** * Traffic-signal controller: phase scheduling, timing strategies,
      vehicle queues and incident injection.

    Shallow embedding of
      - src/control/strategies/{base_strategy,fixed_time,proportional,
        webster,adaptive}.py
      - src/control/controller.py
      - src/simulation/traffic_controller.py
      - src/monitoring/data_generator.py

    Numeric conventions.  Python [int] is [Z].  Python [float] values are
    modelled by exact rationals [Q]; [int(x)] is truncation toward zero and
    true division [a / b] raises [ZeroDivisionError] on a zero divisor.
    Random draws, the data generator and the predictor are inputs (oracles)
    of the functions that consult them; the generator's own code is
    embedded in [Generator], its draws and the wall clock being arguments
    there too. *)

From Stdlib Require Import ZArith QArith Qround Lia List Bool Ascii.
From stdpp Require Import base strings gmap.
Import ListNotations.
Local Open Scope Z_scope.

(* ------------------------------------------------------------------ *)
(** ** Python values and exceptions *)

Module Py.

Inductive exn : Type :=
| AttributeError
| TypeError
| ZeroDivisionError.

Inductive result (A : Type) : Type :=
| Ok (a : A)
| Raise (e : exn).
Arguments Ok {A} a.
Arguments Raise {A} e.

Definition bind {A B} (m : result A) (k : A -> result B) : result B :=
  match m with
  | Ok a => k a
  | Raise e => Raise e
  end.

(** [a / b] on two ints. *)
Definition truediv (a b : Z) : result Q :=
  if b =? 0 then Raise ZeroDivisionError
  else Ok (inject_Z a / inject_Z b)%Q.

(** [int(x)] on a float: truncation toward zero. *)
Definition int (x : Q) : Z :=
  if Qle_bool 0 x then Qfloor x else Qceiling x.

Definition ltb (x y : Q) : bool := negb (Qle_bool y x).

(** [max(a, b)] and [min(a, b)]: the first argument wins ties. *)
Definition max (a b : Q) : Q := if ltb a b then b else a.
Definition min (a b : Q) : Q := if ltb b a then b else a.

(** [d.get(k, default)] *)
Definition get (d : gmap string Z) (k : string) (dflt : Z) : Z :=
  default dflt (d !! k).

(** [s.lower()] on ASCII text. *)
Definition lower_ascii (c : ascii) : ascii :=
  let n := nat_of_ascii c in
  if ((65 <=? n) && (n <=? 90))%nat then ascii_of_nat (n + 32) else c.

Fixpoint lower (s : string) : string :=
  match s with
  | EmptyString => EmptyString
  | String c r => String (lower_ascii c) (lower r)
  end.

End Py.

Notation "'letE' x ':=' m 'in' k" := (Py.bind m (fun x => k))
  (at level 10, x name, m at level 100, k at level 200).

(* ------------------------------------------------------------------ *)
(** ** Timing strategies (src/control/strategies) *)

Module Strategies.

(** One entry of the dict returned by [calculate_phase_times]. *)
Record PhaseTimes : Type := { green : Z; yellow : Z }.
Record Timings : Type :=
  { north_south : PhaseTimes; east_west : PhaseTimes }.

(** The [traffic_data] argument: a dict that may lack ['vehicle_counts'];
    the argument itself may be [None]. *)
Record TrafficData : Type :=
  { vehicle_counts : option (gmap string Z) }.

(** [not traffic_data or 'vehicle_counts' not in traffic_data] is false
    exactly when this returns the counts. *)
Definition counts_of (traffic_data : option TrafficData)
  : option (gmap string Z) :=
  match traffic_data with
  | None => None
  | Some d => vehicle_counts d
  end.

(** A dict with the four direction keys. *)
Record PerDir (A : Type) : Type :=
  { north : A; south : A; east : A; west : A }.
Arguments north {A} _.
Arguments south {A} _.
Arguments east {A} _.
Arguments west {A} _.

(** base_strategy.py, [TrafficControlStrategy.__init__] *)
Record Base : Type :=
  { name : string;
    description : string;
    min_green_time : Z;
    max_green_time : Z;
    yellow_time : Z }.

Definition base_init (name description : string) : Base :=
  {| name := name;
     description := description;
     min_green_time := 5;
     max_green_time := 60;
     yellow_time := 3 |}.

Definition both (ns_green ew_green y : Z) : Timings :=
  {| north_south := {| green := ns_green; yellow := y |};
     east_west := {| green := ew_green; yellow := y |} |}.

(** *** fixed_time.py *)
Module FixedTime.
Record t : Type :=
  { base : Base; ns_green_time : Z; ew_green_time : Z }.

Definition init : t :=
  {| base := base_init "Fixed Time"
               "Uses predetermined fixed timing for traffic signals";
     ns_green_time := 30;
     ew_green_time := 30 |}.

Definition set_times (self : t) (ns ew : Z) : t :=
  {| base := base self;
     ns_green_time :=
       Z.max (min_green_time (base self))
             (Z.min (max_green_time (base self)) ns);
     ew_green_time :=
       Z.max (min_green_time (base self))
             (Z.min (max_green_time (base self)) ew) |}.

Definition calculate_phase_times (self : t)
    (traffic_data : option TrafficData) : Timings :=
  both (ns_green_time self) (ew_green_time self)
       (yellow_time (base self)).
End FixedTime.

(** *** proportional.py *)
Module Proportional.
Record t : Type :=
  { base : Base; cycle_length : Z; min_green_ratio : Q }.

Definition init : t :=
  {| base := base_init "Proportional"
               "Allocates green time proportionally to traffic volume";
     cycle_length := 90;
     min_green_ratio := 0.3 |}.

Definition set_cycle_length (self : t) (c : Z) : t :=
  {| base := base self;
     cycle_length := Z.max 30 (Z.min 180 c);
     min_green_ratio := min_green_ratio self |}.

(** The pair of ratios after "Apply minimum ratio". *)
Definition ratios (self : t) (ns_count ew_count : Z) : Q * Q :=
  let total_count := ns_count + ew_count in
  let ns_ratio := (inject_Z ns_count / inject_Z total_count)%Q in
  let ew_ratio := (inject_Z ew_count / inject_Z total_count)%Q in
  if Py.ltb ns_ratio (min_green_ratio self)
  then (min_green_ratio self, (1 - min_green_ratio self)%Q)
  else if Py.ltb ew_ratio (min_green_ratio self)
  then ((1 - min_green_ratio self)%Q, min_green_ratio self)
  else (ns_ratio, ew_ratio).

Definition calculate_phase_times (self : t)
    (traffic_data : option TrafficData) : Timings :=
  let y := yellow_time (base self) in
  let mg := min_green_time (base self) in
  match counts_of traffic_data with
  | None =>
      let g := (inject_Z (cycle_length self - 2 * y) / 2)%Q in
      both (Py.int g) (Py.int g) y
  | Some vc =>
      let ns_count := Py.get vc "north" 0 + Py.get vc "south" 0 in
      let ew_count := Py.get vc "east" 0 + Py.get vc "west" 0 in
      let total_count := ns_count + ew_count in
      let available_green := cycle_length self - 2 * y in
      if 0 <? total_count then
        let '(ns_ratio, ew_ratio) := ratios self ns_count ew_count in
        let ns_green := Py.int (inject_Z available_green * ns_ratio) in
        let ew_green := Py.int (inject_Z available_green * ew_ratio) in
        let ns_green := Z.max mg ns_green in
        let ew_green := Z.max mg ew_green in
        let total_green := ns_green + ew_green in
        if available_green <? total_green then
          let ns_scaled :=
            Py.int (inject_Z (ns_green * available_green)
                    / inject_Z total_green) in
          let ew_scaled :=
            Py.int (inject_Z (ew_green * available_green)
                    / inject_Z total_green) in
          both (Z.max mg ns_scaled) (Z.max mg ew_scaled) y
        else both ns_green ew_green y
      else
        both (available_green / 2) (available_green / 2) y
  end.
End Proportional.

(** *** webster.py *)
Module Webster.
Record t : Type :=
  { base : Base;
    saturation_flow : Z;
    lanes : PerDir Z;
    min_cycle_length : Z;
    max_cycle_length : Z;
    lost_time : Z }.

Definition init : t :=
  {| base := base_init "Webster"
               "Uses Webster's method to minimize overall vehicle delay";
     saturation_flow := 1800;
     lanes := {| north := 1; south := 1; east := 1; west := 1 |};
     min_cycle_length := 30;
     max_cycle_length := 180;
     lost_time := 4 |}.

Definition set_saturation_flow (self : t) (flow_rate : Z) : t :=
  {| base := base self;
     saturation_flow := Z.max 600 (Z.min 2400 flow_rate);
     lanes := lanes self;
     min_cycle_length := min_cycle_length self;
     max_cycle_length := max_cycle_length self;
     lost_time := lost_time self |}.

Definition set_lanes (self : t) (n s e w : Z) : t :=
  {| base := base self;
     saturation_flow := saturation_flow self;
     lanes := {| north := Z.max 1 n; south := Z.max 1 s;
                 east := Z.max 1 e; west := Z.max 1 w |};
     min_cycle_length := min_cycle_length self;
     max_cycle_length := max_cycle_length self;
     lost_time := lost_time self |}.

(** [(ns_flow_ratio, ew_flow_ratio)]: the critical flow ratio of each
    phase pair, from counts scaled to hourly flows. *)
Definition flow_ratios (self : t) (vc : gmap string Z)
  : Py.result (Q * Q) :=
  let scale := 12 in
  let flows k := Py.get vc k 0 * scale in
  let sat := saturation_flow self in
  letE n := Py.truediv (flows "north") (sat * north (lanes self)) in
  letE s := Py.truediv (flows "south") (sat * south (lanes self)) in
  letE e := Py.truediv (flows "east") (sat * east (lanes self)) in
  letE w := Py.truediv (flows "west") (sat * west (lanes self)) in
  Py.Ok (Py.max n s, Py.max e w).

Definition total_flow_ratio (r : Q * Q) : Q := (fst r + snd r)%Q.

Definition total_lost_time (self : t) : Z := 2 * lost_time self.

(** The local [cycle_length], as a function of [total_flow_ratio]. *)
Definition cycle_length (self : t) (Y : Q) : Q :=
  if Py.ltb Y 0.95 then
    let c := ((1.5 * inject_Z (total_lost_time self) + 5) / (1 - Y))%Q in
    Py.max (inject_Z (min_cycle_length self))
           (Py.min (inject_Z (max_cycle_length self)) c)
  else inject_Z (max_cycle_length self).

(** Green times allocated out of a given cycle length. *)
Definition allocate (self : t) (cycle : Q) (r : Q * Q) : Timings :=
  let Y := total_flow_ratio r in
  let effective_green := (cycle - inject_Z (total_lost_time self))%Q in
  let ns_green :=
    if Py.ltb 0 Y then (effective_green * (fst r / Y))%Q
    else (effective_green / 2)%Q in
  let ew_green :=
    if Py.ltb 0 Y then (effective_green * (snd r / Y))%Q
    else (effective_green / 2)%Q in
  both (Z.max (min_green_time (base self)) (Py.int ns_green))
       (Z.max (min_green_time (base self)) (Py.int ew_green))
       (yellow_time (base self)).

Definition calculate_phase_times (self : t)
    (traffic_data : option TrafficData) : Py.result Timings :=
  match counts_of traffic_data with
  | None => Py.Ok (both 30 30 (yellow_time (base self)))
  | Some vc =>
      letE r := flow_ratios self vc in
      let Y := total_flow_ratio r in
      if Py.ltb Y 0.001 then
        Py.Ok (both 30 30 (yellow_time (base self)))
      else Py.Ok (allocate self (cycle_length self Y) r)
  end.
End Webster.

(** *** adaptive.py *)
Module Adaptive.
Record t : Type :=
  { base : Base;
    max_cycle_length : Z;
    responsiveness : Q;
    historical_weight : Q;
    previous_times : Timings;
    trend_data : PerDir (list Z);
    max_trend_points : nat }.

Definition init : t :=
  let b := base_init "Adaptive"
    "Dynamically adjusts signal timing based on current and historical traffic patterns" in
  {| base := b;
     max_cycle_length := 120;
     responsiveness := 0.7;
     historical_weight := 0.3;
     previous_times := both 30 30 (yellow_time b);
     trend_data := {| north := []; south := []; east := []; west := [] |};
     max_trend_points := 5 |}.

Definition set_responsiveness (self : t) (value : Q) : t :=
  let r := Py.max 0.1 (Py.min 1.0 value) in
  {| base := base self;
     max_cycle_length := max_cycle_length self;
     responsiveness := r;
     historical_weight := (1.0 - r)%Q;
     previous_times := previous_times self;
     trend_data := trend_data self;
     max_trend_points := max_trend_points self |}.

Definition set_previous_times (self : t) (times : Timings) : t :=
  {| base := base self;
     max_cycle_length := max_cycle_length self;
     responsiveness := responsiveness self;
     historical_weight := historical_weight self;
     previous_times := times;
     trend_data := trend_data self;
     max_trend_points := max_trend_points self |}.

Definition set_trend_data (self : t) (td : PerDir (list Z)) : t :=
  {| base := base self;
     max_cycle_length := max_cycle_length self;
     responsiveness := responsiveness self;
     historical_weight := historical_weight self;
     previous_times := previous_times self;
     trend_data := td;
     max_trend_points := max_trend_points self |}.

(** [data.append(count)], then [data.pop(0)] when the buffer is over
    [max_trend_points]. *)
Definition push (max_points : nat) (data : list Z) (count : Z) : list Z :=
  let data' := data ++ [count] in
  if (max_points <? length data')%nat then tl data' else data'.

Definition update_trends (self : t) (traffic_data : option TrafficData)
  : t :=
  match counts_of traffic_data with
  | None => self
  | Some vc =>
      let m := max_trend_points self in
      let td := trend_data self in
      set_trend_data self
        {| north := push m (north td) (Py.get vc "north" 0);
           south := push m (south td) (Py.get vc "south" 0);
           east := push m (east td) (Py.get vc "east" 0);
           west := push m (west td) (Py.get vc "west" 0) |}
  end.

Definition sum (l : list Z) : Z := fold_right Z.add 0 l.

(** [get_trend_factor] on the buffer [self.trend_data[direction]]. *)
Definition trend_factor (data : list Z) : Q :=
  if (length data <? 2)%nat then 1.0%Q
  else
    let latest := (inject_Z (sum (skipn (length data - 2) data)) / 2)%Q in
    let earliest := (inject_Z (sum (firstn 2 data)) / 2)%Q in
    if Qeq_bool earliest 0 then
      if Qeq_bool latest 0 then 1.0%Q else 1.2%Q
    else Py.max 0.8 (Py.min 1.5 (latest / earliest)%Q).

Definition get_trend_factor (self : t)
    (direction : PerDir (list Z) -> list Z) : Q :=
  trend_factor (direction (trend_data self)).

(** [(ns_target_green, ew_target_green)] after "Ensure minimum green
    times", computed from the trend buffers and the counts. *)
Definition target_green (self : t) (vc : gmap string Z) : Q * Q :=
  let ns_count := Py.get vc "north" 0 + Py.get vc "south" 0 in
  let ew_count := Py.get vc "east" 0 + Py.get vc "west" 0 in
  let ns_trend :=
    ((get_trend_factor self north + get_trend_factor self south) / 2)%Q in
  let ew_trend :=
    ((get_trend_factor self east + get_trend_factor self west) / 2)%Q in
  let ns_adjusted := (inject_Z ns_count * ns_trend)%Q in
  let ew_adjusted := (inject_Z ew_count * ew_trend)%Q in
  let total_adjusted := (ns_adjusted + ew_adjusted)%Q in
  let available_green :=
    inject_Z (max_cycle_length self - 2 * yellow_time (base self)) in
  let ns_target_green :=
    if Py.ltb 0 total_adjusted
    then (available_green * (ns_adjusted / total_adjusted))%Q
    else (available_green / 2)%Q in
  let ew_target_green :=
    if Py.ltb 0 total_adjusted
    then (available_green * (ew_adjusted / total_adjusted))%Q
    else (available_green / 2)%Q in
  let mg := inject_Z (min_green_time (base self)) in
  (Py.max mg ns_target_green, Py.max mg ew_target_green).

(** "Blend with previous times based on responsiveness". *)
Definition blend (self : t) (target : Q) (previous : PhaseTimes) : Z :=
  Py.int (responsiveness self * target
          + historical_weight self * inject_Z (green previous))%Q.

(** Returns the timings together with the strategy after the call
    (the trend buffers and [previous_times] are updated in place). *)
Definition calculate_phase_times (self : t)
    (traffic_data : option TrafficData) : Timings * t :=
  let self := update_trends self traffic_data in
  match counts_of traffic_data with
  | None => (previous_times self, self)
  | Some vc =>
      let '(ns_target_green, ew_target_green) := target_green self vc in
      let ns_green :=
        blend self ns_target_green (north_south (previous_times self)) in
      let ew_green :=
        blend self ew_target_green (east_west (previous_times self)) in
      let new_times := both ns_green ew_green (yellow_time (base self)) in
      (new_times, set_previous_times self new_times)
  end.
End Adaptive.

(** *** The four strategy objects a controller keeps *)

Inductive Kind : Type := Fixed | Proportional | Webster | Adaptive.

(** The dict [self.strategies] of controller.py: one long-lived instance
    per name.  [active_strategy] is a reference to one of them, so it is
    kept as a [Kind] and the instances live here. *)
Record Instances : Type :=
  { fixed : FixedTime.t;
    proportional : Proportional.t;
    webster : Webster.t;
    adaptive : Adaptive.t }.

Definition instances_init : Instances :=
  {| fixed := FixedTime.init;
     proportional := Proportional.init;
     webster := Webster.init;
     adaptive := Adaptive.init |}.

Definition base_of (i : Instances) (k : Kind) : Base :=
  match k with
  | Fixed => FixedTime.base (fixed i)
  | Proportional => Proportional.base (proportional i)
  | Webster => Webster.base (webster i)
  | Adaptive => Adaptive.base (adaptive i)
  end.

(** Dynamic dispatch of [calculate_phase_times] on the instance [k]. *)
Definition calculate_phase_times (i : Instances) (k : Kind)
    (traffic_data : option TrafficData) : Py.result (Timings * Instances) :=
  match k with
  | Fixed =>
      Py.Ok (FixedTime.calculate_phase_times (fixed i) traffic_data, i)
  | Proportional =>
      Py.Ok (Proportional.calculate_phase_times (proportional i)
               traffic_data, i)
  | Webster =>
      letE r := Webster.calculate_phase_times (webster i) traffic_data in
      Py.Ok (r, i)
  | Adaptive =>
      let '(r, a) :=
        Adaptive.calculate_phase_times (adaptive i) traffic_data in
      Py.Ok (r, {| fixed := fixed i;
                   proportional := proportional i;
                   webster := webster i;
                   adaptive := a |})
  end.

End Strategies.

(* ------------------------------------------------------------------ *)
(** ** Phases and signal states shared by the two controllers *)

(** The strings ["north_south"] / ["east_west"] and ["green"] /
    ["yellow"] held by [current_phase] and by the history records. *)
Inductive Phase : Type := North_South | East_West.
Inductive Signal : Type := Green | Yellow.

Definition other (p : Phase) : Phase :=
  match p with North_South => East_West | East_West => North_South end.

(* ------------------------------------------------------------------ *)
(** ** src/control/controller.py *)

Module Control.
Import Strategies.

(** One dict appended to [phase_history]; [timestamp] is in seconds
    since [start_time]. *)
Record PhaseRecord : Type :=
  { timestamp : Z;
    phase : Phase;
    state : Signal;
    duration : Z;
    rec_vehicle_counts : gmap string Z }.

(** The data generator: an endless supply of snapshots, consumed one per
    [get_traffic_data] call.  Of a snapshot only its ['vehicle_counts']
    entry, which the generator always writes, is read. *)
Record DataGenerator : Type :=
  { supply : nat -> gmap string Z; calls : nat }.

Definition get_traffic_data (g : DataGenerator)
  : gmap string Z * DataGenerator :=
  (supply g (calls g), {| supply := supply g; calls := S (calls g) |}).

(** A generated snapshot as the [traffic_data] argument of a strategy. *)
Definition traffic_data_of (snapshot : gmap string Z) : TrafficData :=
  {| vehicle_counts := Some snapshot |}.

Record t : Type :=
  { data_generator : DataGenerator;
    strategies : Instances;
    active_strategy : option Kind;   (* [None]: attribute never set *)
    current_data : option (gmap string Z);
    current_phase : Phase;
    phase_end_time : option Z;
    phase_history : list PhaseRecord }.

(** The keys of [self.strategies]. *)
Definition strategy_names : gmap string Kind :=
  list_to_map [("fixed", Fixed); ("proportional", Proportional);
               ("webster", Webster); ("adaptive", Adaptive)]%string.

Definition with_active (self : t) (k : option Kind) : t :=
  {| data_generator := data_generator self;
     strategies := strategies self;
     active_strategy := k;
     current_data := current_data self;
     current_phase := current_phase self;
     phase_end_time := phase_end_time self;
     phase_history := phase_history self |}.

Definition set_strategy (self : t) (strategy_name : string) : bool * t :=
  match strategy_names !! Py.lower strategy_name with
  | Some k => (true, with_active self (Some k))
  | None => (false, self)
  end.

Definition init (strategy_name : string) (supply : nat -> gmap string Z)
  : t :=
  let self :=
    {| data_generator := {| supply := supply; calls := 0 |};
       strategies := instances_init;
       active_strategy := None;
       current_data := None;
       current_phase := North_South;
       phase_end_time := None;
       phase_history := [] |} in
  snd (set_strategy self strategy_name).

Definition get_current_data (self : t) (use_generator : bool)
  : option (gmap string Z) * t :=
  if use_generator
     || match current_data self with None => true | Some _ => false end
  then
    let '(d, g) := get_traffic_data (data_generator self) in
    (Some d,
     {| data_generator := g;
        strategies := strategies self;
        active_strategy := active_strategy self;
        current_data := Some d;
        current_phase := current_phase self;
        phase_end_time := phase_end_time self;
        phase_history := phase_history self |})
  else (current_data self, self).

Definition calculate_signal_timings (self : t) : Py.result (Timings * t) :=
  let '(data, self) := get_current_data self true in
  match active_strategy self with
  | None => Py.Raise Py.AttributeError
  | Some k =>
      letE r := calculate_phase_times (strategies self) k
                  (option_map traffic_data_of data) in
      Py.Ok (fst r,
             {| data_generator := data_generator self;
                strategies := snd r;
                active_strategy := active_strategy self;
                current_data := current_data self;
                current_phase := current_phase self;
                phase_end_time := phase_end_time self;
                phase_history := phase_history self |})
  end.

Definition timings_at (tm : Timings) (p : Phase) : PhaseTimes :=
  match p with
  | North_South => north_south tm
  | East_West => east_west tm
  end.

(** [self.current_data["vehicle_counts"].copy() if self.current_data
    else {}] *)
Definition counts_copy (self : t) : gmap string Z :=
  match current_data self with
  | Some snapshot => snapshot
  | None => ∅
  end.

Definition append (self : t) (r : PhaseRecord) : t :=
  {| data_generator := data_generator self;
     strategies := strategies self;
     active_strategy := active_strategy self;
     current_data := current_data self;
     current_phase := current_phase self;
     phase_end_time := phase_end_time self;
     phase_history := phase_history self ++ [r] |}.

Definition enter (self : t) (p : Phase) (end_time : Z) : t :=
  {| data_generator := data_generator self;
     strategies := strategies self;
     active_strategy := active_strategy self;
     current_data := current_data self;
     current_phase := p;
     phase_end_time := Some end_time;
     phase_history := phase_history self |}.

(** The local variables of [start_simulation] that live across loop
    iterations, next to the controller itself. *)
Record Loop : Type :=
  { ctl : t; timings : Timings; current_time : Z; next_update : Z }.

Definition recalculates (b : Base) : bool :=
  (String.eqb (name b) "Adaptive" || String.eqb (name b) "Webster")%bool.

(** One iteration of the [while current_time < end_time] loop.  Comparing
    the time with a [phase_end_time] that is still [None] is a
    [TypeError]. *)
Definition loop_body (k : Kind) (update_interval : Z) (l : Loop)
  : Py.result Loop :=
  let now := current_time l + 1 in
  let '(self, next) :=
    if next_update l <=? now
    then (snd (get_current_data (ctl l) true), now + update_interval)
    else (ctl l, next_update l) in
  match phase_end_time self with
  | None => Py.Raise Py.TypeError
  | Some end_time =>
      if end_time <=? now then
        let p := current_phase self in
        let yellow_duration := yellow (timings_at (timings l) p) in
        let self :=
          append self {| timestamp := now; phase := p; state := Yellow;
                         duration := yellow_duration;
                         rec_vehicle_counts := counts_copy self |} in
        let now := now + yellow_duration in
        let p := other p in
        letE r :=
          (if recalculates (base_of (strategies self) k)
           then calculate_signal_timings (snd (get_current_data self true))
           else Py.Ok (timings l, self)) in
        let '(tm, self) := r in
        let g := green (timings_at tm p) in
        let self := enter self p (now + g) in
        let self :=
          append self {| timestamp := now; phase := p; state := Green;
                         duration := g;
                         rec_vehicle_counts := counts_copy self |} in
        Py.Ok {| ctl := self; timings := tm; current_time := now;
                 next_update := next |}
      else
        Py.Ok {| ctl := self; timings := timings l; current_time := now;
                 next_update := next |}
  end.

(** The loop, bounded by [fuel] iterations. *)
Fixpoint simulation_loop (fuel : nat) (k : Kind)
    (end_time update_interval : Z) (l : Loop) : Py.result Loop :=
  match fuel with
  | O => Py.Ok l
  | S fuel' =>
      if current_time l <? end_time then
        letE l' := loop_body k update_interval l in
        simulation_loop fuel' k end_time update_interval l'
      else Py.Ok l
  end.

(** Everything before the loop: the initial timing calculation and the
    initial north-south green record.  [start_time] is second 0. *)
Definition start (self : t) : Py.result (Kind * Loop) :=
  match active_strategy self with
  | None => Py.Raise Py.AttributeError
  | Some k =>
      letE r := calculate_signal_timings self in
      let '(tm, self) := r in
      let g := green (timings_at tm North_South) in
      let self := enter self North_South (0 + g) in
      let self :=
        append self {| timestamp := 0; phase := North_South;
                       state := Green; duration := g;
                       rec_vehicle_counts := counts_copy self |} in
      Py.Ok (k, {| ctl := self; timings := tm; current_time := 0;
                   next_update := 0 |})
  end.

(** [start_simulation]: every iteration advances [current_time] by at
    least one second when yellow durations are not negative, so
    [duration_seconds] iterations are enough for the loop to exit. *)
Definition start_simulation (self : t)
    (duration_seconds update_interval : Z) : Py.result Loop :=
  letE s := start self in
  simulation_loop (Z.to_nat duration_seconds) (fst s)
    duration_seconds update_interval (snd s).

End Control.

(* ------------------------------------------------------------------ *)
(** ** src/simulation/traffic_controller.py

    Printing, sleeping, the visualizer and logging below warning level do
    not touch the controller's fields and are left out. *)

Module Simulation.
Import Strategies.

(** The keys of [self.vehicle_counts]. *)
Inductive Direction : Type :=
| north_inbound | south_inbound | east_inbound | west_inbound.

(** [self.vehicle_counts] and every dict with the same four keys. *)
Definition Counts : Type := PerDir Z.

Definition get (c : Counts) (d : Direction) : Z :=
  match d with
  | north_inbound => north c
  | south_inbound => south c
  | east_inbound => east c
  | west_inbound => west c
  end.

Definition set (c : Counts) (d : Direction) (v : Z) : Counts :=
  match d with
  | north_inbound =>
      {| north := v; south := south c; east := east c; west := west c |}
  | south_inbound =>
      {| north := north c; south := v; east := east c; west := west c |}
  | east_inbound =>
      {| north := north c; south := south c; east := v; west := west c |}
  | west_inbound =>
      {| north := north c; south := south c; east := east c; west := v |}
  end.

Definition zero_counts : Counts :=
  {| north := 0; south := 0; east := 0; west := 0 |}.

(** [sum(vehicle_counts.values())] *)
Definition total (c : Counts) : Z := north c + south c + east c + west c.

(** [active_directions] of [process_vehicles]. *)
Definition active_directions (p : Phase) : list Direction :=
  match p with
  | North_South => [north_inbound; south_inbound]
  | East_West => [east_inbound; west_inbound]
  end.

(** The dicts appended to [phase_history]: phase records written by
    [update_phase] and accident bookkeeping entries written by
    [add_random_traffic_event]. *)
Inductive Entry : Type :=
| PhaseEntry (time : Z) (phase : Phase) (state : Signal) (duration : Z)
             (vehicle_counts : Counts)
| EventEntry (time : Z) (event : string) (direction : Direction)
             (count_restore : Z).

(** The outcome of the random draws of [add_random_traffic_event] when
    [random.random() < 0.10]. *)
Inductive Event : Type :=
| surge (direction : Direction) (surge_amount : Z)
| roadblock (direction : Direction)
| accident (direction : Direction).

(** What one loop iteration reads from outside the controller. *)
Record TickInput : Type :=
  { generated : Counts;          (* data_generator.generate_data() *)
    predicted : Counts;          (* predictor.predict(counts) *)
    drawn : option Event;        (* None: random.random() >= 0.10 *)
    stop_set : bool }.           (* stop_event.is_set() at loop entry *)

(** The strategy classes this module imports ([strategies.*], with
    [update] and [get_phase_duration]) are not among the sources; they
    are taken as an interface. *)
Class StrategyAPI (Strategy : Type) : Type :=
  { (* FixedTimeStrategy(), ProportionalStrategy(), ... *)
    create : Kind -> Strategy;
    (* strategy.update(counts[, predicted_counts]) *)
    update : Strategy -> Counts -> option Counts -> Strategy;
    (* strategy.get_phase_duration(phase, vehicle_counts), with the
       strategy after the call *)
    get_phase_duration : Strategy -> Phase -> Counts -> Z * Strategy;
    (* the strategy's yellow_time attribute *)
    strategy_yellow_time : Strategy -> Z }.

Section Controller.
Context {Strategy : Type} `{StrategyAPI Strategy}.

Record t : Type :=
  { strategy_name : string;
    visualization : bool;
    random_events : bool;
    strategy : Strategy;
    current_phase : Phase;
    phase_state : Signal;
    time_elapsed : Z;
    phase_start_time : Z;
    phase_duration : Z;
    vehicle_counts : Counts;
    processed_vehicles : Z;
    total_wait_time : Z;
    phase_history : list Entry }.

(** The dict literal of [_create_strategy]. *)
Definition strategies : gmap string Strategy :=
  list_to_map [("fixed", create Fixed);
               ("proportional", create Proportional);
               ("webster", create Webster);
               ("adaptive", create Adaptive)]%string.

(** [_create_strategy]: [has_logger] tells whether [self.logger] has been
    assigned; reading it before raises [AttributeError].  Returns the
    strategy and the warnings logged by the call. *)
Definition _create_strategy (has_logger : bool) (strategy_name : string)
  : Py.result (Strategy * list string) :=
  match strategies !! strategy_name with
  | None =>
      if has_logger then
        Py.Ok (create Proportional,
               [("Unknown strategy '" +:+ strategy_name +:+
                 "'. Using proportional strategy instead.")%string])
      else Py.Raise Py.AttributeError
  | Some s => Py.Ok (s, [])
  end.

(** [__init__]: the strategy is created before [self.logger] is. *)
Definition init (strategy_name : string)
    (visualization random_events : bool) : Py.result t :=
  letE r := _create_strategy false strategy_name in
  Py.Ok {| strategy_name := Py.lower strategy_name;
           visualization := visualization;
           random_events := random_events;
           strategy := fst r;
           current_phase := North_South;
           phase_state := Green;
           time_elapsed := 0;
           phase_start_time := 0;
           phase_duration := 30;
           vehicle_counts := zero_counts;
           processed_vehicles := 0;
           total_wait_time := 0;
           phase_history := [] |}.

Definition with_counts (self : t) (c : Counts) : t :=
  {| strategy_name := strategy_name self;
     visualization := visualization self;
     random_events := random_events self;
     strategy := strategy self;
     current_phase := current_phase self;
     phase_state := phase_state self;
     time_elapsed := time_elapsed self;
     phase_start_time := phase_start_time self;
     phase_duration := phase_duration self;
     vehicle_counts := c;
     processed_vehicles := processed_vehicles self;
     total_wait_time := total_wait_time self;
     phase_history := phase_history self |}.

Definition with_history (self : t) (h : list Entry) : t :=
  {| strategy_name := strategy_name self;
     visualization := visualization self;
     random_events := random_events self;
     strategy := strategy self;
     current_phase := current_phase self;
     phase_state := phase_state self;
     time_elapsed := time_elapsed self;
     phase_start_time := phase_start_time self;
     phase_duration := phase_duration self;
     vehicle_counts := vehicle_counts self;
     processed_vehicles := processed_vehicles self;
     total_wait_time := total_wait_time self;
     phase_history := h |}.

Definition with_strategy (self : t) (s : Strategy) : t :=
  {| strategy_name := strategy_name self;
     visualization := visualization self;
     random_events := random_events self;
     strategy := s;
     current_phase := current_phase self;
     phase_state := phase_state self;
     time_elapsed := time_elapsed self;
     phase_start_time := phase_start_time self;
     phase_duration := phase_duration self;
     vehicle_counts := vehicle_counts self;
     processed_vehicles := processed_vehicles self;
     total_wait_time := total_wait_time self;
     phase_history := phase_history self |}.

(** [for direction, count in counts.items():
      self.vehicle_counts[direction] += count], the generator returning a
    count for each of the four keys. *)
Definition add_counts (c : Counts) (counts : Counts) : Counts :=
  {| north := north c + north counts;
     south := south c + south counts;
     east := east c + east counts;
     west := west c + west counts |}.

Definition update_vehicle_counts (i : TickInput) (self : t) : t :=
  let counts := generated i in
  let self := with_counts self (add_counts (vehicle_counts self) counts) in
  if String.eqb (strategy_name self) "adaptive"
  then with_strategy self
         (update (strategy self) counts (Some (predicted i)))
  else with_strategy self (update (strategy self) counts None).

Definition add_random_traffic_event (i : TickInput) (self : t) : t :=
  if negb (random_events self) then self
  else
    let vc := vehicle_counts self in
    match drawn i with
    | None => self
    | Some (surge direction surge_amount) =>
        with_counts self (set vc direction (get vc direction + surge_amount))
    | Some (roadblock direction) =>
        with_counts self
          (set vc direction
             (Z.max 0 (Py.int (inject_Z (get vc direction) * 0.5)%Q)))
    | Some (accident direction) =>
        let original_count := get vc direction in
        let self := with_counts self (set vc direction 0) in
        with_history self
          (phase_history self ++
             [EventEntry (time_elapsed self) "accident_clear" direction
                original_count])
    end.

(** The body of [for direction in directions] in [process_vehicles]:
    the running pair is [(vehicle_counts, processed_vehicles)]. *)
Definition drain (flow_rate : Z) (acc : Counts * Z) (d : Direction)
  : Counts * Z :=
  let '(vc, processed) := acc in
  let to_process := Z.min (get vc d) flow_rate in
  (set vc d (get vc d - to_process), processed + to_process).

Definition process_vehicles (self : t) : t :=
  let directions := active_directions (current_phase self) in
  let flow_rate :=
    match phase_state self with Green => 3 | Yellow => 1 end in
  let '(vc, processed) :=
    fold_left (drain flow_rate) directions
      (vehicle_counts self, processed_vehicles self) in
  let inactive_directions :=
    active_directions
      (match current_phase self with
       | North_South => East_West
       | East_West => North_South
       end) in
  let wait :=
    fold_left (fun w d => w + get vc d) inactive_directions
      (total_wait_time self) in
  {| strategy_name := strategy_name self;
     visualization := visualization self;
     random_events := random_events self;
     strategy := strategy self;
     current_phase := current_phase self;
     phase_state := phase_state self;
     time_elapsed := time_elapsed self;
     phase_start_time := phase_start_time self;
     phase_duration := phase_duration self;
     vehicle_counts := vc;
     processed_vehicles := processed;
     total_wait_time := wait;
     phase_history := phase_history self |}.

Definition update_phase (self : t) : t :=
  let time_in_phase := time_elapsed self - phase_start_time self in
  if phase_duration self <=? time_in_phase then
    let history :=
      phase_history self ++
        [PhaseEntry (time_elapsed self) (current_phase self)
           (phase_state self) (phase_duration self)
           (vehicle_counts self)] in
    match phase_state self with
    | Green =>
        {| strategy_name := strategy_name self;
           visualization := visualization self;
           random_events := random_events self;
           strategy := strategy self;
           current_phase := current_phase self;
           phase_state := Yellow;
           time_elapsed := time_elapsed self;
           phase_start_time := time_elapsed self;
           phase_duration := 5;
           vehicle_counts := vehicle_counts self;
           processed_vehicles := processed_vehicles self;
           total_wait_time := total_wait_time self;
           phase_history := history |}
    | Yellow =>
        let p :=
          match current_phase self with
          | North_South => East_West
          | East_West => North_South
          end in
        let '(d, s) :=
          get_phase_duration (strategy self) p (vehicle_counts self) in
        {| strategy_name := strategy_name self;
           visualization := visualization self;
           random_events := random_events self;
           strategy := s;
           current_phase := p;
           phase_state := Green;
           time_elapsed := time_elapsed self;
           phase_start_time := time_elapsed self;
           phase_duration := d;
           vehicle_counts := vehicle_counts self;
           processed_vehicles := processed_vehicles self;
           total_wait_time := total_wait_time self;
           phase_history := history |}
    end
  else self.

Definition calculate_statistics (self : t) : Py.result (Q * Q) :=
  letE avg_wait_time :=
    (if processed_vehicles self =? 0 then Py.Ok 0%Q
     else Py.truediv (total_wait_time self)
            (Z.max 1 (processed_vehicles self))) in
  letE per_second :=
    Py.truediv (processed_vehicles self) (Z.max 1 (time_elapsed self)) in
  Py.Ok (avg_wait_time, (per_second * 60)%Q).

(** The [for event in self.phase_history] loop of [run_simulation]:
    entries are rewritten in place, counts are restored in list
    order. *)
Fixpoint clear_accidents (now : Z) (history : list Entry) (vc : Counts)
  : list Entry * Counts :=
  match history with
  | [] => ([], vc)
  | e :: rest =>
      let '(e', vc') :=
        match e with
        | EventEntry time event direction count_restore =>
            if String.eqb event "accident_clear" && (time + 20 <=? now)
            then (EventEntry time "accident_cleared" direction
                    count_restore,
                  set vc direction count_restore)
            else (e, vc)
        | PhaseEntry _ _ _ _ _ => (e, vc)
        end in
      let '(rest', vc'') := clear_accidents now rest vc' in
      (e' :: rest', vc'')
  end.

Definition check_clearance (self : t) : t :=
  let '(h, vc) :=
    clear_accidents (time_elapsed self) (phase_history self)
      (vehicle_counts self) in
  with_counts (with_history self h) vc.

Definition increment_time (self : t) : t :=
  {| strategy_name := strategy_name self;
     visualization := visualization self;
     random_events := random_events self;
     strategy := strategy self;
     current_phase := current_phase self;
     phase_state := phase_state self;
     time_elapsed := time_elapsed self + 1;
     phase_start_time := phase_start_time self;
     phase_duration := phase_duration self;
     vehicle_counts := vehicle_counts self;
     processed_vehicles := processed_vehicles self;
     total_wait_time := total_wait_time self;
     phase_history := phase_history self |}.

(** One iteration of the main loop of [run_simulation]. *)
Definition tick (i : TickInput) (self : t) : t :=
  let self := update_vehicle_counts i self in
  let self := add_random_traffic_event i self in
  let self := process_vehicles self in
  let self := update_phase self in
  let self := check_clearance self in
  increment_time self.

(** The inputs are indexed by the tick they are read at. *)
Fixpoint simulation_loop (fuel : nat) (duration : Z)
    (inputs : Z -> TickInput) (self : t) : t :=
  match fuel with
  | O => self
  | S fuel' =>
      let i := inputs (time_elapsed self) in
      if (time_elapsed self <? duration) && negb (stop_set i)
      then simulation_loop fuel' duration inputs (tick i self)
      else self
  end.

(** [run_simulation]: each iteration adds one to [time_elapsed], so
    the loop makes at most [duration - time_elapsed] iterations. *)
Definition run_simulation (duration : Z) (inputs : Z -> TickInput)
    (self : t) : t :=
  simulation_loop (Z.to_nat (duration - time_elapsed self)) duration
    inputs self.

(** The inputs consumed by the loop, in order. *)
Fixpoint consumed (fuel : nat) (duration : Z) (inputs : Z -> TickInput)
    (self : t) : list TickInput :=
  match fuel with
  | O => []
  | S fuel' =>
      let i := inputs (time_elapsed self) in
      if (time_elapsed self <? duration) && negb (stop_set i)
      then i :: consumed fuel' duration inputs (tick i self)
      else []
  end.

(** The inputs read by [run_simulation]. *)
Definition run_inputs (duration : Z) (inputs : Z -> TickInput) (self : t)
  : list TickInput :=
  consumed (Z.to_nat (duration - time_elapsed self)) duration inputs self.

End Controller.

Arguments t Strategy : clear implicits.

(** The strategy interface served by fixed_time.py of the control
    package, for running the controller on concrete inputs. *)
#[global] Instance fixed_time_api : StrategyAPI FixedTime.t :=
  {| create := fun _ => FixedTime.init;
     update := fun s _ _ => s;
     get_phase_duration := fun s p _ =>
       (match p with
        | North_South => FixedTime.ns_green_time s
        | East_West => FixedTime.ew_green_time s
        end, s);
     strategy_yellow_time := fun s => yellow_time (FixedTime.base s) |}.

End Simulation.

(* ------------------------------------------------------------------ *)
(** * Vocabulary of the properties, and concrete runs *)

Import Strategies.

(** ** Snapshots and timings *)

(** A snapshot that carries vehicle counts. *)
Definition snapshot (vc : gmap string Z) : option TrafficData :=
  Some {| vehicle_counts := Some vc |}.

(** The dict literal [{k1: v1, ...}]. *)
Definition counts_from (l : list (string * Z)) : gmap string Z :=
  list_to_map l.

(** Both entries of the timings carry the yellow duration [y]. *)
Definition yellow_is (y : Z) (tm : Timings) : Prop :=
  yellow (north_south tm) = y /\ yellow (east_west tm) = y.

(** The names a strategy can be selected by. *)
Definition known_names : list string :=
  ["fixed"; "proportional"; "webster"; "adaptive"]%string.

(** The Webster configuration cannot divide by zero. *)
Definition webster_valid (s : Webster.t) : Prop :=
  Webster.saturation_flow s * north (Webster.lanes s) <> 0
  /\ Webster.saturation_flow s * south (Webster.lanes s) <> 0
  /\ Webster.saturation_flow s * east (Webster.lanes s) <> 0
  /\ Webster.saturation_flow s * west (Webster.lanes s) <> 0.

(** ** Histories *)

(** The phases of the green records of a history, oldest first. *)
Definition green_phases (h : list Simulation.Entry) : list Phase :=
  flat_map (fun e =>
    match e with
    | Simulation.PhaseEntry _ p Green _ _ => [p]
    | _ => []
    end) h.

(** The same for the records of controller.py. *)
Definition green_records (h : list Control.PhaseRecord) : list Phase :=
  flat_map (fun r =>
    match Control.state r with
    | Green => [Control.phase r]
    | Yellow => []
    end) h.

(** No two neighbours of the list are the same phase. *)
Fixpoint alternating (l : list Phase) : Prop :=
  match l with
  | p :: (q :: _) as rest => p <> q /\ alternating rest
  | _ => True
  end.

(** An entry changes at most by having its accident marker rewritten. *)
Inductive evolves : Simulation.Entry -> Simulation.Entry -> Prop :=
| evolves_same (e : Simulation.Entry) : evolves e e
| evolves_cleared (time : Z) (d : Simulation.Direction) (r : Z) :
    evolves (Simulation.EventEntry time "accident_clear" d r)
            (Simulation.EventEntry time "accident_cleared" d r).

(** [h'] is [h] with entries appended and markers rewritten. *)
Definition grows (h h' : list Simulation.Entry) : Prop :=
  exists kept appended, h' = kept ++ appended /\ Forall2 evolves h kept.

(** What the clearance loop of [run_simulation] makes of one entry when
    it runs at [time_elapsed = now]: the test and the assignment of the
    loop body, without the queue it restores. *)
Definition cleared_at (now : Z) (e : Simulation.Entry) : Simulation.Entry :=
  match e with
  | Simulation.EventEntry time event direction count_restore =>
      if String.eqb event "accident_clear" && (time + 20 <=? now)
      then Simulation.EventEntry time "accident_cleared" direction
             count_restore
      else e
  | Simulation.PhaseEntry _ _ _ _ _ => e
  end.

(** An entry as [add_random_traffic_event] or [update_phase] appends it
    in the iteration that starts with [time_elapsed = t]. *)
Definition appended_at (t : Z) (e : Simulation.Entry) : Prop :=
  match e with
  | Simulation.PhaseEntry time _ _ _ _ => time = t
  | Simulation.EventEntry time event _ _ =>
      time = t /\ event = "accident_clear"%string
  end.

(** Successive [run_simulation] calls on one controller, each with its
    duration and the inputs it reads. *)
Definition run_each {Strategy : Type} `{Simulation.StrategyAPI Strategy}
    (runs : list (Z * (Z -> Simulation.TickInput)))
    (self : Simulation.t Strategy) : Simulation.t Strategy :=
  fold_left (fun self r => Simulation.run_simulation (fst r) (snd r) self)
    runs self.

(** ** Scheduler invariants *)

(** The scheduler's invariant: the green records so far alternate, and
    the last one is of the running phase exactly while that phase shows
    yellow. *)
Definition scheduled {Strategy : Type} (self : Simulation.t Strategy)
  : Prop :=
  alternating (green_phases (Simulation.phase_history self))
  /\ match Simulation.phase_state self with
     | Green =>
         last (green_phases (Simulation.phase_history self))
         <> Some (Simulation.current_phase self)
     | Yellow =>
         last (green_phases (Simulation.phase_history self))
         = Some (Simulation.current_phase self)
     end.

(** The loop invariant of [start_simulation]: the timings in use carry
    the strategy's yellow constant, the phase has an end time, and among
    the records appended since the history was [h0] the green ones
    alternate, the last of them being that of the running phase. *)
Record running (b : Kind -> Base) (w : Webster.t)
    (h0 : list Control.PhaseRecord) (k : Kind) (l : Control.Loop) : Prop :=
  { run_active : Control.active_strategy (Control.ctl l) = Some k;
    run_base :
      forall k', base_of (Control.strategies (Control.ctl l)) k' = b k';
    run_webster : webster (Control.strategies (Control.ctl l)) = w;
    run_yellow : yellow_is (yellow_time (b k)) (Control.timings l);
    run_end : is_Some (Control.phase_end_time (Control.ctl l));
    run_history :
      exists recs,
        Control.phase_history (Control.ctl l) = h0 ++ recs
        /\ alternating (green_records recs)
        /\ last (green_records recs)
           = Some (Control.current_phase (Control.ctl l)) }.

(** The records one iteration appends when the deadline has passed. *)
Definition turn_records (b : Kind -> Base) (k : Kind) (l : Control.Loop)
    (y g : Control.PhaseRecord) : Prop :=
  Control.state y = Yellow
  /\ Control.phase y = Control.current_phase (Control.ctl l)
  /\ Control.duration y = yellow_time (b k)
  /\ Control.timestamp y = Control.current_time l + 1
  /\ Control.state g = Green
  /\ Control.phase g = other (Control.current_phase (Control.ctl l))
  /\ Control.timestamp g = Control.timestamp y + Control.duration y.

(** ** Vehicle accounting *)

(** Vehicles one tick adds to the queues: the generated snapshot and, when
    random events are enabled, a drawn surge. *)
Definition added_by (random_events : bool) (i : Simulation.TickInput) : Z :=
  Simulation.total (Simulation.generated i)
  + (if random_events then
       match Simulation.drawn i with
       | Some (Simulation.surge _ surge_amount) => surge_amount
       | _ => 0
       end
     else 0).

(** Vehicles added over the ticks that read the inputs [l]. *)
Definition added (random_events : bool) (l : list Simulation.TickInput) : Z :=
  fold_right (fun i acc => added_by random_events i + acc) 0 l.

(** A tick in which no roadblock and no accident takes effect. *)
Definition calm (random_events : bool) (i : Simulation.TickInput) : Prop :=
  random_events = false
  \/ match Simulation.drawn i with
     | Some (Simulation.roadblock _) | Some (Simulation.accident _) => False
     | _ => True
     end.

(** Inputs as the generator and [random.randint(10, 30)] produce them. *)
Definition well_formed (i : Simulation.TickInput) : Prop :=
  (forall d, 0 <= Simulation.get (Simulation.generated i) d)
  /\ match Simulation.drawn i with
     | Some (Simulation.surge _ surge_amount) => 10 <= surge_amount <= 30
     | _ => True
     end.

(** Every queue holds a non-negative count. *)
Definition non_negative (vc : Simulation.Counts) : Prop :=
  forall d, 0 <= Simulation.get vc d.

(** The restore counts of the accident entries not yet processed. *)
Definition pending_of (e : Simulation.Entry) : Z :=
  match e with
  | Simulation.EventEntry _ event _ count_restore =>
      if String.eqb event "accident_clear" then count_restore else 0
  | Simulation.PhaseEntry _ _ _ _ _ => 0
  end.

Definition pending (h : list Simulation.Entry) : Z :=
  fold_right (fun e acc => pending_of e + acc) 0 h.

(** An accident entry not yet processed. *)
Definition is_pending (e : Simulation.Entry) : bool :=
  match e with
  | Simulation.EventEntry _ event _ _ => String.eqb event "accident_clear"
  | Simulation.PhaseEntry _ _ _ _ _ => false
  end.

(** No pending restore count is negative. *)
Definition pending_non_negative (h : list Simulation.Entry) : Prop :=
  Forall (fun e => 0 <= pending_of e) h.

(** ** Concrete runs *)

(** The controller [TrafficController("fixed", visualization=False)] of
    traffic_controller.py right after construction. *)
Definition fresh : Simulation.t FixedTime.t :=
  {| Simulation.strategy_name := "fixed";
     Simulation.visualization := false;
     Simulation.random_events := true;
     Simulation.strategy := FixedTime.init;
     Simulation.current_phase := North_South;
     Simulation.phase_state := Green;
     Simulation.time_elapsed := 0;
     Simulation.phase_start_time := 0;
     Simulation.phase_duration := 30;
     Simulation.vehicle_counts := Simulation.zero_counts;
     Simulation.processed_vehicles := 0;
     Simulation.total_wait_time := 0;
     Simulation.phase_history := [] |}.

(** Inputs that add the same snapshot every tick and draw no event. *)
Definition steady (time : Z) : Simulation.TickInput :=
  {| Simulation.generated :=
       {| north := 2; south := 1; east := 3; west := 0 |};
     Simulation.predicted := Simulation.zero_counts;
     Simulation.drawn := None;
     Simulation.stop_set := false |}.

(** A run with one accident, north, at tick 0. *)
Definition one_accident (time : Z) : Simulation.TickInput :=
  {| Simulation.generated :=
       {| north := 4; south := 0; east := 0; west := 0 |};
     Simulation.predicted := Simulation.zero_counts;
     Simulation.drawn :=
       if time =? 0 then Some (Simulation.accident Simulation.north_inbound)
       else None;
     Simulation.stop_set := false |}.

(** A one-tick run: 20 vehicles arrive north and a roadblock fires
    there. *)
Definition one_roadblock (time : Z) : Simulation.TickInput :=
  {| Simulation.generated :=
       {| north := 20; south := 0; east := 0; west := 0 |};
     Simulation.predicted := Simulation.zero_counts;
     Simulation.drawn := Some (Simulation.roadblock Simulation.north_inbound);
     Simulation.stop_set := false |}.

(** A controller state seven ticks into a run, with 20 vehicles queued
    north. *)
Definition queued_state : Simulation.t FixedTime.t :=
  {| Simulation.strategy_name := "fixed";
     Simulation.visualization := false;
     Simulation.random_events := true;
     Simulation.strategy := FixedTime.init;
     Simulation.current_phase := North_South;
     Simulation.phase_state := Green;
     Simulation.time_elapsed := 7;
     Simulation.phase_start_time := 0;
     Simulation.phase_duration := 30;
     Simulation.vehicle_counts :=
       {| north := 20; south := 4; east := 9; west := 1 |};
     Simulation.processed_vehicles := 12;
     Simulation.total_wait_time := 40;
     Simulation.phase_history := [] |}.

(** A tick whose draw is a roadblock north. *)
Definition roadblock_north : Simulation.TickInput :=
  {| Simulation.generated := Simulation.zero_counts;
     Simulation.predicted := Simulation.zero_counts;
     Simulation.drawn := Some (Simulation.roadblock Simulation.north_inbound);
     Simulation.stop_set := false |}.

(** A data generator that returns the same snapshot on every call. *)
Definition steady_supply (n : nat) : gmap string Z :=
  counts_from [("north", 10); ("south", 12); ("east", 8); ("west", 9)]%string.

(** A run of controller.py on the fixed strategy: the loop state after
    [start], the state 29 seconds in, and the state after the next
    iteration, which finds the 30-second green elapsed. *)
Definition fixed_controller (calls : nat) (data : nat) (p : Phase)
    (end_time : Z) (h : list Control.PhaseRecord) : Control.t :=
  {| Control.data_generator :=
       {| Control.supply := steady_supply; Control.calls := calls |};
     Control.strategies := instances_init;
     Control.active_strategy := Some Fixed;
     Control.current_data := Some (steady_supply data);
     Control.current_phase := p;
     Control.phase_end_time := Some end_time;
     Control.phase_history := h |}.

Definition first_green : Control.PhaseRecord :=
  {| Control.timestamp := 0; Control.phase := North_South;
     Control.state := Green; Control.duration := 30;
     Control.rec_vehicle_counts := steady_supply 0 |}.

Definition started : Control.Loop :=
  {| Control.ctl := fixed_controller 1 0 North_South 30 [first_green];
     Control.timings := both 30 30 3;
     Control.current_time := 0;
     Control.next_update := 0 |}.

Definition before_deadline : Control.Loop :=
  {| Control.ctl := fixed_controller 7 6 North_South 30 [first_green];
     Control.timings := both 30 30 3;
     Control.current_time := 29;
     Control.next_update := 31 |}.

Definition after_deadline : Control.Loop :=
  {| Control.ctl :=
       fixed_controller 7 6 East_West 63
         [first_green;
          {| Control.timestamp := 30; Control.phase := North_South;
             Control.state := Yellow; Control.duration := 3;
             Control.rec_vehicle_counts := steady_supply 6 |};
          {| Control.timestamp := 33; Control.phase := East_West;
             Control.state := Green; Control.duration := 30;
             Control.rec_vehicle_counts := steady_supply 6 |}];
     Control.timings := both 30 30 3;
     Control.current_time := 33;
     Control.next_update := 31 |}.

(* ------------------------------------------------------------------ *)
(** * The data generator (src/monitoring/data_generator.py)

    [datetime] values are read through their [hour] and [weekday()]
    fields and compared with each other; a point in time is a number of
    seconds on one clock.  The draws of [random] are arguments of the
    functions that make them. *)

Module Generator.

Inductive exn : Type :=
| KeyError (key : string)
| ValueError.

Inductive outcome (A : Type) : Type :=
| Return (a : A)
| Raise (e : exn).
Arguments Return {A} a.
Arguments Raise {A} e.

Definition and_then {A B} (m : outcome A) (k : A -> outcome B)
  : outcome B :=
  match m with
  | Return a => k a
  | Raise e => Raise e
  end.

Definition Time : Type := Z.

(** One value of [self.active_events]. *)
Record Event : Type :=
  { type : string;
    affected_directions : list string;
    impact : gmap string Q;
    end_time : Time }.

(** A dict with int keys, in insertion order. *)
Definition Dict (A : Type) : Type := list (Z * A).

(** [d[k] = v]: an existing key keeps its position. *)
Fixpoint assign {A} (k : Z) (v : A) (d : Dict A) : Dict A :=
  match d with
  | [] => [(k, v)]
  | (k', v') :: r =>
      if k' =? k then (k, v) :: r else (k', v') :: assign k v r
  end.

(** [del d[k]] for a key of [d]. *)
Fixpoint del {A} (k : Z) (d : Dict A) : Dict A :=
  match d with
  | [] => []
  | (k', v') :: r => if k' =? k then r else (k', v') :: del k r
  end.

Definition keys {A} (d : Dict A) : list Z := map fst d.
Definition values {A} (d : Dict A) : list A := map snd d.

Record t : Type :=
  { base_volume : gmap string Z;
    active_events : Dict Event }.

Definition default_base_volume : gmap string Z :=
  list_to_map [("north", 10); ("south", 12); ("east", 8);
               ("west", 9)]%string.

(** [__init__]; [self.directions] is the key list of [base_volume]. *)
Definition init (base_volume : gmap string Z) : t :=
  {| base_volume := base_volume; active_events := [] |}.

(** [factors[key] *= x] *)
Definition scale (key : string) (x : Q) (factors : gmap string Q)
  : outcome (gmap string Q) :=
  match factors !! key with
  | Some f => Return (<[key := (f * x)%Q]> factors)
  | None => Raise (KeyError key)
  end.

(** [for direction in factors: factors[direction] *= x] *)
Definition scale_all (x : Q) (factors : gmap string Q) : gmap string Q :=
  (fun f => (f * x)%Q) <$> factors.

(** [get_time_factors] at a timestamp with the given [hour] and
    [weekday()]. *)
Definition get_time_factors (self : t) (hour weekday : Z)
  : outcome (gmap string Q) :=
  let is_weekend := 5 <=? weekday in
  let factors := (fun _ => 1.0%Q) <$> base_volume self in
  and_then
    (if (7 <=? hour) && (hour <? 9) then
       if negb is_weekend then
         and_then (scale "south" 1.8 factors) (fun factors =>
         and_then (scale "east" 1.5 factors) (fun factors =>
         and_then (scale "north" 0.9 factors) (fun factors =>
         scale "west" 0.8 factors)))
       else Return factors
     else if (16 <=? hour) && (hour <? 18) then
       if negb is_weekend then
         and_then (scale "north" 1.8 factors) (fun factors =>
         and_then (scale "west" 1.6 factors) (fun factors =>
         and_then (scale "south" 0.8 factors) (fun factors =>
         scale "east" 0.9 factors)))
       else Return factors
     else if (22 <=? hour) || (hour <? 5) then
       Return (scale_all 0.3 factors)
     else Return factors)
    (fun factors =>
       if is_weekend then
         if (10 <=? hour) && (hour <? 20) then
           and_then (scale "north" 1.3 factors) (fun factors =>
           scale "west" 1.2 factors)
         else Return (scale_all 0.7 factors)
       else Return factors).

(** The draws of [add_random_event]: the chosen type, the sampled
    directions, a [uniform(0.3, 0.7)] and a [uniform(1.0, 1.2)] value per
    direction, and the event id. *)
Record EventDraw : Type :=
  { drawn_type : string;
    drawn_affected : list string;
    reduced : string -> Q;
    raised : string -> Q;
    drawn_id : Z }.

Definition mem (d : string) (l : list string) : bool :=
  existsb (String.eqb d) l.

(** [add_random_event]: returns the id with the event; an empty
    direction list makes [random.randint(1, 0)] raise. *)
Definition add_random_event (self : t) (draw : EventDraw) (now : Time)
    (duration_minutes : Z) : outcome ((Z * Event) * t) :=
  if decide (base_volume self = ∅) then Raise ValueError
  else
    let impact :=
      map_imap (fun direction _ =>
        Some (if mem direction (drawn_affected draw)
              then reduced draw direction
              else raised draw direction)) (base_volume self) in
    let event :=
      {| type := drawn_type draw;
         affected_directions := drawn_affected draw;
         impact := impact;
         end_time := now + duration_minutes * 60 |} in
    Return ((drawn_id draw, event),
            {| base_volume := base_volume self;
               active_events :=
                 assign (drawn_id draw) event (active_events self) |}).

Definition expired (now : Time) (entry : Z * Event) : bool :=
  end_time (snd entry) <? now.

(** [remove_expired_events] at wall-clock time [now]. *)
Definition remove_expired_events (self : t) (now : Time) : list Z * t :=
  let expired_events :=
    keys (List.filter (expired now) (active_events self)) in
  (expired_events,
   {| base_volume := base_volume self;
      active_events :=
        fold_left (fun d event_id => del event_id d) expired_events
          (active_events self) |}).

(** The draws of [get_traffic_data]. *)
Record Noise : Type :=
  { noise_factor : string -> Q;      (* uniform(0.8, 1.2), per direction *)
    cars_share : Q;                  (* uniform(0.7, 0.8) *)
    trucks_share : Q;                (* uniform(0.1, 0.15) *)
    buses_share : Q;                 (* uniform(0.03, 0.07) *)
    speed : string -> Q }.           (* normalvariate(40, 10) *)

Record VehicleTypes : Type :=
  { cars : Z; trucks : Z; buses : Z; motorcycles : Z }.

(** The dict returned by [get_traffic_data], without its timestamp. *)
Record TrafficData : Type :=
  { vehicle_counts : gmap string Z;
    vehicle_types : VehicleTypes;
    avg_speeds : gmap string Q;
    data_active_events : option (list Z);
    congestion : option (gmap string Q) }.

(** [factor] after the loop over [self.active_events.values()]. *)
Definition event_factor (events : Dict Event) (direction : string)
    (factor : Q) : Q :=
  fold_left (fun f event =>
    (f * default 1.0%Q (impact event !! direction))%Q) (values events)
    factor.

(** [volume] of one direction.  [time_factors] has the keys of
    [base_volume], so [time_factors[direction]] is present. *)
Definition volume (events : Dict Event) (apply_events : bool)
    (time_factors : gmap string Q) (rnd : Noise) (direction : string)
    (base : Z) : Z :=
  let factor := default 1.0%Q (time_factors !! direction) in
  let factor :=
    if apply_events then event_factor events direction factor
    else factor in
  let mean_volume := (inject_Z base * factor)%Q in
  Z.max 1 (Qfloor (mean_volume * noise_factor rnd direction)).

(** [sum(d.values())] *)
Definition sum_values (d : gmap string Z) : Z :=
  map_fold (fun _ v acc => v + acc) 0 d.

Definition distribute (total_vehicles : Z) (rnd : Noise) : VehicleTypes :=
  let cars := Qfloor (inject_Z total_vehicles * cars_share rnd) in
  let trucks := Qfloor (inject_Z total_vehicles * trucks_share rnd) in
  let buses := Qfloor (inject_Z total_vehicles * buses_share rnd) in
  {| cars := cars; trucks := trucks; buses := buses;
     motorcycles := total_vehicles - (cars + trucks + buses + 0) |}.

(** [congestion[direction]] after the loop over the events. *)
Definition congestion_level (events : Dict Event) (direction : string)
    (count : Z) : Q :=
  let capacity := 20 in
  fold_left (fun c event =>
    if mem direction (affected_directions event)
    then Py.min 1.0 (c * 1.5)%Q else c) (values events)
    (Py.min 1.0 (inject_Z count / inject_Z capacity)%Q).

(** [get_traffic_data(timestamp, include_events)]: [hour] and [weekday]
    are those of [timestamp], [now] is the wall clock read by
    [remove_expired_events]. *)
Definition get_traffic_data (self : t) (hour weekday : Z) (now : Time)
    (include_events : bool) (rnd : Noise) : outcome (TrafficData * t) :=
  and_then (get_time_factors self hour weekday) (fun time_factors =>
    let self :=
      if include_events then snd (remove_expired_events self now)
      else self in
    let events := active_events self in
    let apply_events :=
      include_events && match events with [] => false | _ => true end in
    let counts :=
      map_imap (fun direction base =>
        Some (volume events apply_events time_factors rnd direction base))
        (base_volume self) in
    Return
      ({| vehicle_counts := counts;
          vehicle_types := distribute (sum_values counts) rnd;
          avg_speeds :=
            map_imap (fun direction _ =>
              Some (Py.max (inject_Z 10) (speed rnd direction)))
              (base_volume self);
          data_active_events :=
            if apply_events then Some (keys events) else None;
          congestion :=
            if apply_events then
              Some (map_imap (fun direction count =>
                      Some (congestion_level events direction count))
                      counts)
            else None |},
       self)).

End Generator.

(* ------------------------------------------------------------------ *)
(** * Further vocabulary *)

(** ** Strategies *)

(** [ns_count] and [ew_count] of a snapshot. *)
Definition pair_count (vc : gmap string Z) (p : Phase) : Z :=
  match p with
  | North_South => Py.get vc "north" 0 + Py.get vc "south" 0
  | East_West => Py.get vc "east" 0 + Py.get vc "west" 0
  end.

(** The green time a timing table gives a phase pair. *)
Definition green_of (tm : Timings) (p : Phase) : Z :=
  green (Control.timings_at tm p).

(** No trend buffer is longer than [max_trend_points]. *)
Definition trend_bounded (s : Adaptive.t) : Prop :=
  let td := Adaptive.trend_data s in
  let m := Adaptive.max_trend_points s in
  (length (north td) <= m /\ length (south td) <= m
   /\ length (east td) <= m /\ length (west td) <= m)%nat.

(** ** Histories in time order *)

(** A list of times that never goes back. *)
Fixpoint chronological (l : list Z) : Prop :=
  match l with
  | a :: (b :: _) as rest => a <= b /\ chronological rest
  | _ => True
  end.

(** Every record's duration is the one the timing table gives its phase
    and state. *)
Definition from_table (tm : Timings) (r : Control.PhaseRecord) : Prop :=
  Control.duration r
  = match Control.state r with
    | Green => green (Control.timings_at tm (Control.phase r))
    | Yellow => yellow (Control.timings_at tm (Control.phase r))
    end.

(** The records appended to the history [h0] are in time order, none is
    later than the loop's clock, and the first of them is the north-south
    green of second 0. *)
Definition timed (h0 : list Control.PhaseRecord) (l : Control.Loop)
  : Prop :=
  exists first rest,
    Control.phase_history (Control.ctl l) = h0 ++ first :: rest
    /\ Control.timestamp first = 0
    /\ Control.phase first = North_South
    /\ Control.state first = Green
    /\ chronological (map Control.timestamp (first :: rest))
    /\ Forall (fun r => Control.timestamp r <= Control.current_time l)
         (first :: rest).

(** The records appended to the history [h0] take their durations from
    the timing table [tm], which is the one in use. *)
Definition tabled (h0 : list Control.PhaseRecord) (tm : Timings)
    (l : Control.Loop) : Prop :=
  Control.timings l = tm
  /\ exists recs,
       Control.phase_history (Control.ctl l) = h0 ++ recs
       /\ Forall (from_table tm) recs.

(** ** Queues and ticks *)

(** [flow_rate] of [process_vehicles]. *)
Definition flow_rate (st : Signal) : Z :=
  match st with Green => 3 | Yellow => 1 end.

(** The vehicles queued on the two directions of a phase pair. *)
Definition queued (vc : Simulation.Counts) (p : Phase) : Z :=
  match p with
  | North_South => north vc + south vc
  | East_West => east vc + west vc
  end.

(** The [time] key of a history entry of traffic_controller.py. *)
Definition entry_time (e : Simulation.Entry) : Z :=
  match e with
  | Simulation.PhaseEntry time _ _ _ _ => time
  | Simulation.EventEntry time _ _ _ => time
  end.

(** The phase records of a history, without their queue copies. *)
Definition phase_records (h : list Simulation.Entry)
  : list (Z * Phase * Signal * Z) :=
  flat_map (fun e =>
    match e with
    | Simulation.PhaseEntry time p st d _ => [(time, p, st, d)]
    | Simulation.EventEntry _ _ _ _ => []
    end) h.

(** The entries of the history are in time order and all of them were
    written before the present tick. *)
Definition in_time_order {Strategy : Type} (self : Simulation.t Strategy)
  : Prop :=
  chronological (map entry_time (Simulation.phase_history self))
  /\ Forall (fun e => entry_time e < Simulation.time_elapsed self)
       (Simulation.phase_history self).

(** A yellow record lasts five seconds. *)
Definition yellow_five (r : Z * Phase * Signal * Z) : Prop :=
  match r with
  | (_, _, Yellow, d) => d = 5
  | (_, _, Green, _) => True
  end.

(** The opening of a run: either no phase has been recorded, the first
    north-south green is still on with its 30 seconds and the clock is at
    most at [bound]; or the first phase record is that green, closed at
    second 30. *)
Definition opening {Strategy : Type} (bound : Z)
    (self : Simulation.t Strategy) : Prop :=
  (phase_records (Simulation.phase_history self) = []
   /\ Simulation.phase_state self = Green
   /\ Simulation.current_phase self = North_South
   /\ Simulation.phase_start_time self = 0
   /\ Simulation.phase_duration self = 30
   /\ Simulation.time_elapsed self <= bound)
  \/ (exists rest,
        phase_records (Simulation.phase_history self)
        = (30, North_South, Green, 30) :: rest).

(** Yellow lasts five seconds, in the records and in the running
    phase. *)
Definition yellows_last_five {Strategy : Type}
    (self : Simulation.t Strategy) : Prop :=
  Forall yellow_five (phase_records (Simulation.phase_history self))
  /\ (Simulation.phase_state self = Yellow ->
      Simulation.phase_duration self = 5).

(** An accident entry that the clearance loop processes at [now]. *)
Definition is_due (now : Z) (e : Simulation.Entry) : bool :=
  match e with
  | Simulation.EventEntry time event _ _ =>
      String.eqb event "accident_clear" && (time + 20 <=? now)
  | Simulation.PhaseEntry _ _ _ _ _ => false
  end.

(** The same, for one direction. *)
Definition is_due_for (now : Z) (d : Simulation.Direction)
    (e : Simulation.Entry) : bool :=
  match e with
  | Simulation.EventEntry time event d' _ =>
      String.eqb event "accident_clear" && (time + 20 <=? now)
      && match d, d' with
         | Simulation.north_inbound, Simulation.north_inbound
         | Simulation.south_inbound, Simulation.south_inbound
         | Simulation.east_inbound, Simulation.east_inbound
         | Simulation.west_inbound, Simulation.west_inbound => true
         | _, _ => false
         end
  | Simulation.PhaseEntry _ _ _ _ _ => false
  end.

(** ** Outcomes of the generator *)

(** [f] has exactly the keys of [bv]. *)
Definition same_keys {A B} (f : gmap string A) (bv : gmap string B) : Prop :=
  forall d, is_Some (f !! d) <-> is_Some (bv !! d).

(** The four directions [get_time_factors] names. *)
Definition compass : list string := ["north"; "south"; "east"; "west"]%string.

(** An outcome that a generator on [bv] can produce: a dict over the keys
    of [bv], or a [KeyError] for a compass direction [bv] lacks. *)
Definition fine (bv : gmap string Z)
    (m : Generator.outcome (gmap string Q)) : Prop :=
  match m with
  | Generator.Return f => same_keys f bv
  | Generator.Raise (Generator.KeyError key) =>
      bv !! key = None /\ In key compass
  | Generator.Raise Generator.ValueError => False
  end.

(** The values of a dict of factors lie between 0.2 and 1.8. *)
Definition moderate (f : gmap string Q) : Prop :=
  forall d x, f !! d = Some x -> (0.2 <= x <= 1.8)%Q.

(** ** Concrete inputs *)

(** A tick whose draw is an accident east. *)
Definition accident_east : Simulation.TickInput :=
  {| Simulation.generated := Simulation.zero_counts;
     Simulation.predicted := Simulation.zero_counts;
     Simulation.drawn := Some (Simulation.accident Simulation.east_inbound);
     Simulation.stop_set := false |}.

(** A tick whose draw is a surge of 12 vehicles west. *)
Definition surge_west : Simulation.TickInput :=
  {| Simulation.generated := Simulation.zero_counts;
     Simulation.predicted := Simulation.zero_counts;
     Simulation.drawn := Some (Simulation.surge Simulation.west_inbound 12);
     Simulation.stop_set := false |}.

(** The steady inputs with the stop flag found set at tick 40. *)
Definition stopped_at_40 (time : Z) : Simulation.TickInput :=
  {| Simulation.generated :=
       {| north := 2; south := 1; east := 3; west := 0 |};
     Simulation.predicted := Simulation.zero_counts;
     Simulation.drawn := None;
     Simulation.stop_set := time =? 40 |}.

(** A generator built on a base volume without east and south. *)
Definition two_way : Generator.t :=
  Generator.init (list_to_map [("north", 10); ("west", 9)]%string).

(** An event over the north leg that ends at second 900. *)
Definition north_closed : Generator.Event :=
  {| Generator.type := "construction";
     Generator.affected_directions := ["north"%string];
     Generator.impact :=
       list_to_map [("north", 0.5%Q); ("south", 1.1%Q); ("east", 1.0%Q);
                    ("west", 1.2%Q)]%string;
     Generator.end_time := 900 |}.

(** The default generator with two events, the first one over at
    second 900 and the second at second 1800. *)
Definition busy_generator : Generator.t :=
  {| Generator.base_volume := Generator.default_base_volume;
     Generator.active_events :=
       [(31337, north_closed);
        (27182,
         {| Generator.type := "weather";
            Generator.affected_directions := ["east"; "west"]%string;
            Generator.impact :=
              list_to_map [("north", 1.0%Q); ("south", 1.0%Q);
                           ("east", 0.4%Q); ("west", 0.6%Q)]%string;
            Generator.end_time := 1800 |})] |}.

(** Draws at the middle of their ranges. *)
Definition even_noise : Generator.Noise :=
  {| Generator.noise_factor := fun _ => 1.0%Q;
     Generator.cars_share := 0.75%Q;
     Generator.trucks_share := 0.12%Q;
     Generator.buses_share := 0.05%Q;
     Generator.speed := fun _ => 40.0%Q |}.

(** Draws at the upper ends of their ranges. *)
Definition upper_noise : Generator.Noise :=
  {| Generator.noise_factor := fun _ => 1.2%Q;
     Generator.cars_share := 0.8%Q;
     Generator.trucks_share := 0.15%Q;
     Generator.buses_share := 0.07%Q;
     Generator.speed := fun _ => 40.0%Q |}.

(* ------------------------------------------------------------------ *)
(** * Properties *)

(** ** Python numerics *)

Lemma ltb_false_iff (x y : Q) : Py.ltb x y = false <-> (y <= x)%Q.
Proof.
  unfold Py.ltb. rewrite negb_false_iff. apply Qle_bool_iff.
Qed.

Lemma ltb_true_iff (x y : Q) : Py.ltb x y = true <-> (x < y)%Q.
Proof.
  unfold Py.ltb. rewrite negb_true_iff. split; intros E.
  - apply Qnot_le_lt. intros L. apply Qle_bool_iff in L. congruence.
  - destruct (Qle_bool y x) eqn:L; [|reflexivity].
    apply Qle_bool_iff in L. exfalso. exact (Qlt_not_le _ _ E L).
Qed.

#[export] Instance int_proper : Proper (Qeq ==> eq) Py.int.
Proof.
  intros x y E. unfold Py.int.
  rewrite (Qleb_comp 0%Q 0%Q (Qeq_refl 0%Q) x y E).
  destruct (Qle_bool 0 y); [apply Qfloor_comp | apply Qceiling_comp]; exact E.
Qed.

(** [int(q * 0.5)] on a non-negative int is floor division by two. *)
Lemma int_half (q : Z) : 0 <= q -> Py.int (inject_Z q * 0.5)%Q = q / 2.
Proof.
  intros Hq. unfold Py.int.
  assert (E : (inject_Z q * 0.5 == q # 2)%Q).
  { unfold Qeq. simpl. lia. }
  assert (P : Qle_bool 0 (inject_Z q * 0.5)%Q = true).
  { apply Qle_bool_iff. rewrite E. unfold Qle. simpl. lia. }
  rewrite P, (Qfloor_comp _ _ E). reflexivity.
Qed.

(** ** Timing strategies *)

Lemma both_yellow (a b y : Z) : yellow_is y (both a b y).
Proof. split; reflexivity. Qed.

Lemma fixed_yellow (s : FixedTime.t) (td : option TrafficData) :
  yellow_is (yellow_time (FixedTime.base s))
    (FixedTime.calculate_phase_times s td).
Proof. apply both_yellow. Qed.

Lemma proportional_yellow (s : Proportional.t) (td : option TrafficData) :
  yellow_is (yellow_time (Proportional.base s))
    (Proportional.calculate_phase_times s td).
Proof.
  unfold Proportional.calculate_phase_times.
  destruct (counts_of td) as [vc|]; [|apply both_yellow].
  destruct (0 <? _); [|apply both_yellow].
  destruct (Proportional.ratios _ _ _) as [a b].
  destruct (_ <? _); apply both_yellow.
Qed.

Lemma webster_yellow (s : Webster.t) (td : option TrafficData) (tm : Timings) :
  Webster.calculate_phase_times s td = Py.Ok tm ->
  yellow_is (yellow_time (Webster.base s)) tm.
Proof.
  unfold Webster.calculate_phase_times.
  destruct (counts_of td) as [vc|].
  - destruct (Webster.flow_ratios s vc) as [r|e]; simpl; [|discriminate].
    destruct (Py.ltb _ _); intros [= <-]; apply both_yellow.
  - intros [= <-]. apply both_yellow.
Qed.

Lemma adaptive_yellow (s : Adaptive.t) (vc : gmap string Z) :
  yellow_is (yellow_time (Adaptive.base s))
    (fst (Adaptive.calculate_phase_times s (snapshot vc))).
Proof.
  unfold Adaptive.calculate_phase_times, snapshot.
  cbn [counts_of vehicle_counts].
  destruct (Adaptive.target_green _ _) as [a b]. apply both_yellow.
Qed.

Lemma adaptive_base_kept (s : Adaptive.t) (td : option TrafficData) :
  Adaptive.base (snd (Adaptive.calculate_phase_times s td)) = Adaptive.base s.
Proof.
  unfold Adaptive.calculate_phase_times, Adaptive.update_trends.
  destruct (counts_of td) as [vc|]; [|reflexivity].
  destruct (Adaptive.target_green _ _) as [a b]. reflexivity.
Qed.

(** The sibling path that does clamp: [FixedTimeStrategy.set_times] keeps
    both green times inside [[min_green_time, max_green_time]]. *)
Lemma fixed_set_times_in_bounds (s : FixedTime.t) (ns ew : Z) :
  min_green_time (FixedTime.base s) <= max_green_time (FixedTime.base s) ->
  let tm := FixedTime.calculate_phase_times (FixedTime.set_times s ns ew) None in
  min_green_time (FixedTime.base s) <= green (north_south tm)
    <= max_green_time (FixedTime.base s) /\
  min_green_time (FixedTime.base s) <= green (east_west tm)
    <= max_green_time (FixedTime.base s).
Proof. simpl. lia. Qed.

(** C1 (the code evaluated at the failing inputs).  No strategy but the
    fixed one ever compares a green time with [max_green_time].  With the
    default Webster configuration and a snapshot of 150 vehicles from the
    north and none elsewhere, [calculate_phase_times] returns a
    north-south green of 172 seconds; the default Adaptive strategy, fed
    the snapshot north 10, south 12, east 8, west 9 twice, returns a
    north-south green of 61 seconds on the second call.  Both are above
    the strategy's [max_green_time] of 60.  The yellow entries are the
    configured [yellow_time]. *)
Theorem green_time_exceeds_max_green_time :
  Webster.calculate_phase_times Webster.init
    (snapshot (counts_from [("north", 150); ("south", 0); ("east", 0);
                            ("west", 0)]%string))
  = Py.Ok (both 172 5 (yellow_time (Webster.base Webster.init)))
  /\ (let vc := counts_from [("north", 10); ("south", 12); ("east", 8);
                             ("west", 9)]%string in
      let s1 :=
        snd (Adaptive.calculate_phase_times Adaptive.init (snapshot vc)) in
      fst (Adaptive.calculate_phase_times s1 (snapshot vc))
      = both 61 47 (yellow_time (Adaptive.base Adaptive.init)))
  /\ max_green_time (Webster.base Webster.init) = 60
  /\ max_green_time (Adaptive.base Adaptive.init) = 60.
Proof.
  split; [vm_compute; reflexivity|]. split; [vm_compute; reflexivity|].
  split; reflexivity.
Qed.

(** On the same snapshot the Adaptive green keeps rising on the third
    call. *)
Example adaptive_green_keeps_rising :
  let vc := counts_from [("north", 10); ("south", 12); ("east", 8);
                         ("west", 9)]%string in
  let s1 := snd (Adaptive.calculate_phase_times Adaptive.init (snapshot vc)) in
  let s2 := snd (Adaptive.calculate_phase_times s1 (snapshot vc)) in
  fst (Adaptive.calculate_phase_times s2 (snapshot vc)) = both 63 48 3.
Proof. vm_compute. reflexivity. Qed.

(** So does Proportional once [set_cycle_length] has raised the cycle. *)
Example proportional_green_exceeds_max_green_time :
  Proportional.calculate_phase_times
    (Proportional.set_cycle_length Proportional.init 180)
    (snapshot (counts_from [("north", 5); ("east", 5)]%string))
  = both 87 87 3.
Proof. vm_compute. reflexivity. Qed.

(** C9.  Whenever the critical flow ratios computed from the snapshot sum
    to [Y >= 0.95], the cycle length is [max_cycle_length] itself, and the
    green times are allocated out of that cycle. *)
Theorem webster_capacity_fallback
    (self : Webster.t) (vc : gmap string Z) (r : Q * Q) :
  Webster.flow_ratios self vc = Py.Ok r ->
  (0.95 <= Webster.total_flow_ratio r)%Q ->
  Webster.cycle_length self (Webster.total_flow_ratio r)
    = inject_Z (Webster.max_cycle_length self)
  /\ Webster.calculate_phase_times self (snapshot vc)
     = Py.Ok (Webster.allocate self
                (inject_Z (Webster.max_cycle_length self)) r).
Proof.
  intros Hr HY.
  assert (C : Webster.cycle_length self (Webster.total_flow_ratio r)
              = inject_Z (Webster.max_cycle_length self)).
  { unfold Webster.cycle_length.
    replace (Py.ltb (Webster.total_flow_ratio r) 0.95) with false;
      [reflexivity|]. symmetry. apply ltb_false_iff. exact HY. }
  split; [exact C|].
  unfold Webster.calculate_phase_times, snapshot. simpl. rewrite Hr. simpl.
  replace (Py.ltb (Webster.total_flow_ratio r) 0.001) with false.
  - rewrite C. reflexivity.
  - symmetry. apply ltb_false_iff.
    apply Qle_trans with (y := 0.95%Q); [|exact HY]. discriminate.
Qed.

Lemma webster_capacity_fallback_witness :
  let vc := counts_from [("north", 150)]%string in
  let r := (1800 # 1800, 0 # 1800)%Q in
  Webster.cycle_length Webster.init (Webster.total_flow_ratio r)
    = inject_Z 180
  /\ Webster.calculate_phase_times Webster.init (snapshot vc)
     = Py.Ok (Webster.allocate Webster.init (inject_Z 180) r).
Proof.
  apply (webster_capacity_fallback Webster.init
           (counts_from [("north", 150)]%string)
           (1800 # 1800, 0 # 1800)%Q).
  - vm_compute. reflexivity.
  - vm_compute. discriminate.
Defined.

(** *** Adaptive blending *)

Lemma blend_full (s : Adaptive.t) (target : Q) (previous : PhaseTimes) :
  (Adaptive.responsiveness s == 1)%Q ->
  (Adaptive.historical_weight s == 0)%Q ->
  Adaptive.blend s target previous = Py.int target.
Proof.
  intros Hr Hw. unfold Adaptive.blend. apply int_proper.
  rewrite Hr, Hw. ring.
Qed.

Lemma calculate_with_counts (s : Adaptive.t) (vc : gmap string Z) :
  let s' := Adaptive.update_trends s (snapshot vc) in
  let target := Adaptive.target_green s' vc in
  fst (Adaptive.calculate_phase_times s (snapshot vc))
  = both (Adaptive.blend s' (fst target) (north_south (Adaptive.previous_times s)))
         (Adaptive.blend s' (snd target) (east_west (Adaptive.previous_times s)))
         (yellow_time (Adaptive.base s)).
Proof.
  unfold Adaptive.calculate_phase_times, snapshot.
  cbn [counts_of vehicle_counts].
  destruct (Adaptive.target_green _ _) as [a b]. reflexivity.
Qed.

(** C8 (amended).  After [set_responsiveness(1.0)] the historical weight
    is zero, and on a snapshot with counts the returned green times are the
    integer truncations of the target green times computed in that call;
    replacing the stored [previous_times] does not change the result. *)
Theorem adaptive_full_responsiveness
    (self : Adaptive.t) (vc : gmap string Z) (times : Timings) :
  let s1 := Adaptive.set_responsiveness self 1.0 in
  let target := Adaptive.target_green
                  (Adaptive.update_trends s1 (snapshot vc)) vc in
  (Adaptive.historical_weight s1 == 0)%Q
  /\ fst (Adaptive.calculate_phase_times s1 (snapshot vc))
     = both (Py.int (fst target)) (Py.int (snd target))
            (yellow_time (Adaptive.base self))
  /\ fst (Adaptive.calculate_phase_times
            (Adaptive.set_previous_times s1 times) (snapshot vc))
     = fst (Adaptive.calculate_phase_times s1 (snapshot vc)).
Proof.
  intros s1 target.
  assert (Hr : forall s, (Adaptive.responsiveness
             (Adaptive.update_trends (Adaptive.set_responsiveness s 1.0)
                (snapshot vc)) == 1)%Q) by (intros; reflexivity).
  assert (Hw : forall s, (Adaptive.historical_weight
             (Adaptive.update_trends (Adaptive.set_responsiveness s 1.0)
                (snapshot vc)) == 0)%Q) by (intros; reflexivity).
  split; [reflexivity|].
  assert (E : fst (Adaptive.calculate_phase_times s1 (snapshot vc))
     = both (Py.int (fst target)) (Py.int (snd target))
            (yellow_time (Adaptive.base self))).
  { subst s1 target. rewrite calculate_with_counts. cbv zeta.
    rewrite !blend_full by apply Hr || apply Hw. reflexivity. }
  split; [exact E|].
  rewrite E. rewrite calculate_with_counts. cbv zeta.
  change (Adaptive.update_trends (Adaptive.set_previous_times s1 times)
            (snapshot vc))
    with (Adaptive.update_trends
            (Adaptive.set_responsiveness
               (Adaptive.set_previous_times self times) 1.0) (snapshot vc)).
  rewrite !blend_full by apply Hr || apply Hw. reflexivity.
Qed.

(** C8 as stated fails.  The returned green time is an int, the target is
    not: with one vehicle north and six east the north-south target is
    114/7 seconds and the returned green time is 16.  And on a call
    without vehicle counts no target is computed at all: the stored
    [previous_times] are what is returned. *)
Lemma adaptive_green_is_not_the_target :
  let s1 := Adaptive.set_responsiveness Adaptive.init 1.0 in
  let vc := counts_from [("north", 1); ("east", 6)]%string in
  let target := Adaptive.target_green
                  (Adaptive.update_trends s1 (snapshot vc)) vc in
  green (north_south (fst (Adaptive.calculate_phase_times s1 (snapshot vc))))
  = 16
  /\ (fst target == 114 # 7)%Q
  /\ ~ (inject_Z 16 == fst target)%Q
  /\ fst (Adaptive.calculate_phase_times
            (Adaptive.set_previous_times s1 (both 41 17 3)) None)
     = both 41 17 3.
Proof.
  cbv zeta. split; [vm_compute; reflexivity|].
  split; [vm_compute; reflexivity|].
  split; [vm_compute; discriminate | reflexivity].
Qed.

(* ------------------------------------------------------------------ *)
(** ** Strategy selection by name *)

Lemma control_unknown_lookup (name : string) :
  name ∉ known_names -> Control.strategy_names !! name = None.
Proof.
  intros Hn. unfold Control.strategy_names.
  apply not_elem_of_list_to_map_1. exact Hn.
Qed.

Lemma simulation_unknown_lookup {Strategy : Type}
    `{Simulation.StrategyAPI Strategy} (name : string) :
  name ∉ known_names -> Simulation.strategies !! name = None.
Proof.
  intros Hn. unfold Simulation.strategies.
  apply not_elem_of_list_to_map_1. exact Hn.
Qed.

(** C7 (amended).  An unknown name never installs a strategy of that name
    and is not an error of the selecting call: [_create_strategy], on a
    controller whose logger exists, logs one warning and returns the
    proportional strategy; [set_strategy] returns [False] and leaves the
    controller, its active strategy included, as it was. *)
Theorem unknown_strategy_name :
  (forall (Strategy : Type) (api : Simulation.StrategyAPI Strategy)
          (name : string),
      name ∉ known_names ->
      Simulation._create_strategy true name
      = Py.Ok (Simulation.create Proportional,
               [("Unknown strategy '" +:+ name +:+
                 "'. Using proportional strategy instead.")%string]))
  /\ (forall (self : Control.t) (name : string),
         Py.lower name ∉ known_names ->
         Control.set_strategy self name = (false, self)).
Proof.
  split.
  - intros Strategy api name Hn. unfold Simulation._create_strategy.
    rewrite (simulation_unknown_lookup name Hn). reflexivity.
  - intros self name Hn. unfold Control.set_strategy.
    rewrite (control_unknown_lookup _ Hn). reflexivity.
Qed.

Lemma not_known (name : string) :
  forallb (fun k => negb (String.eqb name k)) known_names = true ->
  name ∉ known_names.
Proof.
  intros Hb Hin. apply list_elem_of_In in Hin.
  rewrite forallb_forall in Hb. specialize (Hb _ Hin).
  rewrite String.eqb_refl in Hb. discriminate Hb.
Qed.

Lemma unknown_strategy_name_witness :
  Simulation._create_strategy (Strategy := FixedTime.t) true "turbo"
  = Py.Ok (FixedTime.init,
           ["Unknown strategy 'turbo'. Using proportional strategy instead."
           ]%string)
  /\ Control.set_strategy (Control.init "webster" (fun _ => ∅)) "Turbo"
     = (false, Control.init "webster" (fun _ => ∅)).
Proof.
  split.
  - exact (proj1 unknown_strategy_name FixedTime.t _ "turbo"%string
             (not_known "turbo" eq_refl)).
  - exact (proj2 unknown_strategy_name
             (Control.init "webster" (fun _ => ∅)) "Turbo"%string
             (not_known "turbo" eq_refl)).
Defined.

(** C7 as stated fails in controller.py: selecting an unknown name on a
    controller running the fixed strategy does not switch it to the
    proportional one. *)
Lemma set_strategy_unknown_does_not_fall_back :
  let c := Control.init "fixed" (fun _ => ∅) in
  Control.active_strategy c = Some Fixed
  /\ Control.set_strategy c "turbo" = (false, c)
  /\ Control.active_strategy (snd (Control.set_strategy c "turbo"))
     <> Some Proportional.
Proof.
  cbv zeta. split; [vm_compute; reflexivity|].
  split; [vm_compute; reflexivity|]. vm_compute. discriminate.
Qed.

(** In [TrafficController.__init__] of traffic_controller.py the strategy
    is created before [self.logger] is assigned, so there the warning
    cannot be logged: the constructor raises. *)
Example constructor_unknown_name_raises :
  Simulation.init (Strategy := FixedTime.t) "turbo" false true
  = Py.Raise Py.AttributeError.
Proof. vm_compute. reflexivity. Qed.

(** A controller of controller.py constructed with an unknown name has no
    active strategy, and [start_simulation] raises on it. *)
Example start_without_strategy_raises :
  Control.start_simulation (Control.init "turbo" (fun _ => ∅)) 10 5
  = Py.Raise Py.AttributeError.
Proof. vm_compute. reflexivity. Qed.

(* ------------------------------------------------------------------ *)
(** ** Statistics *)

(** C10.  [calculate_statistics] returns on every controller state, no
    division in it can raise: the average wait is 0 when nothing has been
    processed and [total_wait_time / max(1, processed_vehicles)]
    otherwise, and the throughput is
    [processed_vehicles / max(1, time_elapsed) * 60]. *)
Theorem calculate_statistics_total
    (Strategy : Type) (self : Simulation.t Strategy) :
  Simulation.calculate_statistics self
  = Py.Ok
      ((if Simulation.processed_vehicles self =? 0 then 0
        else inject_Z (Simulation.total_wait_time self)
             / inject_Z (Z.max 1 (Simulation.processed_vehicles self)))%Q,
       (inject_Z (Simulation.processed_vehicles self)
        / inject_Z (Z.max 1 (Simulation.time_elapsed self)) * 60)%Q).
Proof.
  unfold Simulation.calculate_statistics, Py.truediv.
  assert (P : (Z.max 1 (Simulation.processed_vehicles self) =? 0) = false)
    by (apply Z.eqb_neq; lia).
  assert (T : (Z.max 1 (Simulation.time_elapsed self) =? 0) = false)
    by (apply Z.eqb_neq; lia).
  rewrite P, T.
  destruct (Simulation.processed_vehicles self =? 0); reflexivity.
Qed.

(* ------------------------------------------------------------------ *)
(** ** Incidents *)

Section Incidents.
Context {Strategy : Type} `{Simulation.StrategyAPI Strategy}.
Import Simulation.

Lemma get_set_same (c : Counts) (d : Direction) (v : Z) :
  get (set c d v) d = v.
Proof. destruct d; reflexivity. Qed.

Lemma get_set_other (c : Counts) (d d' : Direction) (v : Z) :
  d' <> d -> get (set c d v) d' = get c d'.
Proof. destruct d, d'; intros N; try reflexivity; contradiction. Qed.

(** C6.  A roadblock drawn for a direction whose queue holds 20 vehicles
    leaves 10 there and changes no other queue (nor the history or the
    processed counter). *)
Theorem roadblock_halves_one_queue
    (self : t Strategy) (i : TickInput) (d : Direction) :
  random_events self = true ->
  drawn i = Some (roadblock d) ->
  get (vehicle_counts self) d = 20 ->
  let self' := add_random_traffic_event i self in
  get (vehicle_counts self') d = 10
  /\ (forall d', d' <> d ->
        get (vehicle_counts self') d' = get (vehicle_counts self) d')
  /\ phase_history self' = phase_history self
  /\ processed_vehicles self' = processed_vehicles self.
Proof.
  intros Hr Hd Hq. unfold add_random_traffic_event.
  rewrite Hr, Hd, Hq. cbn [negb with_counts vehicle_counts phase_history
    processed_vehicles].
  rewrite get_set_same.
  split; [reflexivity|]. split; [|split; reflexivity].
  intros d' Hn. apply get_set_other. exact Hn.
Qed.

End Incidents.

Lemma roadblock_halves_one_queue_witness :
  let self' :=
    Simulation.add_random_traffic_event roadblock_north queued_state in
  Simulation.get (Simulation.vehicle_counts self') Simulation.north_inbound
  = 10
  /\ (forall d', d' <> Simulation.north_inbound ->
        Simulation.get (Simulation.vehicle_counts self') d'
        = Simulation.get (Simulation.vehicle_counts queued_state) d')
  /\ Simulation.phase_history self' = Simulation.phase_history queued_state
  /\ Simulation.processed_vehicles self'
     = Simulation.processed_vehicles queued_state.
Proof.
  apply (roadblock_halves_one_queue queued_state roadblock_north
           Simulation.north_inbound); reflexivity.
Defined.

(* ------------------------------------------------------------------ *)
(** ** The run loop of traffic_controller.py *)

Lemma fresh_is_init : Simulation.init "fixed" false true = Py.Ok fresh.
Proof. reflexivity. Qed.

Lemma alternating_snoc (l : list Phase) (p : Phase) :
  alternating l -> last l <> Some p -> alternating (l ++ [p]).
Proof.
  induction l as [|a [|b l] IH]; intros Ha Hl.
  - exact I.
  - simpl. split; [|exact I]. intros ->. apply Hl. reflexivity.
  - destruct Ha as [Hab Ha]. split; [exact Hab|].
    apply IH; [exact Ha | exact Hl].
Qed.

Lemma evolves_trans (a b c : Simulation.Entry) :
  evolves a b -> evolves b c -> evolves a c.
Proof.
  intros [e|t d r] Hbc; [exact Hbc|].
  inversion Hbc; subst; constructor.
Qed.

Lemma evolves_all_same (h : list Simulation.Entry) : Forall2 evolves h h.
Proof. induction h; constructor; [constructor | assumption]. Qed.

Lemma evolves_all_trans (a b c : list Simulation.Entry) :
  Forall2 evolves a b -> Forall2 evolves b c -> Forall2 evolves a c.
Proof.
  intros Hab. revert c. induction Hab as [|x y a b Hxy Hab IH]; intros c Hbc.
  - inversion Hbc. constructor.
  - inversion Hbc as [|y' z b' c' Hyz Hbc']; subst.
    constructor; [eapply evolves_trans; eassumption | apply IH; assumption].
Qed.

Lemma grows_refl (h : list Simulation.Entry) : grows h h.
Proof.
  exists h, []. split; [symmetry; apply app_nil_r | apply evolves_all_same].
Qed.

Lemma grows_append (h : list Simulation.Entry) (e : Simulation.Entry) :
  grows h (h ++ [e]).
Proof. exists h, [e]. split; [reflexivity | apply evolves_all_same]. Qed.

Lemma grows_evolved (h h' : list Simulation.Entry) :
  Forall2 evolves h h' -> grows h h'.
Proof. intros E. exists h', []. split; [symmetry; apply app_nil_r | exact E]. Qed.

Lemma grows_trans (a b c : list Simulation.Entry) :
  grows a b -> grows b c -> grows a c.
Proof.
  intros (k1 & x1 & -> & E1) (k2 & x2 & -> & E2).
  apply Forall2_app_inv_l in E2 as (k1' & x1' & Ek & Ex & ->).
  exists k1', (x1' ++ x2). split; [symmetry; apply app_assoc|].
  eapply evolves_all_trans; eassumption.
Qed.

(** A later pass of the clearance loop absorbs an earlier one: an entry
    the earlier pass rewrote is no longer waiting, and an entry it left is
    judged by the later pass alone. *)
Lemma cleared_at_again (a b : Z) (e : Simulation.Entry) :
  a <= b -> cleared_at b (cleared_at a e) = cleared_at b e.
Proof.
  intros Hab. destruct e as [t p st dur c|t ev d r]; [reflexivity|].
  cbn [cleared_at].
  destruct (String.eqb ev "accident_clear") eqn:Ev; cbn [andb];
    [|cbn [cleared_at]; rewrite Ev; reflexivity].
  destruct (t + 20 <=? a) eqn:Da.
  - apply Z.leb_le in Da.
    assert (Db : (t + 20 <=? b) = true) by (apply Z.leb_le; lia).
    rewrite Db. reflexivity.
  - cbn [cleared_at]. rewrite Ev. reflexivity.
Qed.

(** The pass leaves an entry appended fewer than 20 ticks ago as it
    is. *)
Lemma cleared_at_fresh (now t : Z) (e : Simulation.Entry) :
  appended_at t e -> now < t + 20 -> cleared_at now e = e.
Proof.
  destruct e as [t' p st dur c|t' ev d r]; [reflexivity|].
  intros [-> ->] Hn. cbn [cleared_at].
  assert (D : (t + 20 <=? now) = false) by (apply Z.leb_gt; lia).
  rewrite D, andb_false_r. reflexivity.
Qed.

Section Run.
Context {Strategy : Type} `{Simulation.StrategyAPI Strategy}.
Import Simulation.

Implicit Types (self : t Strategy) (i : TickInput) (h : list Entry).

(** *** What each step of a tick leaves alone *)

Lemma process_vehicles_fields self :
  let self' := process_vehicles self in
  phase_history self' = phase_history self
  /\ current_phase self' = current_phase self
  /\ phase_state self' = phase_state self
  /\ random_events self' = random_events self
  /\ time_elapsed self' = time_elapsed self.
Proof.
  unfold process_vehicles.
  destruct (fold_left _ _ _) as [vc processed]. repeat split.
Qed.

Lemma update_vehicle_counts_fields i self :
  let self' := update_vehicle_counts i self in
  phase_history self' = phase_history self
  /\ current_phase self' = current_phase self
  /\ phase_state self' = phase_state self
  /\ random_events self' = random_events self
  /\ time_elapsed self' = time_elapsed self
  /\ processed_vehicles self' = processed_vehicles self
  /\ vehicle_counts self' = add_counts (vehicle_counts self) (generated i).
Proof.
  unfold update_vehicle_counts.
  destruct (String.eqb _ _); repeat split.
Qed.

Lemma add_random_traffic_event_fields i self :
  let self' := add_random_traffic_event i self in
  current_phase self' = current_phase self
  /\ phase_state self' = phase_state self
  /\ random_events self' = random_events self
  /\ time_elapsed self' = time_elapsed self
  /\ processed_vehicles self' = processed_vehicles self.
Proof.
  unfold add_random_traffic_event.
  destruct (random_events self) eqn:R; cbn [negb]; [|repeat split; exact R].
  destruct (drawn i) as [[d a|d|d]|]; repeat split; exact R.
Qed.

Lemma check_clearance_fields self :
  let self' := check_clearance self in
  current_phase self' = current_phase self
  /\ phase_state self' = phase_state self
  /\ random_events self' = random_events self
  /\ time_elapsed self' = time_elapsed self
  /\ processed_vehicles self' = processed_vehicles self.
Proof.
  unfold check_clearance.
  destruct (clear_accidents _ _ _) as [h vc]. repeat split.
Qed.

Lemma update_phase_fields self :
  let self' := update_phase self in
  random_events self' = random_events self
  /\ time_elapsed self' = time_elapsed self
  /\ processed_vehicles self' = processed_vehicles self
  /\ vehicle_counts self' = vehicle_counts self.
Proof.
  unfold update_phase.
  destruct (_ <=? _); [|repeat split].
  destruct (phase_state self); [repeat split|].
  destruct (get_phase_duration _ _ _) as [d s]. repeat split.
Qed.

(** *** C3: the history grows, entries only get their marker rewritten *)

Lemma clear_accidents_evolves now h (vc : Counts) :
  Forall2 evolves h (fst (clear_accidents now h vc)).
Proof.
  revert vc. induction h as [|e h IH]; intros vc; simpl; [constructor|].
  destruct e as [t p st dur c|t ev d r].
  - specialize (IH vc). destruct (clear_accidents now h vc) as [h' vc'].
    constructor; [constructor | exact IH].
  - destruct (String.eqb ev "accident_clear" && (t + 20 <=? now)) eqn:E.
    + apply andb_true_iff in E as [E _]. apply String.eqb_eq in E. subst ev.
      specialize (IH (set vc d r)).
      destruct (clear_accidents now h (set vc d r)) as [h' vc'].
      constructor; [constructor | exact IH].
    + specialize (IH vc). destruct (clear_accidents now h vc) as [h' vc'].
      constructor; [constructor | exact IH].
Qed.

(** The clearance loop applies [cleared_at] to every entry. *)
Lemma clear_accidents_rewrites now h (vc : Counts) :
  fst (clear_accidents now h vc) = map (cleared_at now) h.
Proof.
  revert vc. induction h as [|e h IH]; intros vc; [reflexivity|].
  cbn [clear_accidents map]. destruct e as [t p st dur c|t ev d r].
  - specialize (IH vc). destruct (clear_accidents now h vc) as [h' vc'].
    cbn [fst cleared_at] in *. rewrite IH. reflexivity.
  - cbn [cleared_at].
    destruct (String.eqb ev "accident_clear" && (t + 20 <=? now)).
    + specialize (IH (set vc d r)).
      destruct (clear_accidents now h (set vc d r)) as [h' vc'].
      cbn [fst] in *. rewrite IH. reflexivity.
    + specialize (IH vc). destruct (clear_accidents now h vc) as [h' vc'].
      cbn [fst] in *. rewrite IH. reflexivity.
Qed.

Lemma add_random_traffic_event_grows i self :
  grows (phase_history self)
        (phase_history (add_random_traffic_event i self)).
Proof.
  unfold add_random_traffic_event.
  destruct (random_events self); [|apply grows_refl].
  destruct (drawn i) as [[d a|d|d]|];
    try apply grows_refl. apply grows_append.
Qed.

Lemma update_phase_grows self :
  grows (phase_history self) (phase_history (update_phase self)).
Proof.
  unfold update_phase.
  destruct (_ <=? _); [|apply grows_refl].
  destruct (phase_state self); [apply grows_append|].
  destruct (get_phase_duration _ _ _) as [d s]. apply grows_append.
Qed.

Lemma check_clearance_grows self :
  grows (phase_history self) (phase_history (check_clearance self)).
Proof.
  unfold check_clearance.
  pose proof (clear_accidents_evolves (time_elapsed self)
                (phase_history self) (vehicle_counts self)) as E.
  destruct (clear_accidents _ _ _) as [h vc]. apply grows_evolved. exact E.
Qed.

Lemma tick_grows i self :
  grows (phase_history self) (phase_history (tick i self)).
Proof.
  unfold tick. cbn [increment_time phase_history].
  eapply grows_trans; [|apply check_clearance_grows].
  eapply grows_trans; [|apply update_phase_grows].
  destruct (process_vehicles_fields
              (add_random_traffic_event i (update_vehicle_counts i self)))
    as (-> & _).
  eapply grows_trans; [|apply add_random_traffic_event_grows].
  destruct (update_vehicle_counts_fields i self) as (-> & _).
  apply grows_refl.
Qed.

Lemma simulation_loop_grows (fuel : nat) (duration : Z)
    (inputs : Z -> TickInput) self :
  grows (phase_history self)
        (phase_history (simulation_loop fuel duration inputs self)).
Proof.
  revert self. induction fuel as [|fuel IH]; intros self; simpl.
  - apply grows_refl.
  - destruct (_ && _); [|apply grows_refl].
    eapply grows_trans; [apply tick_grows | apply IH].
Qed.

(** One iteration: the entries that were there are passed through
    [cleared_at] at the time the iteration started with, and the entries
    the iteration appended are as appended. *)
Lemma tick_rewrites i self :
  time_elapsed (tick i self) = time_elapsed self + 1
  /\ exists extra,
       phase_history (tick i self)
       = map (cleared_at (time_elapsed self)) (phase_history self) ++ extra
       /\ Forall (appended_at (time_elapsed self)) extra.
Proof.
  unfold tick.
  set (s1 := update_vehicle_counts i self).
  set (s2 := add_random_traffic_event i s1).
  set (s3 := process_vehicles s2).
  set (s4 := update_phase s3).
  destruct (update_vehicle_counts_fields i self)
    as (H1h & _ & _ & _ & H1t & _). fold s1 in H1h, H1t.
  destruct (add_random_traffic_event_fields i s1) as (_ & _ & _ & H2t & _).
  fold s2 in H2t.
  destruct (process_vehicles_fields s2) as (H3h & _ & _ & _ & H3t).
  fold s3 in H3h, H3t.
  destruct (update_phase_fields s3) as (_ & H4t & _). fold s4 in H4t.
  destruct (check_clearance_fields s4) as (_ & _ & _ & H5t & _).
  assert (T4 : time_elapsed s4 = time_elapsed self) by congruence.
  assert (T3 : time_elapsed s3 = time_elapsed self) by congruence.
  cbn [increment_time time_elapsed phase_history].
  split; [rewrite H5t, T4; reflexivity|].
  assert (X2 : exists x2, phase_history s2 = phase_history self ++ x2
                          /\ Forall (appended_at (time_elapsed self)) x2).
  { subst s2. unfold add_random_traffic_event.
    destruct (negb _);
      [exists []; rewrite app_nil_r, H1h; split; [reflexivity|constructor]|].
    destruct (drawn i) as [[d n|d|d]|];
      try (exists []; cbn [with_counts phase_history];
           rewrite app_nil_r, H1h; split; [reflexivity|constructor]).
    eexists [_]. cbn [with_history with_counts phase_history time_elapsed].
    rewrite H1h, H1t. split; [reflexivity|].
    constructor; [split; reflexivity|constructor]. }
  destruct X2 as (x2 & H2h & F2).
  assert (X4 : exists x4, phase_history s4 = phase_history s3 ++ x4
                          /\ Forall (appended_at (time_elapsed self)) x4).
  { subst s4. unfold update_phase.
    destruct (_ <=? _);
      [|exists []; rewrite app_nil_r; split; [reflexivity|constructor]].
    exists [PhaseEntry (time_elapsed s3) (current_phase s3)
              (phase_state s3) (phase_duration s3) (vehicle_counts s3)].
    split.
    - destruct (phase_state s3); [reflexivity|].
      destruct (get_phase_duration _ _ _). reflexivity.
    - constructor; [exact T3|constructor]. }
  destruct X4 as (x4 & H4h & F4).
  exists (x2 ++ x4). unfold check_clearance.
  pose proof (clear_accidents_rewrites (time_elapsed s4) (phase_history s4)
                (vehicle_counts s4)) as E.
  destruct (clear_accidents _ _ _) as [h vc]. cbn [fst] in E.
  cbn [with_counts with_history phase_history].
  assert (F : Forall (appended_at (time_elapsed self)) (x2 ++ x4))
    by (apply Forall_app; split; assumption).
  split; [|exact F].
  rewrite E, T4, H4h, H3h, H2h, <- app_assoc, map_app. f_equal.
  clear - F. induction F as [|e l He _ IH]; [reflexivity|].
  cbn [map]. rewrite IH. f_equal. apply (cleared_at_fresh _ _ _ He). lia.
Qed.

(** The loop: either no iteration ran, or the entries that were there
    have been passed through [cleared_at] at the time of the last
    iteration, and so have the entries appended since. *)
Lemma simulation_loop_rewrites (fuel : nat) (duration : Z)
    (inputs : Z -> TickInput) self :
  let self' := simulation_loop fuel duration inputs self in
  self' = self
  \/ time_elapsed self < time_elapsed self'
     /\ exists appended,
          phase_history self'
          = map (cleared_at (time_elapsed self' - 1)) (phase_history self)
            ++ appended
          /\ Forall (fun e => exists t raw,
                       time_elapsed self <= t < time_elapsed self'
                       /\ appended_at t raw
                       /\ e = cleared_at (time_elapsed self' - 1) raw)
               appended.
Proof.
  revert self. induction fuel as [|fuel IH]; intros self; simpl;
    [left; reflexivity|].
  destruct (_ && _); [|left; reflexivity]. right.
  set (i := inputs (time_elapsed self)).
  destruct (tick_rewrites i self) as (T1 & extra & H1 & F1).
  specialize (IH (tick i self)). cbv zeta in IH.
  set (self' := simulation_loop fuel duration inputs (tick i self)) in *.
  destruct IH as [E|(Lt & app' & Hh & Fa)].
  - rewrite E, T1. split; [lia|]. exists extra.
    replace (time_elapsed self + 1 - 1) with (time_elapsed self) by lia.
    split; [exact H1|].
    eapply Forall_impl; [exact F1|]. cbn beta. intros e He.
    exists (time_elapsed self), e. split; [lia|]. split; [exact He|].
    symmetry. apply (cleared_at_fresh _ _ _ He). lia.
  - rewrite T1 in Lt. split; [lia|].
    exists (map (cleared_at (time_elapsed self' - 1)) extra ++ app').
    split.
    + rewrite Hh, H1, map_app, map_map, <- app_assoc. f_equal.
      apply map_ext. intros e. apply cleared_at_again. lia.
    + apply Forall_app. split.
      * clear - F1 Lt. induction F1 as [|e l He _ IH]; cbn [map];
          constructor; [|exact IH].
        exists (time_elapsed self), e. split; [lia|]. split; [exact He|].
        reflexivity.
      * eapply Forall_impl; [exact Fa|]. cbn beta.
        intros e (t & raw & Ht & Hr & ->). exists t, raw.
        rewrite T1 in Ht. split; [lia|]. split; [exact Hr|reflexivity].
Qed.

(** The state after [a + b] iterations is the state [b] iterations after
    the state after [a] iterations: every state of a run is the start of
    the rest of the run. *)
Lemma simulation_loop_add (a b : nat) (duration : Z)
    (inputs : Z -> TickInput) self :
  simulation_loop (a + b) duration inputs self
  = simulation_loop b duration inputs
      (simulation_loop a duration inputs self).
Proof.
  revert self. induction a as [|a IH]; intros self; [reflexivity|].
  simpl. destruct (_ && _) eqn:G; [apply IH|].
  destruct b; [reflexivity|]. simpl. rewrite G. reflexivity.
Qed.

End Run.

Section History.
Context {Strategy : Type} `{Simulation.StrategyAPI Strategy}.
Import Simulation.

Implicit Types (self : t Strategy) (i : TickInput) (h : list Entry).

Lemma grows_phase_entry h h' (n : nat) time p st dur (vc : Counts) :
  grows h h' ->
  h !! n = Some (PhaseEntry time p st dur vc) ->
  h' !! n = Some (PhaseEntry time p st dur vc).
Proof.
  intros (kept & appended & -> & E) Hn.
  destruct (Forall2_lookup_l _ _ _ _ _ E Hn) as (e' & Hk & Hev).
  inversion Hev; subst. apply lookup_app_l_Some. exact Hk.
Qed.

(** C3 (amended).  From any state of a run to any later one the history
    only grows at its end and a phase record is never changed.  An
    accident bookkeeping entry is changed in one way only: the clearance
    loop, which every iteration runs at its [time_elapsed], turns the
    marker ["accident_clear"] into ["accident_cleared"] as soon as
    [time + 20 <= time_elapsed] and not before; time, direction and
    restore count stay.  So, unless no iteration ran in between, the
    history of the later state is the earlier history, passed entry by
    entry through [cleared_at] at the time of the last iteration,
    followed by the entries appended in between, each of them as it was
    appended and passed through [cleared_at] likewise. *)
Theorem history_entries_only_get_marked
    (fuel : nat) (duration : Z) (inputs : Z -> TickInput) self :
  let self' := simulation_loop fuel duration inputs self in
  grows (phase_history self) (phase_history self')
  /\ (forall (n : nat) time p st dur (vc : Counts),
        phase_history self !! n = Some (PhaseEntry time p st dur vc) ->
        phase_history self' !! n = Some (PhaseEntry time p st dur vc))
  /\ (self' = self
      \/ time_elapsed self < time_elapsed self'
         /\ exists appended,
              phase_history self'
              = map (cleared_at (time_elapsed self' - 1))
                  (phase_history self)
                ++ appended
              /\ Forall (fun e => exists t raw,
                           time_elapsed self <= t < time_elapsed self'
                           /\ appended_at t raw
                           /\ e = cleared_at (time_elapsed self' - 1) raw)
                   appended).
Proof.
  intros self'. split; [apply simulation_loop_grows|]. split.
  - intros n time p st dur vc. apply grows_phase_entry.
    apply simulation_loop_grows.
  - apply simulation_loop_rewrites.
Qed.

(** *** C4: green records alternate *)

Lemma green_phases_app h h' :
  green_phases (h ++ h') = green_phases h ++ green_phases h'.
Proof. unfold green_phases. apply flat_map_app. Qed.

Lemma green_phases_evolved h h' :
  Forall2 evolves h h' -> green_phases h' = green_phases h.
Proof.
  induction 1 as [|e e' h h' He _ IH]; [reflexivity|].
  simpl. rewrite IH. destruct He; reflexivity.
Qed.

Lemma scheduled_same self self' :
  green_phases (phase_history self') = green_phases (phase_history self) ->
  current_phase self' = current_phase self ->
  phase_state self' = phase_state self ->
  scheduled self -> scheduled self'.
Proof. unfold scheduled. intros -> -> ->. exact id. Qed.

Lemma update_phase_scheduled self :
  scheduled self -> scheduled (update_phase self).
Proof.
  unfold scheduled, update_phase. intros [Ha Hl].
  destruct (_ <=? _); [|split; assumption].
  destruct (phase_state self).
  - cbn [phase_history phase_state current_phase].
    rewrite green_phases_app. cbn [green_phases flat_map]. rewrite app_nil_r.
    split; [apply alternating_snoc; assumption | apply last_snoc].
  - destruct (get_phase_duration _ _ _) as [d s].
    cbn [phase_history phase_state current_phase].
    rewrite green_phases_app. cbn [green_phases flat_map]. rewrite !app_nil_r.
    split; [exact Ha|]. rewrite Hl.
    destruct (current_phase self); discriminate.
Qed.

Lemma add_random_traffic_event_greens i self :
  green_phases (phase_history (add_random_traffic_event i self))
  = green_phases (phase_history self).
Proof.
  unfold add_random_traffic_event.
  destruct (random_events self); [|reflexivity].
  destruct (drawn i) as [[d a|d|d]|]; try reflexivity.
  cbn [negb with_history with_counts phase_history].
  rewrite green_phases_app. apply app_nil_r.
Qed.

Lemma check_clearance_greens self :
  green_phases (phase_history (check_clearance self))
  = green_phases (phase_history self).
Proof.
  unfold check_clearance.
  pose proof (clear_accidents_evolves (time_elapsed self)
                (phase_history self) (vehicle_counts self)) as E.
  destruct (clear_accidents _ _ _) as [h vc].
  apply green_phases_evolved. exact E.
Qed.

Lemma tick_scheduled i self : scheduled self -> scheduled (tick i self).
Proof.
  intros S. unfold tick.
  set (s1 := update_vehicle_counts i self).
  set (s2 := add_random_traffic_event i s1).
  set (s3 := process_vehicles s2).
  set (s4 := update_phase s3).
  set (s5 := check_clearance s4).
  assert (S1 : scheduled s1).
  { destruct (update_vehicle_counts_fields i self) as (Eh & Ep & Es & _).
    apply (scheduled_same self);
      [f_equal; exact Eh | exact Ep | exact Es | exact S]. }
  assert (S2 : scheduled s2).
  { destruct (add_random_traffic_event_fields i s1) as (Ep & Es & _).
    apply (scheduled_same s1);
      [apply add_random_traffic_event_greens | exact Ep | exact Es
      | exact S1]. }
  assert (S3 : scheduled s3).
  { destruct (process_vehicles_fields s2) as (Eh & Ep & Es & _).
    apply (scheduled_same s2);
      [f_equal; exact Eh | exact Ep | exact Es | exact S2]. }
  assert (S4 : scheduled s4) by (apply update_phase_scheduled; exact S3).
  assert (S5 : scheduled s5).
  { destruct (check_clearance_fields s4) as (Ep & Es & _).
    apply (scheduled_same s4);
      [apply check_clearance_greens | exact Ep | exact Es | exact S4]. }
  apply (scheduled_same s5); [reflexivity .. | exact S5].
Qed.

Lemma simulation_loop_scheduled (fuel : nat) (duration : Z)
    (inputs : Z -> TickInput) self :
  scheduled self -> scheduled (simulation_loop fuel duration inputs self).
Proof.
  revert self. induction fuel as [|fuel IH]; intros self S; simpl.
  - exact S.
  - destruct (_ && _); [|exact S]. apply IH, tick_scheduled, S.
Qed.

Lemma run_each_scheduled (runs : list (Z * (Z -> TickInput))) self :
  scheduled self -> scheduled (run_each runs self).
Proof.
  revert self. induction runs as [|r runs IH]; intros self S; [exact S|].
  apply IH. unfold run_simulation. apply simulation_loop_scheduled, S.
Qed.

Lemma init_scheduled (name : string) (viz re : bool) self :
  init name viz re = Py.Ok self -> scheduled self.
Proof.
  unfold init. destruct (_create_strategy false name) as [r|e]; simpl;
    [|discriminate].
  intros [= <-]. split; [exact I | discriminate].
Qed.

(** *** C2: an elapsed green turns yellow *)

(** The scheduler of traffic_controller.py: a green phase whose
    duration has elapsed is followed by yellow for the same pair, for the
    controller's own constant of 5 seconds. *)
Lemma update_phase_green_elapsed self :
  phase_state self = Green ->
  phase_duration self <= time_elapsed self - phase_start_time self ->
  let self' := update_phase self in
  phase_state self' = Yellow
  /\ current_phase self' = current_phase self
  /\ phase_duration self' = 5
  /\ phase_start_time self' = time_elapsed self
  /\ phase_history self'
     = phase_history self ++
         [PhaseEntry (time_elapsed self) (current_phase self) Green
            (phase_duration self) (vehicle_counts self)].
Proof.
  intros Hs Hd. unfold update_phase.
  apply Z.leb_le in Hd. rewrite Hd, Hs. repeat split.
Qed.

End History.

Lemma history_entries_only_get_marked_witness :
  (let self := Simulation.run_simulation 31 steady fresh in
   let self' := Simulation.simulation_loop 69 100 steady self in
   let closed :=
     Simulation.PhaseEntry 30 North_South Green 30
       {| north := 0; south := 0; east := 93; west := 0 |} in
   Simulation.phase_history self = [closed]
   /\ self' = Simulation.run_simulation 100 steady fresh
   /\ grows (Simulation.phase_history self) (Simulation.phase_history self')
   /\ Simulation.phase_history self' !! 0%nat = Some closed)
  /\ (let self := Simulation.run_simulation 1 one_accident fresh in
      let waiting :=
        Simulation.EventEntry 0 "accident_clear" Simulation.north_inbound 4 in
      Simulation.phase_history self = [waiting]
      /\ Simulation.phase_history
           (Simulation.simulation_loop 19 100 one_accident self) !! 0%nat
         = Some waiting
      /\ Simulation.phase_history
           (Simulation.simulation_loop 20 100 one_accident self) !! 0%nat
         = Some (Simulation.EventEntry 0 "accident_cleared"
                   Simulation.north_inbound 4)).
Proof.
  cbv zeta. split.
  - split; [vm_compute; reflexivity|].
    split; [vm_compute; reflexivity|].
    destruct (history_entries_only_get_marked 69 100 steady
                (Simulation.run_simulation 31 steady fresh)) as (G & P & _).
    split; [exact G|]. apply P. vm_compute. reflexivity.
  - split; [vm_compute; reflexivity|]. split.
    + destruct (history_entries_only_get_marked 19 100 one_accident
                  (Simulation.run_simulation 1 one_accident fresh))
        as (_ & _ & [E|(_ & appended & Eh & _)]).
      * rewrite E. vm_compute. reflexivity.
      * rewrite Eh.
        assert (M : map (cleared_at
                           (Simulation.time_elapsed
                              (Simulation.simulation_loop 19 100 one_accident
                                 (Simulation.run_simulation 1 one_accident
                                    fresh)) - 1))
                      (Simulation.phase_history
                         (Simulation.run_simulation 1 one_accident fresh))
                    = [Simulation.EventEntry 0 "accident_clear"
                         Simulation.north_inbound 4])
          by (vm_compute; reflexivity).
        rewrite M. reflexivity.
    + destruct (history_entries_only_get_marked 20 100 one_accident
                  (Simulation.run_simulation 1 one_accident fresh))
        as (_ & _ & [E|(_ & appended & Eh & _)]).
      * exfalso. apply (f_equal Simulation.time_elapsed) in E.
        vm_compute in E. discriminate.
      * rewrite Eh.
        assert (M : map (cleared_at
                           (Simulation.time_elapsed
                              (Simulation.simulation_loop 20 100 one_accident
                                 (Simulation.run_simulation 1 one_accident
                                    fresh)) - 1))
                      (Simulation.phase_history
                         (Simulation.run_simulation 1 one_accident fresh))
                    = [Simulation.EventEntry 0 "accident_cleared"
                         Simulation.north_inbound 4])
          by (vm_compute; reflexivity).
        rewrite M. reflexivity.
Defined.

(** C3 as stated fails: the entry appended at tick 0 reads
    ["accident_clear"] after the first tick and ["accident_cleared"] at
    the end of a 21-tick run. *)
Lemma accident_entry_is_rewritten :
  Simulation.phase_history (Simulation.run_simulation 1 one_accident fresh)
  = [Simulation.EventEntry 0 "accident_clear" Simulation.north_inbound 4]
  /\ Simulation.phase_history
       (Simulation.run_simulation 21 one_accident fresh)
     = [Simulation.EventEntry 0 "accident_cleared" Simulation.north_inbound
          4]
  /\ Simulation.run_simulation 21 one_accident fresh
     = Simulation.simulation_loop 20 21 one_accident
         (Simulation.run_simulation 1 one_accident fresh).
Proof.
  split; [vm_compute; reflexivity|]. split; vm_compute; reflexivity.
Qed.

(* ------------------------------------------------------------------ *)
(** ** Vehicle accounting *)

Section Accounting.
Context {Strategy : Type} `{Simulation.StrategyAPI Strategy}.
Import Simulation.

Implicit Types (self : t Strategy) (i : TickInput) (h : list Entry)
  (vc : Counts).

Lemma total_set vc (d : Direction) (v : Z) :
  total (set vc d v) = total vc - get vc d + v.
Proof. destruct d; unfold total; simpl; lia. Qed.

Lemma total_add_counts vc (g : Counts) :
  total (add_counts vc g) = total vc + total g.
Proof. unfold total, add_counts; simpl; lia. Qed.

Lemma non_negative_set vc (d : Direction) (v : Z) :
  non_negative vc -> 0 <= v -> non_negative (set vc d v).
Proof.
  intros Hn Hv d'. specialize (Hn d').
  destruct d, d'; simpl in *; assumption.
Qed.

Lemma non_negative_add_counts vc (g : Counts) :
  non_negative vc -> non_negative g -> non_negative (add_counts vc g).
Proof.
  intros Hv Hg d. specialize (Hv d). specialize (Hg d).
  destruct d; simpl in *; lia.
Qed.

Lemma pending_app h h' : pending (h ++ h') = pending h + pending h'.
Proof. induction h as [|e h IH]; simpl; [reflexivity | rewrite IH; lia]. Qed.

(** Draining conserves [processed + queued] and keeps queues
    non-negative. *)
Lemma drain_conserves (flow_rate : Z) (l : list Direction)
    (acc : Counts * Z) :
  let acc' := fold_left (drain flow_rate) l acc in
  snd acc' + total (fst acc') = snd acc + total (fst acc)
  /\ (non_negative (fst acc) -> non_negative (fst acc')).
Proof.
  revert acc. induction l as [|d l IH]; intros [vc p]; simpl.
  - split; [reflexivity | exact id].
  - destruct (IH (set vc d (get vc d - Z.min (get vc d) flow_rate),
                  p + Z.min (get vc d) flow_rate)) as [E N].
    simpl in E, N. split.
    + rewrite E, total_set. lia.
    + intros Hn. apply N, non_negative_set; [exact Hn | lia].
Qed.

Lemma process_vehicles_conserves self :
  let self' := process_vehicles self in
  processed_vehicles self' + total (vehicle_counts self')
  = processed_vehicles self + total (vehicle_counts self)
  /\ (non_negative (vehicle_counts self) ->
      non_negative (vehicle_counts self')).
Proof.
  unfold process_vehicles.
  pose proof (drain_conserves
    match phase_state self with Green => 3 | Yellow => 1 end
    (active_directions (current_phase self))
    (vehicle_counts self, processed_vehicles self)) as D.
  destruct (fold_left _ _ _) as [vc processed]. exact D.
Qed.

(** Clearing accidents: with nothing pending it does nothing; in general
    a restore overwrites the queue by the count that was pending. *)
Lemma clear_accidents_none (now : Z) h vc :
  existsb is_pending h = false -> clear_accidents now h vc = (h, vc).
Proof.
  revert vc. induction h as [|e h IH]; intros vc Hp; [reflexivity|].
  simpl in Hp. apply orb_false_iff in Hp as [He Hh].
  simpl. destruct e as [t p st dur c|t ev d r]; simpl in He.
  - rewrite (IH vc Hh). reflexivity.
  - rewrite He. simpl. rewrite (IH vc Hh). reflexivity.
Qed.

Lemma clear_accidents_bound (now : Z) h vc :
  non_negative vc -> pending_non_negative h ->
  let r := clear_accidents now h vc in
  non_negative (snd r)
  /\ pending_non_negative (fst r)
  /\ total (snd r) + pending (fst r) <= total vc + pending h.
Proof.
  revert vc. induction h as [|e h IH]; intros vc Hn Hp; simpl.
  - repeat split; [exact Hn | constructor | lia].
  - inversion Hp as [|e' h' He Hh]; subst.
    destruct e as [t p st dur c|t ev d r].
    + destruct (IH vc Hn Hh) as (N & P & L).
      destruct (clear_accidents now h vc) as [h1 vc1]. simpl in *.
      repeat split; [exact N | constructor; [simpl; lia | exact P] | lia].
    + destruct (String.eqb ev "accident_clear") eqn:E; simpl in He |- *.
      * rewrite E in He.
        destruct (t + 20 <=? now).
        -- destruct (IH (set vc d r) (non_negative_set _ _ _ Hn He) Hh)
             as (N & P & L).
           destruct (clear_accidents now h (set vc d r)) as [h1 vc1].
           simpl in *. rewrite total_set in L. specialize (Hn d).
           rewrite E.
           repeat split; [exact N | constructor; [simpl; lia | exact P]
                         | lia].
        -- destruct (IH vc Hn Hh) as (N & P & L).
           destruct (clear_accidents now h vc) as [h1 vc1]. simpl in *.
           rewrite E.
           repeat split; [exact N
                         | constructor; [simpl; rewrite E; exact He | exact P]
                         | lia].
      * destruct (IH vc Hn Hh) as (N & P & L).
        destruct (clear_accidents now h vc) as [h1 vc1]. simpl in *.
        rewrite E.
        repeat split; [exact N
                      | constructor; [simpl; rewrite E; lia | exact P]
                      | lia].
Qed.

End Accounting.

Section Conservation.
Context {Strategy : Type} `{Simulation.StrategyAPI Strategy}.
Import Simulation.

Implicit Types (self : t Strategy) (i : TickInput) (h : list Entry)
  (vc : Counts).

Lemma existsb_pending_app h h' :
  existsb is_pending (h ++ h')
  = existsb is_pending h || existsb is_pending h'.
Proof. apply existsb_app. Qed.

(** [update_phase] appends at most a phase record. *)
Lemma update_phase_pending self :
  let h' := phase_history (update_phase self) in
  existsb is_pending h' = existsb is_pending (phase_history self)
  /\ pending h' = pending (phase_history self)
  /\ (pending_non_negative (phase_history self) -> pending_non_negative h').
Proof.
  assert (A : forall e, is_pending e = false -> pending_of e = 0 ->
    let h' := phase_history self ++ [e] in
    existsb is_pending h' = existsb is_pending (phase_history self)
    /\ pending h' = pending (phase_history self)
    /\ (pending_non_negative (phase_history self) ->
        pending_non_negative h')).
  { intros e E0 E1. cbv zeta. rewrite existsb_pending_app, pending_app.
    simpl. rewrite E0, E1. repeat split; [apply orb_false_r | lia |].
    intros P. apply Forall_app. split; [exact P|].
    constructor; [lia | constructor]. }
  unfold update_phase.
  destruct (_ <=? _); [|repeat split; auto].
  destruct (phase_state self); [apply A; reflexivity|].
  destruct (get_phase_duration _ _ _) as [d s]. apply A; reflexivity.
Qed.

Lemma roadblock_bound (q : Z) :
  0 <= q -> 0 <= Z.max 0 (Py.int (inject_Z q * 0.5)%Q) <= q.
Proof.
  intros Hq. rewrite (int_half q Hq).
  pose proof (Z.div_mod q 2 ltac:(lia)) as D.
  pose proof (Z.mod_pos_bound q 2 ltac:(lia)) as M. lia.
Qed.

(** *** A calm tick conserves vehicles exactly *)

Lemma add_random_traffic_event_calm i self :
  calm (random_events self) i ->
  let self' := add_random_traffic_event i self in
  phase_history self' = phase_history self
  /\ total (vehicle_counts self')
     = total (vehicle_counts self)
       + (added_by (random_events self) i - total (generated i)).
Proof.
  unfold calm, add_random_traffic_event, added_by.
  destruct (random_events self); cbn [negb].
  - intros [C|C]; [discriminate C|].
    destruct (drawn i) as [[d a|d|d]|]; try contradiction; simpl.
    + split; [reflexivity|]. rewrite total_set. lia.
    + split; [reflexivity | lia].
  - intros _. split; [reflexivity | lia].
Qed.

Lemma tick_calm i self :
  calm (random_events self) i ->
  existsb is_pending (phase_history self) = false ->
  let self' := tick i self in
  existsb is_pending (phase_history self') = false
  /\ processed_vehicles self' + total (vehicle_counts self')
     = processed_vehicles self + total (vehicle_counts self)
       + added_by (random_events self) i.
Proof.
  intros C P. unfold tick.
  set (s1 := update_vehicle_counts i self).
  set (s2 := add_random_traffic_event i s1).
  set (s3 := process_vehicles s2).
  set (s4 := update_phase s3).
  set (s5 := check_clearance s4).
  destruct (update_vehicle_counts_fields i self)
    as (H1h & _ & _ & H1r & _ & H1p & H1c). fold s1 in H1h, H1r, H1p, H1c.
  rewrite <- H1r in C.
  destruct (add_random_traffic_event_calm i s1 C) as (H2h & H2c).
  destruct (add_random_traffic_event_fields i s1) as (_ & _ & _ & _ & H2p).
  fold s2 in H2h, H2c, H2p.
  destruct (process_vehicles_conserves s2) as (H3 & _).
  destruct (process_vehicles_fields s2) as (H3h & _). fold s3 in H3, H3h.
  destruct (update_phase_fields s3) as (_ & _ & H4p & H4c).
  destruct (update_phase_pending s3) as (H4e & _). fold s4 in H4p, H4c, H4e.
  assert (P4 : existsb is_pending (phase_history s4) = false).
  { rewrite H4e, H3h, H2h, H1h. exact P. }
  assert (E5 : phase_history s5 = phase_history s4
               /\ vehicle_counts s5 = vehicle_counts s4
               /\ processed_vehicles s5 = processed_vehicles s4).
  { subst s5. unfold check_clearance.
    rewrite (clear_accidents_none _ _ _ P4). repeat split. }
  destruct E5 as (H5h & H5c & H5p).
  cbn [increment_time phase_history processed_vehicles vehicle_counts].
  rewrite H5h, H5c, H5p. split; [exact P4|].
  rewrite H4p, H4c, H3, H2p, H2c, H1p, H1c, total_add_counts, H1r. lia.
Qed.

(** *** Any tick on well-formed inputs loses vehicles at most *)

Lemma add_random_traffic_event_bound i self :
  well_formed i ->
  non_negative (vehicle_counts self) ->
  pending_non_negative (phase_history self) ->
  let self' := add_random_traffic_event i self in
  non_negative (vehicle_counts self')
  /\ pending_non_negative (phase_history self')
  /\ total (vehicle_counts self') + pending (phase_history self')
     <= total (vehicle_counts self) + pending (phase_history self)
        + (added_by (random_events self) i - total (generated i)).
Proof.
  intros [_ W] N P. unfold add_random_traffic_event, added_by.
  destruct (random_events self); cbn [negb];
    [|repeat split; [exact N | exact P | lia]].
  destruct (drawn i) as [[d a|d|d]|]; simpl.
  - pose proof (N d). repeat split;
      [apply non_negative_set; [exact N | lia] | exact P
      | rewrite total_set; lia].
  - pose proof (roadblock_bound _ (N d)). repeat split;
      [apply non_negative_set; [exact N | lia] | exact P
      | rewrite total_set; lia].
  - pose proof (N d). repeat split.
    + apply non_negative_set; [exact N | lia].
    + apply Forall_app. split; [exact P|].
      constructor; [simpl; lia | constructor].
    + rewrite total_set, pending_app. simpl. lia.
  - repeat split; [exact N | exact P | lia].
Qed.

Lemma tick_bound i self :
  well_formed i ->
  non_negative (vehicle_counts self) ->
  pending_non_negative (phase_history self) ->
  let self' := tick i self in
  non_negative (vehicle_counts self')
  /\ pending_non_negative (phase_history self')
  /\ processed_vehicles self' + total (vehicle_counts self')
     + pending (phase_history self')
     <= processed_vehicles self + total (vehicle_counts self)
        + pending (phase_history self) + added_by (random_events self) i.
Proof.
  intros W N P. unfold tick.
  set (s1 := update_vehicle_counts i self).
  set (s2 := add_random_traffic_event i s1).
  set (s3 := process_vehicles s2).
  set (s4 := update_phase s3).
  set (s5 := check_clearance s4).
  destruct (update_vehicle_counts_fields i self)
    as (H1h & _ & _ & H1r & _ & H1p & H1c). fold s1 in H1h, H1r, H1p, H1c.
  assert (N1 : non_negative (vehicle_counts s1)).
  { rewrite H1c. apply non_negative_add_counts; [exact N | exact (proj1 W)]. }
  assert (P1 : pending_non_negative (phase_history s1))
    by (rewrite H1h; exact P).
  destruct (add_random_traffic_event_bound i s1 W N1 P1) as (N2 & P2 & L2).
  destruct (add_random_traffic_event_fields i s1) as (_ & _ & _ & _ & H2p).
  fold s2 in N2, P2, L2, H2p.
  destruct (process_vehicles_conserves s2) as (H3 & N3).
  destruct (process_vehicles_fields s2) as (H3h & _).
  fold s3 in H3, N3, H3h. specialize (N3 N2).
  destruct (update_phase_fields s3) as (_ & _ & H4p & H4c).
  destruct (update_phase_pending s3) as (_ & H4e & P4).
  fold s4 in H4p, H4c, H4e, P4.
  rewrite H3h in P4, H4e. specialize (P4 P2).
  rewrite <- H4c in N3.
  pose proof (clear_accidents_bound (time_elapsed s4) _ _ N3 P4) as B.
  destruct (check_clearance_fields s4) as (_ & _ & _ & _ & H5p).
  fold s5 in H5p.
  assert (E5 : phase_history s5
               = fst (clear_accidents (time_elapsed s4) (phase_history s4)
                        (vehicle_counts s4))
               /\ vehicle_counts s5
                  = snd (clear_accidents (time_elapsed s4)
                           (phase_history s4) (vehicle_counts s4))).
  { subst s5. unfold check_clearance.
    destruct (clear_accidents _ _ _) as [h vc]. split; reflexivity. }
  destruct E5 as (H5h & H5c). cbv zeta in B. rewrite <- H5h, <- H5c in B.
  destruct B as (N5 & P5 & L5).
  cbn [increment_time phase_history processed_vehicles vehicle_counts].
  split; [exact N5|]. split; [exact P5|].
  rewrite H5p, H4p. rewrite H4c, H4e in L5.
  rewrite H1c, total_add_counts, H1h, H1r in L2. lia.
Qed.

(** *** The whole loop *)

Lemma tick_random_events i self :
  random_events (tick i self) = random_events self.
Proof.
  unfold tick. cbn [increment_time random_events].
  destruct (check_clearance_fields (update_phase (process_vehicles
    (add_random_traffic_event i (update_vehicle_counts i self)))))
    as (_ & _ & -> & _).
  destruct (update_phase_fields (process_vehicles
    (add_random_traffic_event i (update_vehicle_counts i self))))
    as (-> & _).
  destruct (process_vehicles_fields
    (add_random_traffic_event i (update_vehicle_counts i self)))
    as (_ & _ & _ & -> & _).
  destruct (add_random_traffic_event_fields i (update_vehicle_counts i self))
    as (_ & _ & -> & _).
  destruct (update_vehicle_counts_fields i self) as (_ & _ & _ & -> & _).
  reflexivity.
Qed.

Lemma simulation_loop_calm (fuel : nat) (duration : Z)
    (inputs : Z -> TickInput) self :
  Forall (calm (random_events self)) (consumed fuel duration inputs self) ->
  existsb is_pending (phase_history self) = false ->
  let self' := simulation_loop fuel duration inputs self in
  processed_vehicles self' + total (vehicle_counts self')
  = processed_vehicles self + total (vehicle_counts self)
    + added (random_events self) (consumed fuel duration inputs self).
Proof.
  revert self. induction fuel as [|fuel IH]; intros self C P; simpl.
  - lia.
  - simpl in C. destruct (_ && _); [|simpl; lia].
    inversion C as [|i l Ci Cl]; subst.
    destruct (tick_calm _ _ Ci P) as (P' & E).
    rewrite <- (tick_random_events (inputs (time_elapsed self))) in Cl.
    specialize (IH _ Cl P'). cbv zeta in IH. rewrite IH, E.
    rewrite tick_random_events. simpl. lia.
Qed.

Lemma simulation_loop_bound (fuel : nat) (duration : Z)
    (inputs : Z -> TickInput) self :
  Forall well_formed (consumed fuel duration inputs self) ->
  non_negative (vehicle_counts self) ->
  pending_non_negative (phase_history self) ->
  let self' := simulation_loop fuel duration inputs self in
  non_negative (vehicle_counts self')
  /\ pending_non_negative (phase_history self')
  /\ processed_vehicles self' + total (vehicle_counts self')
     + pending (phase_history self')
     <= processed_vehicles self + total (vehicle_counts self)
        + pending (phase_history self)
        + added (random_events self) (consumed fuel duration inputs self).
Proof.
  revert self. induction fuel as [|fuel IH]; intros self W N P; simpl.
  - repeat split; [exact N | exact P | lia].
  - simpl in W. destruct (_ && _);
      [|repeat split; [exact N | exact P | simpl; lia]].
    inversion W as [|i l Wi Wl]; subst.
    destruct (tick_bound _ _ Wi N P) as (N' & P' & L).
    destruct (IH _ Wl N' P') as (N2 & P2 & L2).
    rewrite tick_random_events in L2.
    repeat split; [exact N2 | exact P2 | simpl; lia].
Qed.

Lemma pending_non_negative_bound h : pending_non_negative h -> 0 <= pending h.
Proof. induction 1; simpl; lia. Qed.

Lemma init_fields (name : string) (viz re : bool) self :
  init name viz re = Py.Ok self ->
  random_events self = re
  /\ phase_history self = []
  /\ vehicle_counts self = zero_counts
  /\ processed_vehicles self = 0
  /\ time_elapsed self = 0.
Proof.
  unfold init. destruct (_create_strategy false name) as [r|e]; simpl;
    [|discriminate].
  intros [= <-]. repeat split.
Qed.

(** C5 (amended).  Over a full run of a freshly constructed controller:
    if no roadblock and no accident takes effect, the vehicles processed
    plus those still queued are exactly the vehicles added by snapshots
    and surges; roadblocks and accidents take queued vehicles away, so in
    general (on non-negative snapshots and surges of 10 to 30) the left
    side is at most the right side. *)
Theorem vehicle_conservation
    (name : string) (viz re : bool) (duration : Z)
    (inputs : Z -> TickInput) self :
  init name viz re = Py.Ok self ->
  let self' := run_simulation duration inputs self in
  let ins := run_inputs duration inputs self in
  (Forall (calm re) ins ->
   processed_vehicles self' + total (vehicle_counts self') = added re ins)
  /\ (Forall well_formed ins ->
      processed_vehicles self' + total (vehicle_counts self')
      <= added re ins).
Proof.
  intros I. destruct (init_fields _ _ _ _ I) as (Hr & Hh & Hc & Hp & Ht).
  unfold run_simulation, run_inputs. cbv zeta. split.
  - intros C. rewrite <- Hr in C |- *.
    rewrite (simulation_loop_calm _ _ _ _ C) by (rewrite Hh; reflexivity).
    rewrite Hc, Hp. reflexivity.
  - intros W.
    destruct (simulation_loop_bound _ _ _ _ W) as (_ & P' & L).
    + rewrite Hc. intros []; simpl; lia.
    + rewrite Hh. constructor.
    + apply pending_non_negative_bound in P'.
      rewrite Hc, Hp, Hh, Hr in L. simpl in L. unfold total in L at 2.
      simpl in L. lia.
Qed.

End Conservation.

Lemma consumed_all {Strategy : Type} `{Simulation.StrategyAPI Strategy}
    (P : Simulation.TickInput -> Prop) (fuel : nat) (duration : Z)
    (inputs : Z -> Simulation.TickInput) (self : Simulation.t Strategy) :
  (forall time, P (inputs time)) ->
  Forall P (Simulation.consumed fuel duration inputs self).
Proof.
  intros A. revert self. induction fuel as [|fuel IH]; intros self; simpl.
  - constructor.
  - destruct (_ && _); constructor; [apply A | apply IH].
Qed.

Lemma vehicle_conservation_witness :
  let self' := Simulation.run_simulation 60 steady fresh in
  let ins := Simulation.run_inputs 60 steady fresh in
  Simulation.processed_vehicles self'
  + Simulation.total (Simulation.vehicle_counts self')
  = added true ins
  /\ added true ins = 360
  /\ (let self' := Simulation.run_simulation 1 one_roadblock fresh in
      Simulation.processed_vehicles self'
      + Simulation.total (Simulation.vehicle_counts self')
      <= added true (Simulation.run_inputs 1 one_roadblock fresh)).
Proof.
  cbv zeta. split; [|split; [vm_compute; reflexivity|]].
  - apply (proj1 (vehicle_conservation "fixed" false true 60 steady fresh
                    fresh_is_init)).
    apply consumed_all. intros time. right. exact I.
  - apply (proj2 (vehicle_conservation "fixed" false true 1 one_roadblock
                    fresh fresh_is_init)).
    apply consumed_all. intros time. split; [|exact I].
    intros []; simpl; lia.
Defined.

(** C5 as stated fails: 20 vehicles were added, 3 were processed and 7
    are queued; the roadblock removed the other 10. *)
Lemma roadblock_vehicles_vanish :
  let self' := Simulation.run_simulation 1 one_roadblock fresh in
  Simulation.processed_vehicles self' = 3
  /\ Simulation.total (Simulation.vehicle_counts self') = 7
  /\ added true (Simulation.run_inputs 1 one_roadblock fresh) = 20
  /\ Simulation.processed_vehicles self'
     + Simulation.total (Simulation.vehicle_counts self')
     < added true (Simulation.run_inputs 1 one_roadblock fresh) - 2.
Proof. cbv zeta. repeat split; vm_compute; reflexivity. Qed.

(* ------------------------------------------------------------------ *)
(** ** The scheduler of controller.py *)

Lemma webster_returns (s : Webster.t) (td : option TrafficData) :
  webster_valid s -> exists tm, Webster.calculate_phase_times s td = Py.Ok tm.
Proof.
  intros (Hn & Hs & He & Hw). unfold Webster.calculate_phase_times.
  destruct (counts_of td) as [vc|]; [|eexists; reflexivity].
  unfold Webster.flow_ratios, Py.truediv.
  apply Z.eqb_neq in Hn, Hs, He, Hw. rewrite Hn, Hs, He, Hw. simpl.
  destruct (Py.ltb _ _); eexists; reflexivity.
Qed.

Lemma webster_setters_valid (s : Webster.t) (flow n so e w : Z) :
  webster_valid (Webster.set_lanes (Webster.set_saturation_flow s flow)
                   n so e w).
Proof. unfold webster_valid. simpl. repeat split; nia. Qed.

(** What a timing calculation on a snapshot with counts returns and what
    it leaves alone. *)
Lemma calculate_phase_times_snapshot
    (i i' : Instances) (k : Kind) (vc : gmap string Z) (tm : Timings) :
  calculate_phase_times i k (snapshot vc) = Py.Ok (tm, i') ->
  yellow_is (yellow_time (base_of i k)) tm
  /\ (forall k', base_of i' k' = base_of i k')
  /\ webster i' = webster i.
Proof.
  destruct k; unfold calculate_phase_times, base_of.
  - intros [= <- <-]. split; [apply both_yellow | split; reflexivity].
  - intros [= <- <-]. split; [apply proportional_yellow | split; reflexivity].
  - destruct (Webster.calculate_phase_times (webster i) (snapshot vc))
      as [r|e] eqn:E; cbn [Py.bind]; [|discriminate].
    intros [= <- <-]. split; [|split; reflexivity].
    exact (webster_yellow _ _ _ E).
  - pose proof (adaptive_yellow (adaptive i) vc) as Y.
    pose proof (adaptive_base_kept (adaptive i) (snapshot vc)) as B.
    destruct (Adaptive.calculate_phase_times (adaptive i) (snapshot vc))
      as [r a]. cbn [fst snd] in Y, B.
    intros [= <- <-]. split; [exact Y|]. split; [|reflexivity].
    intros []; cbn [fixed proportional webster adaptive]; try reflexivity.
    exact B.
Qed.

Lemma calculate_phase_times_returns
    (i : Instances) (k : Kind) (td : option TrafficData) :
  webster_valid (webster i) ->
  exists r, calculate_phase_times i k td = Py.Ok r.
Proof.
  intros V. destruct k; unfold calculate_phase_times;
    try (eexists; reflexivity).
  - destruct (webster_returns _ td V) as [tm ->]. eexists; reflexivity.
  - destruct (Adaptive.calculate_phase_times _ _). eexists; reflexivity.
Qed.

Section Scheduler.
Import Control.

Implicit Types (self : Control.t) (l : Loop) (k : Kind).

(** [get_current_data(use_generator=True)] draws a snapshot and touches
    nothing else. *)
Lemma get_current_data_fresh self :
  let r := get_current_data self true in
  fst r = Some (supply (data_generator self) (calls (data_generator self)))
  /\ current_data (snd r) = fst r
  /\ strategies (snd r) = strategies self
  /\ active_strategy (snd r) = active_strategy self
  /\ current_phase (snd r) = current_phase self
  /\ phase_end_time (snd r) = phase_end_time self
  /\ phase_history (snd r) = phase_history self.
Proof. repeat split. Qed.

Lemma calculate_signal_timings_ok self self' k (tm : Timings) :
  active_strategy self = Some k ->
  calculate_signal_timings self = Py.Ok (tm, self') ->
  yellow_is (yellow_time (base_of (strategies self) k)) tm
  /\ (forall k', base_of (strategies self') k' = base_of (strategies self) k')
  /\ webster (strategies self') = webster (strategies self)
  /\ active_strategy self' = Some k
  /\ current_phase self' = current_phase self
  /\ phase_end_time self' = phase_end_time self
  /\ phase_history self' = phase_history self.
Proof.
  intros A. unfold calculate_signal_timings.
  cbn [get_current_data orb get_traffic_data active_strategy strategies
       option_map].
  unfold traffic_data_of. rewrite A.
  destruct (calculate_phase_times _ _ _) as [[tm' i']|e] eqn:E;
    simpl; [|discriminate].
  intros [= <- <-]. simpl.
  destruct (calculate_phase_times_snapshot _ _ _ _ _ E) as (Y & B & W).
  split; [exact Y|]. split; [exact B|]. split; [exact W|].
  repeat split.
Qed.

Lemma calculate_signal_timings_returns self k :
  active_strategy self = Some k ->
  webster_valid (webster (strategies self)) ->
  exists r, calculate_signal_timings self = Py.Ok r.
Proof.
  intros A V. unfold calculate_signal_timings.
  cbn [get_current_data orb get_traffic_data active_strategy strategies].
  rewrite A.
  destruct (calculate_phase_times_returns (strategies self) k
    (snapshot (supply (data_generator self) (calls (data_generator self))))
    V) as [r E].
  unfold snapshot in E. cbn [option_map]. unfold traffic_data_of.
  rewrite E.
  eexists; reflexivity.
Qed.

Lemma green_records_app (h h' : list PhaseRecord) :
  green_records (h ++ h') = green_records h ++ green_records h'.
Proof. unfold green_records. apply flat_map_app. Qed.

Lemma timings_at_yellow (y : Z) (tm : Timings) (p : Phase) :
  yellow_is y tm -> yellow (timings_at tm p) = y.
Proof. intros [Hn He]. destruct p; assumption. Qed.

Lemma turn_green_records (h : list PhaseRecord) (y g : PhaseRecord) :
  state y = Yellow -> state g = Green ->
  green_records (h ++ [y; g]) = green_records h ++ [phase g].
Proof.
  intros Hy Hg. rewrite green_records_app. unfold green_records at 2.
  simpl. rewrite Hy, Hg. reflexivity.
Qed.

Lemma turn_running (b : Kind -> Base) (w : Webster.t)
    (h0 : list PhaseRecord) k l
    (self' : Control.t) (tm : Timings) (now next : Z) (y g : PhaseRecord) :
  running b w h0 k l ->
  active_strategy self' = Some k ->
  (forall k', base_of (strategies self') k' = b k') ->
  webster (strategies self') = w ->
  yellow_is (yellow_time (b k)) tm ->
  is_Some (phase_end_time self') ->
  current_phase self' = other (current_phase (ctl l)) ->
  phase_history self' = phase_history (ctl l) ++ [y; g] ->
  state y = Yellow -> state g = Green ->
  phase g = other (current_phase (ctl l)) ->
  running b w h0 k {| ctl := self'; timings := tm; current_time := now;
                      next_update := next |}.
Proof.
  intros [A B W Y _ (recs & Hr & Al & La)] A' B' W' Y' E' P' H' Sy Sg Pg.
  constructor; cbn [ctl timings]; try assumption.
  exists (recs ++ [y; g]). rewrite H', Hr, <- app_assoc.
  split; [reflexivity|]. rewrite (turn_green_records _ _ _ Sy Sg). split.
  - apply alternating_snoc; [exact Al|]. rewrite La, Pg.
    destruct (current_phase (ctl l)); discriminate.
  - rewrite P', Pg. apply last_snoc.
Qed.

Lemma loop_body_running (b : Kind -> Base) (w : Webster.t)
    (h0 : list PhaseRecord) k (update_interval : Z) l l' (e : Z) :
  running b w h0 k l ->
  phase_end_time (ctl l) = Some e ->
  loop_body k update_interval l = Py.Ok l' ->
  running b w h0 k l'
  /\ current_time l'
     = current_time l + 1
       + (if e <=? current_time l + 1 then yellow_time (b k) else 0)
  /\ if e <=? current_time l + 1
     then exists y g,
       phase_history (ctl l') = phase_history (ctl l) ++ [y; g]
       /\ turn_records b k l y g
     else phase_history (ctl l') = phase_history (ctl l).
Proof.
  intros R He. pose proof R as [A B W Y _ (recs & Hr & Al & La)].
  unfold loop_body.
  set (now := current_time l + 1).
  set (c1 := if next_update l <=? now
             then ((get_current_data (ctl l) true).2, now + update_interval)
             else (ctl l, next_update l)).
  assert (C1 : strategies c1.1 = strategies (ctl l)
               /\ active_strategy c1.1 = active_strategy (ctl l)
               /\ current_phase c1.1 = current_phase (ctl l)
               /\ phase_end_time c1.1 = phase_end_time (ctl l)
               /\ phase_history c1.1 = phase_history (ctl l)).
  { subst c1. destruct (next_update l <=? now); repeat split. }
  destruct c1 as [self next]. cbn [fst] in C1.
  destruct C1 as (C1s & C1a & C1p & C1e & C1h). rewrite C1e, He.
  destruct (e <=? now) eqn:D.
  - rewrite (timings_at_yellow _ _ _ Y).
    set (yrec := {| timestamp := now; phase := current_phase self;
                    state := Yellow; duration := yellow_time (b k);
                    rec_vehicle_counts := counts_copy self |}).
    cbn [append strategies].
    assert (T : forall (tm : Timings) (c2 : Control.t),
      yellow_is (yellow_time (b k)) tm ->
      (forall k', base_of (strategies c2) k' = b k') ->
      webster (strategies c2) = w ->
      active_strategy c2 = Some k ->
      phase_history c2 = phase_history self ++ [yrec] ->
      let p := other (current_phase self) in
      let t := now + yellow_time (b k) in
      let c3 := enter c2 p (t + green (timings_at tm p)) in
      let l3 :=
        {| ctl := append c3
             {| timestamp := t; phase := p; state := Green;
                duration := green (timings_at tm p);
                rec_vehicle_counts := counts_copy c3 |};
           timings := tm; current_time := t; next_update := next |} in
      running b w h0 k l3
      /\ current_time l3 = now + yellow_time (b k)
      /\ exists y g,
           phase_history (ctl l3) = phase_history (ctl l) ++ [y; g]
           /\ turn_records b k l y g).
    { intros tm c2 Y2 B2 W2 A2 H2 p t c3 l3.
      assert (Hh : phase_history (ctl l3)
                   = phase_history (ctl l) ++
                       [yrec;
                        {| timestamp := t; phase := p; state := Green;
                           duration := green (timings_at tm p);
                           rec_vehicle_counts := counts_copy c3 |}]).
      { subst l3 c3. cbn [ctl append enter phase_history].
        rewrite H2, C1h, <- app_assoc. reflexivity. }
      split; [|split; [reflexivity|]].
      - subst l3. eapply turn_running; try eassumption; try reflexivity.
        + subst c3. cbn [append enter phase_end_time]. eexists; reflexivity.
        + subst c3 p. cbn [append enter current_phase]. rewrite C1p.
          reflexivity.
        + subst p. cbn [phase]. rewrite C1p. reflexivity.
      - eexists _, _. split; [exact Hh|]. subst yrec p t.
        unfold turn_records. cbn [state phase duration timestamp].
        rewrite C1p. repeat split. }
    destruct (recalculates _).
    + destruct (calculate_signal_timings _) as [[tm c2]|ex] eqn:E;
        cbn [Py.bind]; [|discriminate].
      destruct (get_current_data_fresh (append self yrec))
        as (_ & _ & F1 & F2 & _ & _ & F3).
      apply calculate_signal_timings_ok with (k := k) in E;
        [|rewrite F2; cbn [append active_strategy]; rewrite C1a; exact A].
      destruct E as (Y2 & B2 & W2 & A2 & _ & _ & H2).
      rewrite F1 in Y2, B2, W2. rewrite F3 in H2.
      cbn [append strategies phase_history] in Y2, B2, W2, H2.
      rewrite C1s, B in Y2.
      intros [= <-]. apply T; try assumption.
      * intros k'. rewrite B2, C1s. apply B.
      * rewrite W2, C1s. exact W.
    + cbn [Py.bind]. intros [= <-]. apply T; try assumption.
      * intros k'. cbn [append strategies]. rewrite C1s. apply B.
      * cbn [append strategies]. rewrite C1s. exact W.
      * cbn [append active_strategy]. rewrite C1a. exact A.
      * reflexivity.
  - intros [= <-]. cbn [ctl current_time]. split; [|split].
    + constructor; cbn [ctl timings].
      * rewrite C1a. exact A.
      * intros k'. rewrite C1s. apply B.
      * rewrite C1s. exact W.
      * exact Y.
      * rewrite C1e, He. eexists; reflexivity.
      * exists recs. rewrite C1h, C1p. repeat split; assumption.
    + subst now. lia.
    + exact C1h.
Qed.

(** The loop body cannot raise on a valid Webster configuration. *)
Lemma loop_body_returns (b : Kind -> Base) (w : Webster.t)
    (h0 : list PhaseRecord) k (update_interval : Z) l :
  running b w h0 k l -> webster_valid w ->
  exists l', loop_body k update_interval l = Py.Ok l'.
Proof.
  intros [A B W Y [e He] _] V. unfold loop_body.
  destruct (if next_update l <=? current_time l + 1 then _ else _)
    as [self next] eqn:C.
  assert (C1 : strategies self = strategies (ctl l)
               /\ active_strategy self = active_strategy (ctl l)
               /\ phase_end_time self = phase_end_time (ctl l)).
  { destruct (next_update l <=? current_time l + 1);
      injection C as <- <-; repeat split. }
  destruct C1 as (C1s & C1a & C1e). clear C. rewrite C1e, He.
  destruct (e <=? current_time l + 1); [|eexists; reflexivity].
  destruct (recalculates _); [|eexists; reflexivity].
  match goal with
  | |- context [calculate_signal_timings ?c] =>
      destruct (calculate_signal_timings_returns c k) as [[tm c2] ->]
  end.
  - cbn [get_current_data orb get_traffic_data append active_strategy snd].
    rewrite C1a. exact A.
  - cbn [get_current_data orb get_traffic_data append strategies snd].
    rewrite C1s, W. exact V.
  - eexists; reflexivity.
Qed.

Lemma simulation_loop_running (b : Kind -> Base) (w : Webster.t)
    (h0 : list PhaseRecord) k (fuel : nat) (end_time update_interval : Z)
    l l' :
  running b w h0 k l ->
  simulation_loop fuel k end_time update_interval l = Py.Ok l' ->
  running b w h0 k l'.
Proof.
  revert l. induction fuel as [|fuel IH]; intros l R; simpl.
  - intros [= <-]. exact R.
  - destruct (current_time l <? end_time); [|intros [= <-]; exact R].
    destruct (loop_body k update_interval l) as [l1|ex] eqn:E;
      cbn [Py.bind]; [|discriminate].
    apply IH. destruct (run_end _ _ _ _ _ R) as [e He].
    exact (proj1 (loop_body_running _ _ _ _ _ _ _ _ R He E)).
Qed.

(** The loop returns, and with [duration] iterations of fuel it has left
    through its guard when yellow durations are not negative. *)
Lemma simulation_loop_returns (b : Kind -> Base) (w : Webster.t)
    (h0 : list PhaseRecord) k (fuel : nat) (end_time update_interval : Z) l :
  running b w h0 k l -> webster_valid w -> 0 <= yellow_time (b k) ->
  exists l', simulation_loop fuel k end_time update_interval l = Py.Ok l'
    /\ (end_time - current_time l <= Z.of_nat fuel ->
        end_time <= current_time l').
Proof.
  intros R V Hy. revert l R.
  induction fuel as [|fuel IH]; intros l R; simpl.
  - exists l. split; [reflexivity | lia].
  - destruct (current_time l <? end_time) eqn:G;
      [|exists l; split; [reflexivity | apply Z.ltb_ge in G; lia]].
    destruct (loop_body_returns _ _ _ _ update_interval _ R V) as [l1 E].
    rewrite E. cbn [Py.bind]. destruct (run_end _ _ _ _ _ R) as [e He].
    destruct (loop_body_running _ _ _ _ _ _ _ _ R He E) as (R1 & T & _).
    destruct (IH l1 R1) as (l' & E' & X). exists l'. split; [exact E'|].
    intros F. apply X. rewrite T.
    destruct (_ <=? _); lia.
Qed.

Lemma start_running self k l :
  start self = Py.Ok (k, l) ->
  running (base_of (strategies self)) (webster (strategies self))
    (phase_history self) k l
  /\ current_time l = 0
  /\ active_strategy self = Some k.
Proof.
  unfold start. destruct (active_strategy self) as [k0|] eqn:A;
    [|discriminate].
  destruct (calculate_signal_timings self) as [[tm c]|e] eqn:E;
    cbn [Py.bind]; [|discriminate].
  destruct (calculate_signal_timings_ok _ _ _ _ A E)
    as (Y & B & W & A' & _ & _ & Hh).
  intros [= <- <-]. split; [|split; reflexivity].
  constructor; cbn [ctl timings append enter strategies active_strategy
                    phase_history current_phase].
  - exact A'.
  - exact B.
  - exact W.
  - exact Y.
  - eexists; reflexivity.
  - eexists [_]. rewrite Hh. split; [reflexivity|].
    split; [exact I | reflexivity].
Qed.

Lemma start_returns self k :
  active_strategy self = Some k ->
  webster_valid (webster (strategies self)) ->
  exists l, start self = Py.Ok (k, l).
Proof.
  intros A V. unfold start. rewrite A.
  destruct (calculate_signal_timings_returns self k A V) as [[tm c] ->].
  eexists; reflexivity.
Qed.

End Scheduler.

(** [start_simulation] returns for every controller with an active
    strategy and a valid Webster configuration, and its loop has then run
    to the end of the simulated duration. *)
Lemma start_simulation_returns (self : Control.t) (k : Kind)
    (duration_seconds update_interval : Z) :
  Control.active_strategy self = Some k ->
  webster_valid (webster (Control.strategies self)) ->
  0 <= yellow_time (base_of (Control.strategies self) k) ->
  exists l,
    Control.start_simulation self duration_seconds update_interval = Py.Ok l
    /\ duration_seconds <= Control.current_time l.
Proof.
  intros A V Hy. unfold Control.start_simulation.
  destruct (start_returns self k A V) as [l0 E]. rewrite E.
  cbn [Py.bind fst snd].
  destruct (start_running _ _ _ E) as (R & T & _).
  destruct (simulation_loop_returns _ _ _ _ (Z.to_nat duration_seconds)
              duration_seconds update_interval _ R V Hy) as (l & El & X).
  exists l. split; [exact El|]. apply X. lia.
Qed.

Lemma init_known (name : string) (supply : nat -> gmap string Z) (k : Kind) :
  Control.strategy_names !! Py.lower name = Some k ->
  Control.active_strategy (Control.init name supply) = Some k
  /\ Control.strategies (Control.init name supply) = instances_init
  /\ Control.phase_history (Control.init name supply) = [].
Proof.
  intros L. unfold Control.init, Control.set_strategy. rewrite L.
  repeat split.
Qed.

Lemma webster_init_valid : webster_valid Webster.init.
Proof. unfold webster_valid. simpl. repeat split; discriminate. Qed.

(** A controller constructed with one of the four names runs its
    simulation to the end. *)
Lemma start_simulation_of_init (name : string)
    (supply : nat -> gmap string Z) (k : Kind)
    (duration_seconds update_interval : Z) :
  Control.strategy_names !! Py.lower name = Some k ->
  exists l,
    Control.start_simulation (Control.init name supply) duration_seconds
      update_interval = Py.Ok l
    /\ duration_seconds <= Control.current_time l.
Proof.
  intros L. destruct (init_known name supply k L) as (A & S & _).
  apply (start_simulation_returns _ k); [exact A | |].
  - rewrite S. exact webster_init_valid.
  - rewrite S. destruct k; simpl; lia.
Qed.

(* ------------------------------------------------------------------ *)
(** ** Runs of the two schedulers *)

(** Alternation of a list put together from two. *)
Lemma alternating_app (a b : list Phase) (p : Phase) :
  alternating (a ++ p :: b)
  <-> alternating a /\ last a <> Some p /\ alternating (p :: b).
Proof.
  induction a as [|x [|y a] IH].
  - cbn [app alternating last]. split; [|tauto].
    intros A. split; [exact I|]. split; [discriminate|exact A].
  - cbn [app]. change (alternating (x :: p :: b))
      with (x <> p /\ alternating (p :: b)).
    cbn [alternating last]. split.
    + intros [N A]. split; [exact I|]. split; [congruence|exact A].
    + intros (_ & N & A). split; [congruence|exact A].
  - change (alternating ((x :: y :: a) ++ p :: b))
      with (x <> y /\ alternating ((y :: a) ++ p :: b)).
    change (alternating (x :: y :: a)) with (x <> y /\ alternating (y :: a)).
    change (last (x :: y :: a)) with (last (y :: a)).
    rewrite IH. tauto.
Qed.

(** [start_simulation] opens with one record: the north-south green at
    second 0. *)
Lemma start_opens (self : Control.t) (k : Kind) (l : Control.Loop) :
  Control.start self = Py.Ok (k, l) ->
  exists first,
    Control.phase_history (Control.ctl l) = Control.phase_history self ++ [first]
    /\ Control.state first = Green
    /\ Control.phase first = North_South
    /\ Control.timestamp first = 0.
Proof.
  unfold Control.start.
  destruct (Control.active_strategy self) as [k0|] eqn:A; [|discriminate].
  destruct (Control.calculate_signal_timings self) as [[tm c]|e] eqn:E;
    cbn [Py.bind]; [|discriminate].
  destruct (calculate_signal_timings_ok _ _ _ _ A E)
    as (_ & _ & _ & _ & _ & _ & Hh).
  intros [= <- <-]. eexists.
  cbn [Control.ctl Control.append Control.enter Control.phase_history].
  rewrite Hh. split; [reflexivity|]. repeat split.
Qed.

(** The loop of [start_simulation] only appends to the history. *)
Lemma simulation_loop_appends (b : Kind -> Base) (w : Webster.t)
    (h0 : list Control.PhaseRecord) (k : Kind) (fuel : nat)
    (end_time update_interval : Z) (l l' : Control.Loop) :
  running b w h0 k l ->
  Control.simulation_loop fuel k end_time update_interval l = Py.Ok l' ->
  exists more,
    Control.phase_history (Control.ctl l')
    = Control.phase_history (Control.ctl l) ++ more.
Proof.
  revert l. induction fuel as [|fuel IH]; intros l R; simpl.
  - intros [= <-]. exists []. symmetry. apply app_nil_r.
  - destruct (Control.current_time l <? end_time);
      [|intros [= <-]; exists []; symmetry; apply app_nil_r].
    destruct (Control.loop_body k update_interval l) as [l1|ex] eqn:E;
      cbn [Py.bind]; [|discriminate].
    destruct (run_end _ _ _ _ _ R) as [e He].
    destruct (loop_body_running _ _ _ _ _ _ _ _ R He E) as (R1 & _ & Hn).
    intros E'. destruct (IH l1 R1 E') as (more & Hm).
    destruct (e <=? Control.current_time l + 1).
    + destruct Hn as (y & g & Hh & _). exists ([y; g] ++ more).
      rewrite Hm, Hh, <- app_assoc. reflexivity.
    + exists more. rewrite Hm, Hn. reflexivity.
Qed.

(** C4 (amended).  In traffic_controller.py the green records of the
    history of a constructed controller alternate between the two phase
    pairs after any number of [run_simulation] calls, which continue the
    schedule where the call before left it.  In controller.py the records
    one [start_simulation] call appends begin with a north-south green
    and their green records alternate; the history is not reset, so the
    green records of the whole history alternate after the call exactly
    when they did before it and the last of them was not a north-south
    green, as is the case for the empty history of a new controller. *)
Theorem green_records_alternate :
  (forall (Strategy : Type) (api : Simulation.StrategyAPI Strategy)
          (name : string) (viz re : bool) (self : Simulation.t Strategy)
          (runs : list (Z * (Z -> Simulation.TickInput))),
      Simulation.init name viz re = Py.Ok self ->
      alternating
        (green_phases (Simulation.phase_history (run_each runs self))))
  /\ (forall (self : Control.t) (duration_seconds update_interval : Z)
             (l : Control.Loop),
         Control.start_simulation self duration_seconds update_interval
         = Py.Ok l ->
         exists first rest,
           Control.phase_history (Control.ctl l)
           = Control.phase_history self ++ first :: rest
           /\ Control.state first = Green
           /\ Control.phase first = North_South
           /\ alternating (green_records (first :: rest))
           /\ (alternating
                 (green_records (Control.phase_history (Control.ctl l)))
               <-> alternating (green_records (Control.phase_history self))
                   /\ last (green_records (Control.phase_history self))
                      <> Some North_South)
           /\ (Control.phase_history self = [] ->
               alternating
                 (green_records (Control.phase_history (Control.ctl l))))).
Proof.
  split.
  - intros Strategy api name viz re self runs I.
    apply run_each_scheduled. exact (init_scheduled _ _ _ _ I).
  - intros self d ui l. unfold Control.start_simulation.
    destruct (Control.start self) as [[k l0]|e] eqn:E;
      cbn [Py.bind fst snd]; [|discriminate].
    intros El. destruct (start_running _ _ _ E) as (R & _).
    destruct (start_opens _ _ _ E) as (first & H0 & Sf & Pf & _).
    destruct (simulation_loop_appends _ _ _ _ _ _ _ _ _ R El) as (more & Hm).
    destruct (simulation_loop_running _ _ _ _ _ _ _ _ _ R El)
      as [_ _ _ _ _ (recs & Hr & Al & _)].
    assert (Hh : Control.phase_history (Control.ctl l)
                 = Control.phase_history self ++ first :: more).
    { rewrite Hm, H0, <- app_assoc. reflexivity. }
    assert (recs = first :: more).
    { apply (app_inv_head (Control.phase_history self)). congruence. }
    subst recs.
    assert (G : green_records (first :: more)
                = North_South :: green_records more).
    { unfold green_records. cbn [flat_map]. rewrite Sf, Pf. reflexivity. }
    assert (W : alternating
                  (green_records (Control.phase_history (Control.ctl l)))
                <-> alternating (green_records (Control.phase_history self))
                    /\ last (green_records (Control.phase_history self))
                       <> Some North_South).
    { rewrite Hh, green_records_app, G, alternating_app.
      rewrite G in Al. tauto. }
    exists first, more. split; [exact Hh|]. split; [exact Sf|].
    split; [exact Pf|]. split; [exact Al|]. split; [exact W|].
    intros Hn. apply W. rewrite Hn. split; [exact I|discriminate].
Qed.

Lemma green_records_alternate_witness :
  alternating
    (green_phases
       (Simulation.phase_history
          (run_each [(40, steady); (100, steady)] fresh)))
  /\ (exists l,
        Control.start_simulation (Control.init "fixed" steady_supply) 100 5
        = Py.Ok l
        /\ alternating
             (green_records (Control.phase_history (Control.ctl l)))).
Proof.
  split.
  - exact (proj1 green_records_alternate FixedTime.t _ "fixed"%string false
             true fresh [(40, steady); (100, steady)] fresh_is_init).
  - destruct (start_simulation_of_init "fixed" steady_supply Fixed 100 5
                eq_refl) as (l & E & _).
    destruct (proj2 green_records_alternate
                (Control.init "fixed" steady_supply) 100 5 l E)
      as (first & rest & _ & _ & _ & _ & _ & Al).
    exists l. split; [exact E|]. apply Al. reflexivity.
Defined.

(** C4 as stated fails for controller.py: a second [start_simulation] on
    the same controller appends its opening north-south green after the
    north-south green the first call ended with. *)
Lemma second_start_repeats_north_south :
  match Control.start_simulation (Control.init "fixed" steady_supply) 10 5
  with
  | Py.Ok l1 =>
      match Control.start_simulation (Control.ctl l1) 10 5 with
      | Py.Ok l2 =>
          map (fun r => (Control.phase r, Control.state r))
            (Control.phase_history (Control.ctl l2))
          = [(North_South, Green); (North_South, Green)]
          /\ green_records (Control.phase_history (Control.ctl l2))
             = [North_South; North_South]
          /\ ~ alternating
                (green_records (Control.phase_history (Control.ctl l2)))
      | Py.Raise _ => False
      end
  | Py.Raise _ => False
  end.
Proof.
  vm_compute. split; [reflexivity|]. split; [reflexivity|].
  intros [N _]. apply N. reflexivity.
Qed.

(** The two runs of the witness, read off: the records of a 100-second
    run of controller.py on the fixed strategy, and the green records of
    100 ticks of traffic_controller.py. *)
Example fixed_run_records :
  match Control.start_simulation (Control.init "fixed" steady_supply) 100 5
  with
  | Py.Ok l =>
      map (fun r => (Control.timestamp r, Control.phase r, Control.state r,
                     Control.duration r))
        (Control.phase_history (Control.ctl l))
      = [(0, North_South, Green, 30); (30, North_South, Yellow, 3);
         (33, East_West, Green, 30); (63, East_West, Yellow, 3);
         (66, North_South, Green, 30); (96, North_South, Yellow, 3);
         (99, East_West, Green, 30)]
  | Py.Raise _ => False
  end.
Proof. vm_compute. reflexivity. Qed.

Example fixed_ticks_green_phases :
  green_phases
    (Simulation.phase_history (Simulation.run_simulation 100 steady fresh))
  = [North_South; East_West].
Proof. vm_compute. reflexivity. Qed.

(** C2 (amended).  When a green phase's duration has elapsed the scheduler
    goes to yellow for the same phase pair.  In traffic_controller.py
    ([update_phase]) the yellow lasts the controller's own 5 seconds,
    whatever the strategy.  In controller.py ([start_simulation]) the
    iteration that finds the deadline passed appends a yellow record of
    the running pair whose duration is the active strategy's
    [yellow_time], then the green record of the other pair. *)
Theorem green_elapsed_turns_yellow :
  (forall (Strategy : Type) (api : Simulation.StrategyAPI Strategy)
          (self : Simulation.t Strategy),
      Simulation.phase_state self = Green ->
      Simulation.phase_duration self
        <= Simulation.time_elapsed self - Simulation.phase_start_time self ->
      let self' := Simulation.update_phase self in
      Simulation.phase_state self' = Yellow
      /\ Simulation.current_phase self' = Simulation.current_phase self
      /\ Simulation.phase_duration self' = 5)
  /\ (forall (self : Control.t) (k : Kind) (l0 l l' : Control.Loop)
             (fuel : nat) (end_time update_interval deadline : Z),
         Control.start self = Py.Ok (k, l0) ->
         Control.simulation_loop fuel k end_time update_interval l0
         = Py.Ok l ->
         Control.phase_end_time (Control.ctl l) = Some deadline ->
         deadline <= Control.current_time l + 1 ->
         Control.loop_body k update_interval l = Py.Ok l' ->
         exists y g,
           Control.phase_history (Control.ctl l')
           = Control.phase_history (Control.ctl l) ++ [y; g]
           /\ Control.state y = Yellow
           /\ Control.phase y = Control.current_phase (Control.ctl l)
           /\ Control.duration y
              = yellow_time (base_of (Control.strategies self) k)
           /\ Control.timestamp y = Control.current_time l + 1
           /\ Control.state g = Green
           /\ Control.phase g = other (Control.current_phase (Control.ctl l))
           /\ Control.timestamp g
              = Control.timestamp y + Control.duration y).
Proof.
  split.
  - intros Strategy api self Hs Hd.
    destruct (update_phase_green_elapsed self Hs Hd) as (A & B & C & _).
    repeat split; assumption.
  - intros self k l0 l l' fuel end_time ui deadline E El He D Eb.
    destruct (start_running _ _ _ E) as (R & _).
    pose proof (simulation_loop_running _ _ _ _ _ _ _ _ _ R El) as R'.
    destruct (loop_body_running _ _ _ _ _ _ _ _ R' He Eb) as (_ & _ & T).
    apply Z.leb_le in D. rewrite D in T.
    destruct T as (y & g & Hh & Ht). exists y, g. split; [exact Hh|].
    exact Ht.
Qed.

Lemma green_elapsed_turns_yellow_witness :
  (let self := Simulation.run_simulation 30 steady fresh in
   let self' := Simulation.update_phase self in
   Simulation.phase_state self' = Yellow
   /\ Simulation.current_phase self' = Simulation.current_phase self
   /\ Simulation.phase_duration self' = 5)
  /\ (exists y g,
        Control.phase_history (Control.ctl after_deadline)
        = Control.phase_history (Control.ctl before_deadline) ++ [y; g]
        /\ Control.state y = Yellow
        /\ Control.phase y = North_South
        /\ Control.duration y = 3
        /\ Control.timestamp y = 30
        /\ Control.state g = Green
        /\ Control.phase g = East_West
        /\ Control.timestamp g = Control.timestamp y + Control.duration y).
Proof.
  split.
  - apply (proj1 green_elapsed_turns_yellow FixedTime.t _
             (Simulation.run_simulation 30 steady fresh)).
    + vm_compute. reflexivity.
    + apply Z.leb_le. vm_compute. reflexivity.
  - apply (proj2 green_elapsed_turns_yellow
             (Control.init "fixed" steady_supply) Fixed started
             before_deadline after_deadline 29%nat 100 5 30).
    + vm_compute. reflexivity.
    + vm_compute. reflexivity.
    + reflexivity.
    + simpl. lia.
    + vm_compute. reflexivity.
Defined.

(** C2 as stated fails in traffic_controller.py: thirty ticks into a run
    on the fixed strategy, whose [yellow_time] is 3, the elapsed green is
    followed by a yellow of 5 seconds. *)
Lemma yellow_lasts_five_not_yellow_time :
  let self := Simulation.run_simulation 30 steady fresh in
  let self' := Simulation.update_phase self in
  Simulation.phase_state self = Green
  /\ Simulation.time_elapsed self - Simulation.phase_start_time self
     = Simulation.phase_duration self
  /\ Simulation.phase_state self' = Yellow
  /\ Simulation.phase_duration self' = 5
  /\ Simulation.strategy_yellow_time (Simulation.strategy self') = 3
  /\ Simulation.phase_duration self'
     <> Simulation.strategy_yellow_time (Simulation.strategy self').
Proof.
  cbv zeta. repeat split; try (vm_compute; reflexivity).
  vm_compute. discriminate.
Qed.

(* ------------------------------------------------------------------ *)
(** * Further properties of the timing strategies *)

From Stdlib Require Import Lqa.

(** ** Rational arithmetic *)

Lemma inject_Z_le (a b : Z) : a <= b -> (inject_Z a <= inject_Z b)%Q.
Proof. intros; rewrite <- Zle_Qle; assumption. Qed.

Lemma inject_Z_lt (a b : Z) : a < b -> (inject_Z a < inject_Z b)%Q.
Proof. intros; rewrite <- Zlt_Qlt; assumption. Qed.

Lemma int_floor (x : Q) : (0 <= x)%Q -> Py.int x = Qfloor x.
Proof.
  intros Hx. unfold Py.int.
  destruct (Qle_bool 0 x) eqn:E; [reflexivity|].
  apply Qle_bool_iff in Hx. congruence.
Qed.

Lemma floor_lower (z : Z) (x : Q) : (inject_Z z <= x)%Q -> z <= Qfloor x.
Proof.
  intros Hx. rewrite <- (Qfloor_Z z). apply Qfloor_resp_le. exact Hx.
Qed.

Lemma floor_sum (x y : Q) (a : Z) :
  (x + y <= inject_Z a)%Q -> Qfloor x + Qfloor y <= a.
Proof.
  intros Hs. pose proof (Qfloor_le x). pose proof (Qfloor_le y).
  rewrite Zle_Qle, inject_Z_plus. lra.
Qed.

(** [max(a, min(b, c))] lies between [a] and [b]. *)
Lemma clamp_bounds (a b c : Q) :
  (a <= b)%Q -> (a <= Py.max a (Py.min b c) <= b)%Q.
Proof.
  intros Hab. unfold Py.max, Py.min.
  destruct (Py.ltb c b) eqn:E1.
  - apply ltb_true_iff in E1.
    destruct (Py.ltb a c) eqn:E2.
    + apply ltb_true_iff in E2. split; lra.
    + split; lra.
  - destruct (Py.ltb a b) eqn:E2; split; lra.
Qed.

(** A value already between the bounds is kept. *)
Lemma clamp_inside (a b c : Q) :
  (a <= c <= b)%Q -> (Py.max a (Py.min b c) == c)%Q.
Proof.
  intros [Hac Hcb]. unfold Py.max, Py.min.
  destruct (Py.ltb c b) eqn:E1.
  - destruct (Py.ltb a c) eqn:E2; [reflexivity|].
    apply ltb_false_iff in E2. lra.
  - apply ltb_false_iff in E1.
    destruct (Py.ltb a b) eqn:E2; [lra|].
    apply ltb_false_iff in E2. lra.
Qed.

(** ** fixed_time.py *)

(** X1.  [FixedTimeStrategy.set_times] stores both green times clamped
    into [min_green_time, max_green_time]: whatever the arguments, the
    stored times lie between the two bounds (when the bounds are in
    order), arguments already between them are stored unchanged, and
    setting the stored times again changes nothing. *)
Theorem set_times_clamps (s : FixedTime.t) (ns ew : Z) :
  min_green_time (FixedTime.base s) <= max_green_time (FixedTime.base s) ->
  let lo := min_green_time (FixedTime.base s) in
  let hi := max_green_time (FixedTime.base s) in
  let s' := FixedTime.set_times s ns ew in
  lo <= FixedTime.ns_green_time s' <= hi
  /\ lo <= FixedTime.ew_green_time s' <= hi
  /\ (lo <= ns <= hi -> FixedTime.ns_green_time s' = ns)
  /\ (lo <= ew <= hi -> FixedTime.ew_green_time s' = ew)
  /\ FixedTime.set_times s' (FixedTime.ns_green_time s')
       (FixedTime.ew_green_time s') = s'.
Proof.
  intros Hb lo hi s'. subst lo hi s'. unfold FixedTime.set_times. cbn.
  repeat split; try lia.
  f_equal; lia.
Qed.

Lemma set_times_clamps_witness :
  let s' := FixedTime.set_times FixedTime.init 200 (-4) in
  5 <= FixedTime.ns_green_time s' <= 60
  /\ 5 <= FixedTime.ew_green_time s' <= 60
  /\ (5 <= 200 <= 60 -> FixedTime.ns_green_time s' = 200)
  /\ (5 <= -4 <= 60 -> FixedTime.ew_green_time s' = -4)
  /\ FixedTime.set_times s' (FixedTime.ns_green_time s')
       (FixedTime.ew_green_time s') = s'.
Proof.
  apply (set_times_clamps FixedTime.init 200 (-4)). simpl. lia.
Defined.

(** ** proportional.py *)

(** The ratios after "Apply minimum ratio", for the default
    [min_green_ratio]. *)
Lemma ratios_default (s : Proportional.t) (ns ew : Z) :
  Proportional.min_green_ratio s = 0.3%Q ->
  0 < ns + ew ->
  let r := Proportional.ratios s ns ew in
  (0.3 <= fst r)%Q /\ (0.3 <= snd r)%Q /\ (fst r + snd r == 1)%Q
  /\ (ew <= ns -> (snd r <= fst r)%Q)
  /\ (ns <= ew -> (fst r <= snd r)%Q).
Proof.
  intros Hm Ht r. subst r. unfold Proportional.ratios. rewrite Hm.
  assert (HtQ : (0 < inject_Z (ns + ew))%Q) by (apply (inject_Z_lt 0); lia).
  set (t := inject_Z (ns + ew)) in *.
  assert (Hsum : (inject_Z ns / t + inject_Z ew / t == 1)%Q).
  { subst t. rewrite inject_Z_plus. field.
    rewrite <- inject_Z_plus. intros E. rewrite E in HtQ. lra. }
  assert (Hord : ew <= ns -> (inject_Z ew / t <= inject_Z ns / t)%Q).
  { intros Hle. apply inject_Z_le in Hle.
    apply Qle_shift_div_l; [exact HtQ|].
    assert (E : (inject_Z ew / t * t == inject_Z ew)%Q) by (field; lra).
    rewrite E. exact Hle. }
  assert (Hord' : ns <= ew -> (inject_Z ns / t <= inject_Z ew / t)%Q).
  { intros Hle. apply inject_Z_le in Hle.
    apply Qle_shift_div_l; [exact HtQ|].
    assert (E : (inject_Z ns / t * t == inject_Z ns)%Q) by (field; lra).
    rewrite E. exact Hle. }
  destruct (Py.ltb (inject_Z ns / t) 0.3) eqn:E1.
  - apply ltb_true_iff in E1. cbn [fst snd].
    repeat split; try lra.
    + intros Hle. specialize (Hord Hle). lra.
  - apply ltb_false_iff in E1.
    destruct (Py.ltb (inject_Z ew / t) 0.3) eqn:E2.
    + apply ltb_true_iff in E2. cbn [fst snd].
      repeat split; try lra.
      intros Hle. specialize (Hord' Hle). lra.
    + apply ltb_false_iff in E2. cbn [fst snd].
      repeat split; try lra; assumption.
Qed.

(** The cycle lengths [set_cycle_length] can store. *)
Lemma set_cycle_length_range (s : Proportional.t) (c : Z) :
  30 <= Proportional.cycle_length (Proportional.set_cycle_length s c) <= 180.
Proof. unfold Proportional.set_cycle_length. cbn. lia. Qed.

(** The computation of [calculate_phase_times] on a strategy that has the
    constructor's defaults and a cycle length between 30 and 180: no
    green is raised to [min_green_time] and nothing is scaled down. *)
Lemma proportional_default_shape (c : Z) (vc : gmap string Z) :
  let s := Proportional.set_cycle_length Proportional.init c in
  let a := Proportional.cycle_length s - 6 in
  let tm := Proportional.calculate_phase_times s (snapshot vc) in
  (pair_count vc North_South + pair_count vc East_West <= 0 /\
   tm = both (a / 2) (a / 2) 3)
  \/ (0 < pair_count vc North_South + pair_count vc East_West /\
      let r := Proportional.ratios s (pair_count vc North_South)
                 (pair_count vc East_West) in
      tm = both (Qfloor (inject_Z a * fst r)) (Qfloor (inject_Z a * snd r)) 3
      /\ 7 <= Qfloor (inject_Z a * fst r)
      /\ 7 <= Qfloor (inject_Z a * snd r)
      /\ Qfloor (inject_Z a * fst r) + Qfloor (inject_Z a * snd r) <= a).
Proof.
  intros s a tm.
  pose proof (set_cycle_length_range Proportional.init c) as Hc.
  fold s in Hc.
  unfold tm, Proportional.calculate_phase_times, snapshot, counts_of.
  cbn [vehicle_counts].
  change (yellow_time (Proportional.base s)) with 3.
  change (min_green_time (Proportional.base s)) with 5.
  change (Proportional.cycle_length s - 2 * 3) with a.
  change (Py.get vc "north" 0 + Py.get vc "south" 0)
    with (pair_count vc North_South).
  change (Py.get vc "east" 0 + Py.get vc "west" 0)
    with (pair_count vc East_West).
  set (ns := pair_count vc North_South).
  set (ew := pair_count vc East_West).
  destruct (0 <? ns + ew) eqn:Et.
  - right. apply Z.ltb_lt in Et. split; [exact Et|].
    pose proof (ratios_default s ns ew eq_refl Et) as (H1 & H2 & H3 & _).
    destruct (Proportional.ratios s ns ew) as [r1 r2] eqn:Er.
    cbn [fst snd] in *.
    assert (Ha : (24 <= inject_Z a)%Q)
      by (apply (inject_Z_le 24); unfold a; lia).
    assert (P1 : (0 <= inject_Z a * r1)%Q) by nra.
    assert (P2 : (0 <= inject_Z a * r2)%Q) by nra.
    rewrite (int_floor _ P1), (int_floor _ P2).
    assert (L1 : 7 <= Qfloor (inject_Z a * r1)).
    { apply floor_lower. change (inject_Z 7) with 7%Q. nra. }
    assert (L2 : 7 <= Qfloor (inject_Z a * r2)).
    { apply floor_lower. change (inject_Z 7) with 7%Q. nra. }
    assert (S : Qfloor (inject_Z a * r1) + Qfloor (inject_Z a * r2) <= a).
    { apply floor_sum. nra. }
    rewrite !Z.max_r by lia.
    destruct (a <? _) eqn:Eo; [apply Z.ltb_lt in Eo; lia|].
    repeat split; assumption.
  - left. apply Z.ltb_ge in Et. split; [exact Et|reflexivity].
Qed.

(** X2.  A proportional strategy with the constructor's defaults and any
    cycle length stored by [set_cycle_length] stays inside its cycle:
    the stored cycle length is between 30 and 180, each green time is at
    least [min_green_time], and the two green times plus the two yellow
    intervals never exceed the cycle length, whatever the snapshot (also
    for a missing snapshot, one without counts, or one with no
    vehicles). *)
Theorem proportional_greens_fit_cycle
    (c : Z) (traffic_data : option TrafficData) :
  let s := Proportional.set_cycle_length Proportional.init c in
  let tm := Proportional.calculate_phase_times s traffic_data in
  30 <= Proportional.cycle_length s <= 180
  /\ min_green_time (Proportional.base s) <= green (north_south tm)
  /\ min_green_time (Proportional.base s) <= green (east_west tm)
  /\ green (north_south tm) + yellow (north_south tm)
     + green (east_west tm) + yellow (east_west tm)
     <= Proportional.cycle_length s.
Proof.
  intros s tm.
  pose proof (set_cycle_length_range Proportional.init c) as Hc.
  fold s in Hc. split; [exact Hc|].
  change (min_green_time (Proportional.base s)) with 5.
  destruct (counts_of traffic_data) as [vc|] eqn:Ec.
  - assert (Etm : tm = Proportional.calculate_phase_times s (snapshot vc)).
    { unfold tm, Proportional.calculate_phase_times.
      rewrite Ec. reflexivity. }
    pose proof (proportional_default_shape c vc) as Hs.
    cbv zeta in Hs. fold s in Hs. rewrite <- Etm in Hs.
    destruct Hs as [[_ ->]|[_ (-> & L1 & L2 & S)]];
      unfold both; cbn [green yellow north_south east_west].
    + pose proof (Z.mul_div_le (Proportional.cycle_length s - 6) 2 ltac:(lia)).
      assert (12 <= (Proportional.cycle_length s - 6) / 2)
        by (apply Z.div_le_lower_bound; lia).
      lia.
    + lia.
  - assert (Etm : tm = both ((Proportional.cycle_length s - 6) / 2)
                         ((Proportional.cycle_length s - 6) / 2) 3).
    { unfold tm, Proportional.calculate_phase_times. rewrite Ec.
      cbv zeta.
      change (yellow_time (Proportional.base s)) with 3.
      change (Proportional.cycle_length s - 2 * 3)
        with (Proportional.cycle_length s - 6).
      assert (E : Py.int (inject_Z (Proportional.cycle_length s - 6) / 2)%Q
                  = (Proportional.cycle_length s - 6) / 2).
      { rewrite <- int_half by lia. apply int_proper. field. }
      rewrite E. reflexivity. }
    rewrite Etm. unfold both. cbn [green yellow north_south east_west].
    pose proof (Z.mul_div_le (Proportional.cycle_length s - 6) 2 ltac:(lia)).
    assert (12 <= (Proportional.cycle_length s - 6) / 2)
      by (apply Z.div_le_lower_bound; lia).
    lia.
Qed.

(** X3.  With the constructor's defaults and any cycle length stored by
    [set_cycle_length], the phase pair that carries at least as many
    vehicles never gets the shorter green; equal counts give equal green
    times. *)
Theorem proportional_busier_pair_not_shorter (c : Z) (vc : gmap string Z) :
  let s := Proportional.set_cycle_length Proportional.init c in
  let tm := Proportional.calculate_phase_times s (snapshot vc) in
  (pair_count vc East_West <= pair_count vc North_South ->
   green_of tm East_West <= green_of tm North_South)
  /\ (pair_count vc North_South <= pair_count vc East_West ->
      green_of tm North_South <= green_of tm East_West)
  /\ (pair_count vc North_South = pair_count vc East_West ->
      green_of tm North_South = green_of tm East_West).
Proof.
  intros s tm.
  assert (Hboth :
    (pair_count vc East_West <= pair_count vc North_South ->
     green_of tm East_West <= green_of tm North_South)
    /\ (pair_count vc North_South <= pair_count vc East_West ->
        green_of tm North_South <= green_of tm East_West)).
  { pose proof (proportional_default_shape c vc) as Hs.
    cbv zeta in Hs. fold s in Hs. fold tm in Hs.
    pose proof (set_cycle_length_range Proportional.init c) as Hc.
    fold s in Hc.
    destruct Hs as [[_ ->]|[Ht (-> & _)]]; unfold green_of, both;
      cbn [green yellow north_south east_west Control.timings_at].
    - split; intros; lia.
    - pose proof (ratios_default s _ _ eq_refl Ht) as (_ & _ & _ & O1 & O2).
      cbv zeta in O1, O2.
      assert (Ha : (0 <= inject_Z (Proportional.cycle_length s - 6))%Q)
        by (apply (inject_Z_le 0); lia).
      split; intros Hle; apply Qfloor_resp_le.
      + specialize (O1 Hle). nra.
      + specialize (O2 Hle). nra. }
  destruct Hboth as [H1 H2].
  repeat split; try assumption.
  intros E. apply Z.le_antisymm; [apply H2|apply H1]; lia.
Qed.

Lemma proportional_busier_pair_not_shorter_witness :
  let s := Proportional.set_cycle_length Proportional.init 120 in
  let vc := counts_from [("north", 14); ("south", 9); ("east", 4);
                         ("west", 3)]%string in
  let tm := Proportional.calculate_phase_times s (snapshot vc) in
  (pair_count vc East_West <= pair_count vc North_South ->
   green_of tm East_West <= green_of tm North_South)
  /\ (pair_count vc North_South <= pair_count vc East_West ->
      green_of tm North_South <= green_of tm East_West)
  /\ (pair_count vc North_South = pair_count vc East_West ->
      green_of tm North_South = green_of tm East_West).
Proof.
  exact (proportional_busier_pair_not_shorter 120
           (counts_from [("north", 14); ("south", 9); ("east", 4);
                         ("west", 3)]%string)).
Defined.

(** ** webster.py *)

(** X4.  A Webster configuration that cannot divide by zero stays so
    under [set_saturation_flow] and [set_lanes] with any arguments, and
    on such a configuration [calculate_phase_times] returns timings for
    every input instead of raising [ZeroDivisionError]; the
    constructor's configuration is one. *)
Theorem webster_setters_keep_valid
    (s : Webster.t) (flow_rate n so e w : Z)
    (traffic_data : option TrafficData) :
  webster_valid s ->
  webster_valid (Webster.set_saturation_flow s flow_rate)
  /\ 600 <= Webster.saturation_flow (Webster.set_saturation_flow s flow_rate)
     <= 2400
  /\ webster_valid (Webster.set_lanes s n so e w)
  /\ (exists tm, Webster.calculate_phase_times s traffic_data = Py.Ok tm).
Proof.
  intros Hv. split; [|split; [|split]].
  - destruct Hv as (H1 & H2 & H3 & H4).
    apply Z.neq_mul_0 in H1, H2, H3, H4.
    unfold webster_valid, Webster.set_saturation_flow. cbn.
    repeat split; apply Z.neq_mul_0; split; first [lia | tauto].
  - unfold Webster.set_saturation_flow. cbn. lia.
  - destruct Hv as (H1 & H2 & H3 & H4).
    apply Z.neq_mul_0 in H1, H2, H3, H4.
    unfold webster_valid, Webster.set_lanes. cbn.
    repeat split; apply Z.neq_mul_0; split; first [lia | tauto].
  - apply webster_returns. exact Hv.
Qed.

Lemma webster_setters_keep_valid_witness :
  webster_valid (Webster.set_saturation_flow Webster.init 0)
  /\ 600 <= Webster.saturation_flow (Webster.set_saturation_flow Webster.init 0)
     <= 2400
  /\ webster_valid (Webster.set_lanes Webster.init 0 2 (-1) 3)
  /\ (exists tm, Webster.calculate_phase_times Webster.init None = Py.Ok tm).
Proof.
  apply (webster_setters_keep_valid Webster.init 0 0 2 (-1) 3 None).
  unfold webster_valid. simpl. lia.
Defined.

(** X5.  The cycle length Webster's formula is turned into always lies
    between [min_cycle_length] and [max_cycle_length] (when these are in
    order), for every total flow ratio, also one at or above 1 where the
    formula itself is negative or undefined. *)
Theorem webster_cycle_length_bounds (s : Webster.t) (Y : Q) :
  Webster.min_cycle_length s <= Webster.max_cycle_length s ->
  (inject_Z (Webster.min_cycle_length s) <= Webster.cycle_length s Y
   <= inject_Z (Webster.max_cycle_length s))%Q.
Proof.
  intros Hb. apply inject_Z_le in Hb. unfold Webster.cycle_length.
  destruct (Py.ltb Y 0.95).
  - apply clamp_bounds. exact Hb.
  - split; [exact Hb|apply Qle_refl].
Qed.

Lemma webster_cycle_length_bounds_witness :
  (inject_Z 30 <= Webster.cycle_length Webster.init 0.5
   <= inject_Z 180)%Q.
Proof.
  apply (webster_cycle_length_bounds Webster.init 0.5). simpl. lia.
Defined.

(** X6.  On a snapshot that reports no vehicle in any of the four
    directions (zero counts or missing keys, the empty dict included) a
    valid Webster configuration returns 30 seconds of green for both
    phase pairs, whatever its [min_green_time]. *)
Theorem webster_no_traffic (s : Webster.t) (vc : gmap string Z) :
  webster_valid s ->
  Py.get vc "north" 0 = 0 -> Py.get vc "south" 0 = 0 ->
  Py.get vc "east" 0 = 0 -> Py.get vc "west" 0 = 0 ->
  Webster.calculate_phase_times s (snapshot vc)
  = Py.Ok (both 30 30 (yellow_time (Webster.base s))).
Proof.
  intros (V1 & V2 & V3 & V4) Hn Hs He Hw.
  unfold Webster.calculate_phase_times, snapshot, counts_of.
  cbn [vehicle_counts]. unfold Webster.flow_ratios.
  rewrite Hn, Hs, He, Hw. unfold Py.truediv.
  apply Z.eqb_neq in V1, V2, V3, V4. rewrite V1, V2, V3, V4.
  cbn [Py.bind].
  match goal with
  | |- (if Py.ltb ?Y _ then _ else _) = _ =>
      assert (E : Py.ltb Y 0.001 = true)
  end.
  { apply ltb_true_iff. unfold Webster.total_flow_ratio. cbn [fst snd].
    assert (Z0 : forall d, (inject_Z (0 * 12) / inject_Z d == 0)%Q).
    { intros d. unfold Qdiv. change (inject_Z (0 * 12)) with 0%Q. ring. }
    assert (M : forall a b, (a == 0)%Q -> (b == 0)%Q -> (Py.max a b == 0)%Q).
    { intros a b Ea Eb. unfold Py.max. destruct (Py.ltb a b); assumption. }
    rewrite (M _ _ (Z0 _) (Z0 _)), (M _ _ (Z0 _) (Z0 _)). reflexivity. }
  rewrite E. reflexivity.
Qed.

Lemma webster_no_traffic_witness :
  Webster.calculate_phase_times Webster.init (snapshot ∅)
  = Py.Ok (both 30 30 (yellow_time (Webster.base Webster.init))).
Proof.
  apply (webster_no_traffic Webster.init ∅); try reflexivity.
  unfold webster_valid. simpl. lia.
Defined.

(** ** adaptive.py *)

Lemma push_length (m : nat) (data : list Z) (count : Z) :
  (length data <= m)%nat -> (length (Adaptive.push m data count) <= m)%nat.
Proof.
  intros Hl. unfold Adaptive.push.
  destruct (m <? length (data ++ [count]))%nat eqn:E.
  - rewrite length_app in E. cbn in E. apply Nat.ltb_lt in E.
    destruct data as [|x data]; cbn in *.
    + lia.
    + rewrite length_app. cbn. lia.
  - apply Nat.ltb_ge in E. exact E.
Qed.

Lemma push_last (m : nat) (data : list Z) (count : Z) :
  (1 <= m)%nat -> last (Adaptive.push m data count) = Some count.
Proof.
  intros Hm. unfold Adaptive.push.
  destruct (m <? length (data ++ [count]))%nat eqn:E.
  - apply Nat.ltb_lt in E. rewrite length_app in E. cbn in E.
    destruct data as [|x data]; cbn in *; [lia|].
    apply last_snoc.
  - apply last_snoc.
Qed.

(** X7.  The trend buffers of the adaptive strategy never grow beyond
    [max_trend_points]: if no buffer is longer than that before a call of
    [calculate_phase_times], none is after it, and after a call on a
    snapshot with counts each buffer ends with the count just reported
    for its direction (0 for a missing key).  The constructor starts
    with empty buffers and room for five points. *)
Theorem trend_buffers_stay_bounded
    (s : Adaptive.t) (traffic_data : option TrafficData) :
  trend_bounded s ->
  let s' := snd (Adaptive.calculate_phase_times s traffic_data) in
  trend_bounded s'
  /\ (forall vc, counts_of traffic_data = Some vc ->
        (1 <= Adaptive.max_trend_points s)%nat ->
        last (north (Adaptive.trend_data s')) = Some (Py.get vc "north" 0)
        /\ last (south (Adaptive.trend_data s')) = Some (Py.get vc "south" 0)
        /\ last (east (Adaptive.trend_data s')) = Some (Py.get vc "east" 0)
        /\ last (west (Adaptive.trend_data s')) = Some (Py.get vc "west" 0)).
Proof.
  intros (B1 & B2 & B3 & B4) s'.
  unfold s', Adaptive.calculate_phase_times, Adaptive.update_trends.
  destruct (counts_of traffic_data) as [vc|] eqn:Ec.
  - destruct (Adaptive.target_green _ vc) as [t1 t2].
    unfold trend_bounded. cbn.
    split.
    + repeat split; apply push_length; assumption.
    + intros vc' Evc Hm. injection Evc as <-.
      repeat split; apply push_last; exact Hm.
  - cbn. split; [repeat split; assumption|]. intros vc' Evc. discriminate.
Qed.

Lemma trend_buffers_stay_bounded_witness :
  let vc := counts_from [("north", 10); ("south", 12); ("east", 8)]%string in
  let s' := snd (Adaptive.calculate_phase_times Adaptive.init (snapshot vc)) in
  trend_bounded s'
  /\ (forall vc', counts_of (snapshot vc) = Some vc' ->
        (1 <= Adaptive.max_trend_points Adaptive.init)%nat ->
        last (north (Adaptive.trend_data s')) = Some (Py.get vc' "north" 0)
        /\ last (south (Adaptive.trend_data s')) = Some (Py.get vc' "south" 0)
        /\ last (east (Adaptive.trend_data s')) = Some (Py.get vc' "east" 0)
        /\ last (west (Adaptive.trend_data s')) = Some (Py.get vc' "west" 0)).
Proof.
  apply (trend_buffers_stay_bounded Adaptive.init
           (snapshot (counts_from [("north", 10); ("south", 12);
                                   ("east", 8)]%string))).
  unfold trend_bounded. simpl. lia.
Defined.

(** X8.  [get_trend_factor] never leaves the band from 0.8 to 1.5,
    whatever the buffer holds (negative counts and an all-zero start
    included), and it is exactly 1.0 for a buffer with fewer than two
    points. *)
Theorem trend_factor_in_band (data : list Z) :
  (0.8 <= Adaptive.trend_factor data <= 1.5)%Q
  /\ ((length data < 2)%nat -> Adaptive.trend_factor data = 1.0%Q).
Proof.
  unfold Adaptive.trend_factor.
  destruct (length data <? 2)%nat eqn:E.
  - split; [split; lra|reflexivity].
  - apply Nat.ltb_ge in E. split; [|intros; lia].
    destruct (Qeq_bool _ 0).
    + destruct (Qeq_bool _ 0); split; lra.
    + apply clamp_bounds. lra.
Qed.

Lemma trend_factor_in_band_witness :
  (0.8 <= Adaptive.trend_factor [7%Z] <= 1.5)%Q
  /\ Adaptive.trend_factor [7] = 1.0%Q.
Proof.
  destruct (trend_factor_in_band [7]) as [B E].
  split; [exact B|]. apply E. simpl. lia.
Defined.

(** X9.  [set_responsiveness] keeps the responsiveness between 0.1 and
    1.0 and the historical weight between 0.0 and 0.9 for every
    argument; an argument already between 0.1 and 1.0 is stored as it
    is. *)
Theorem set_responsiveness_clamps (s : Adaptive.t) (value : Q) :
  let s' := Adaptive.set_responsiveness s value in
  (0.1 <= Adaptive.responsiveness s' <= 1.0)%Q
  /\ (0 <= Adaptive.historical_weight s' <= 0.9)%Q
  /\ ((0.1 <= value <= 1.0)%Q -> (Adaptive.responsiveness s' == value)%Q).
Proof.
  intros s'. subst s'. unfold Adaptive.set_responsiveness. cbn.
  pose proof (clamp_bounds 0.1 1.0 value) as Hc.
  assert (H01 : (0.1 <= 1.0)%Q) by lra. specialize (Hc H01).
  split; [exact Hc|]. split; [lra|].
  intros Hv. apply clamp_inside. exact Hv.
Qed.

Lemma set_responsiveness_clamps_witness :
  let s' := Adaptive.set_responsiveness Adaptive.init 0.45 in
  (0.1 <= Adaptive.responsiveness s' <= 1.0)%Q
  /\ (0 <= Adaptive.historical_weight s' <= 0.9)%Q
  /\ (Adaptive.responsiveness s' == 0.45)%Q.
Proof.
  destruct (set_responsiveness_clamps Adaptive.init 0.45) as (A & B & C).
  split; [exact A|]. split; [exact B|].
  apply C. split; vm_compute; discriminate.
Defined.

(** X10.  A call of the adaptive strategy without vehicle counts (no
    snapshot, or a snapshot without the key) right after a call with
    counts returns the timings of that call once more and leaves the
    strategy as it was. *)
Theorem adaptive_without_counts_repeats
    (s : Adaptive.t) (vc : gmap string Z) :
  let r := Adaptive.calculate_phase_times s (snapshot vc) in
  Adaptive.calculate_phase_times (snd r) None = r
  /\ Adaptive.calculate_phase_times (snd r)
       (Some {| vehicle_counts := None |}) = r.
Proof.
  intros r. subst r.
  destruct (Adaptive.calculate_phase_times s (snapshot vc)) as [tm s1] eqn:E.
  unfold Adaptive.calculate_phase_times, snapshot, counts_of in E.
  cbn [vehicle_counts] in E.
  destruct (Adaptive.target_green _ vc) as [t1 t2].
  injection E as <- <-.
  split; reflexivity.
Qed.

(* ------------------------------------------------------------------ *)
(** * Further properties of controller.py *)

(** ** Selecting a strategy *)

Lemma lower_ascii_idempotent (c : ascii) :
  Py.lower_ascii (Py.lower_ascii c) = Py.lower_ascii c.
Proof.
  destruct c as [[] [] [] [] [] [] [] []]; vm_compute; reflexivity.
Qed.

Lemma lower_idempotent (s : string) : Py.lower (Py.lower s) = Py.lower s.
Proof.
  induction s as [|c s IH]; simpl; [reflexivity|].
  rewrite lower_ascii_idempotent, IH. reflexivity.
Qed.

Lemma control_known_lookup (name : string) :
  name ∈ known_names -> is_Some (Control.strategy_names !! name).
Proof.
  unfold known_names. rewrite !elem_of_cons, elem_of_nil.
  intros [->|[->|[->|[->|[]]]]]; eexists; vm_compute; reflexivity.
Qed.

(** X11.  [set_strategy] of controller.py looks the name up in lower
    case: a name and its lower-case form select alike, the call succeeds
    exactly for the names that are one of fixed, proportional, webster
    and adaptive once lower-cased, a successful call leaves a strategy
    active, and no call touches the strategy objects, the data or the
    history. *)
Theorem set_strategy_ignores_case (self : Control.t) (name : string) :
  Control.set_strategy self (Py.lower name) = Control.set_strategy self name
  /\ (fst (Control.set_strategy self name) = true
      <-> Py.lower name ∈ known_names)
  /\ let self' := snd (Control.set_strategy self name) in
     (fst (Control.set_strategy self name) = true ->
      is_Some (Control.active_strategy self'))
     /\ Control.strategies self' = Control.strategies self
     /\ Control.current_data self' = Control.current_data self
     /\ Control.data_generator self' = Control.data_generator self
     /\ Control.phase_history self' = Control.phase_history self.
Proof.
  unfold Control.set_strategy. rewrite lower_idempotent.
  split; [reflexivity|].
  destruct (Control.strategy_names !! Py.lower name) as [k|] eqn:E.
  - cbn [fst snd]. split.
    + split; [intros _|reflexivity].
      destruct (decide (Py.lower name ∈ known_names)) as [Hin|Hout];
        [exact Hin|].
      apply control_unknown_lookup in Hout. congruence.
    + repeat split. intros _. eexists; reflexivity.
  - cbn [fst snd]. split.
    + split; [discriminate|]. intros Hin.
      apply control_known_lookup in Hin. rewrite E in Hin.
      destruct Hin; discriminate.
    + repeat split. discriminate.
Qed.

Lemma set_strategy_ignores_case_witness :
  Control.set_strategy (Control.init "fixed" steady_supply) "webster"
  = Control.set_strategy (Control.init "fixed" steady_supply) "WebSter"
  /\ is_Some (Control.active_strategy
                (snd (Control.set_strategy
                        (Control.init "fixed" steady_supply) "WebSter"))).
Proof.
  destruct (set_strategy_ignores_case (Control.init "fixed" steady_supply)
              "WebSter") as (A & _ & B & _).
  split; [exact A|]. apply B. vm_compute. reflexivity.
Defined.

(** ** The current snapshot *)

(** X12.  [get_current_data] keeps the snapshot it returns: asking again
    with [use_generator=False] returns the same snapshot and leaves the
    controller, its generator included, untouched.  A call draws at most
    one snapshot from the generator, and none when it is asked not to
    and a snapshot is there. *)
Theorem get_current_data_is_cached (self : Control.t) (use_generator : bool) :
  let r := Control.get_current_data self use_generator in
  Control.get_current_data (snd r) false = r
  /\ Control.current_data (snd r) = fst r
  /\ is_Some (fst r)
  /\ (Control.calls (Control.data_generator (snd r))
      <= S (Control.calls (Control.data_generator self)))%nat
  /\ (use_generator = false -> is_Some (Control.current_data self) ->
      r = (Control.current_data self, self)).
Proof.
  intros r. subst r. unfold Control.get_current_data.
  destruct use_generator; cbn [orb].
  - cbn. repeat split; [eexists; reflexivity|lia|discriminate].
  - destruct (Control.current_data self) as [d|] eqn:E.
    + cbn [fst snd]. rewrite E.
      repeat split; [eexists; reflexivity|lia].
    + cbn. repeat split; [eexists; reflexivity|lia|].
      intros _ [x Hx]. discriminate.
Qed.

Lemma get_current_data_is_cached_witness :
  Control.get_current_data (Control.ctl started) false
  = (Control.current_data (Control.ctl started), Control.ctl started).
Proof.
  destruct (get_current_data_is_cached (Control.ctl started) false)
    as (_ & _ & _ & _ & A).
  apply A; [reflexivity|]. eexists. reflexivity.
Defined.

(** ** The simulation clock and the recorded times *)

Lemma chronological_snoc (l : list Z) (t : Z) :
  chronological l -> Forall (fun x => x <= t) l -> chronological (l ++ [t]).
Proof.
  induction l as [|a [|b r] IH]; intros C F.
  - exact I.
  - split; [|exact I]. inversion F; assumption.
  - destruct C as [Hab C]. split; [exact Hab|].
    apply IH; [exact C|]. inversion F; assumption.
Qed.

Section Clock.
Import Control.

Implicit Types (self : Control.t) (l : Loop) (k : Kind).


Lemma Forall_timestamps (P : Z -> Prop) (recs : list PhaseRecord) :
  Forall (fun r => P (timestamp r)) recs -> Forall P (map timestamp recs).
Proof.
  induction 1; cbn [map]; constructor; assumption.
Qed.

Lemma loop_body_timed (b : Kind -> Base) (w : Webster.t)
    (h0 : list PhaseRecord) k (update_interval : Z) l l' :
  running b w h0 k l -> 0 <= yellow_time (b k) ->
  timed h0 l ->
  loop_body k update_interval l = Py.Ok l' ->
  timed h0 l'.
Proof.
  intros R Hy (first & rest & Hh & T0 & P0 & S0 & C & F) E.
  destruct (run_end _ _ _ _ _ R) as [e He].
  destruct (loop_body_running _ _ _ _ _ _ _ _ R He E) as (_ & T & Hn).
  destruct (e <=? current_time l + 1).
  - destruct Hn as (y & g & Hh' & Sy & Py & Dy & Ty & Sg & Pg & Tg).
    exists first, (rest ++ [y; g]).
    split; [rewrite Hh', Hh, <- app_assoc; reflexivity|].
    split; [exact T0|]. split; [exact P0|]. split; [exact S0|].
    assert (Fy : Forall (fun r => timestamp r <= timestamp y)
                   (first :: rest)).
    { eapply Forall_impl; [exact F|]. cbn beta. intros r Hr. lia. }
    split.
    + change (first :: rest ++ [y; g])
        with ((first :: rest) ++ [y; g]).
      replace ((first :: rest) ++ [y; g])
        with (((first :: rest) ++ [y]) ++ [g])
        by (rewrite <- app_assoc; reflexivity).
      rewrite !map_app.
      change (map timestamp [y]) with [timestamp y].
      change (map timestamp [g]) with [timestamp g].
      apply chronological_snoc; [apply chronological_snoc|].
      * exact C.
      * apply (Forall_timestamps (fun x => x <= timestamp y)). exact Fy.
      * apply Forall_app. split.
        -- apply (Forall_timestamps (fun x => x <= timestamp g)).
           eapply Forall_impl; [exact Fy|].
           cbn beta. intros r Hr. lia.
        -- constructor; [lia|constructor].
    + change (first :: rest ++ [y; g])
        with ((first :: rest) ++ [y; g]).
      apply Forall_app. split.
      * eapply Forall_impl; [exact F|]. cbn beta. intros r Hr. lia.
      * constructor; [lia|]. constructor; [lia|constructor].
  - exists first, rest. rewrite Hn.
    repeat split; try assumption.
    eapply Forall_impl; [exact F|]. cbn beta. intros r Hr. lia.
Qed.

Lemma simulation_loop_timed (b : Kind -> Base) (w : Webster.t)
    (h0 : list PhaseRecord) k (fuel : nat) (end_time update_interval : Z)
    l l' :
  running b w h0 k l -> 0 <= yellow_time (b k) ->
  timed h0 l ->
  simulation_loop fuel k end_time update_interval l = Py.Ok l' ->
  timed h0 l'.
Proof.
  intros R Hy. revert l R.
  induction fuel as [|fuel IH]; intros l R Tm; simpl.
  - intros [= <-]. exact Tm.
  - destruct (current_time l <? end_time); [|intros [= <-]; exact Tm].
    destruct (loop_body k update_interval l) as [l1|ex] eqn:E;
      cbn [Py.bind]; [|discriminate].
    destruct (run_end _ _ _ _ _ R) as [e He].
    apply IH.
    + exact (proj1 (loop_body_running _ _ _ _ _ _ _ _ R He E)).
    + exact (loop_body_timed _ _ _ _ _ _ _ R Hy Tm E).
Qed.

Lemma start_timed self k l :
  start self = Py.Ok (k, l) -> timed (phase_history self) l.
Proof.
  unfold start. destruct (active_strategy self) as [k0|] eqn:A;
    [|discriminate].
  destruct (calculate_signal_timings self) as [[tm c]|e] eqn:E;
    cbn [Py.bind]; [|discriminate].
  destruct (calculate_signal_timings_ok _ _ _ _ A E)
    as (_ & _ & _ & _ & _ & _ & Hh).
  intros [= <- <-]. eexists _, [].
  cbn [ctl append enter phase_history current_time]. rewrite Hh.
  split; [reflexivity|]. cbn [timestamp phase state map].
  repeat split. constructor; [cbn; lia|constructor].
Qed.

(** *** Timings that are never recalculated *)

Lemma loop_body_tabled (h0 : list PhaseRecord) (tm : Timings) k
    (update_interval : Z) l l' :
  recalculates (base_of (strategies (ctl l)) k) = false ->
  tabled h0 tm l ->
  loop_body k update_interval l = Py.Ok l' ->
  tabled h0 tm l' /\ strategies (ctl l') = strategies (ctl l).
Proof.
  intros Hr (Et & recs & Hh & F). unfold loop_body.
  set (now := current_time l + 1).
  set (c1 := if next_update l <=? now
             then ((get_current_data (ctl l) true).2, now + update_interval)
             else (ctl l, next_update l)).
  assert (C1 : strategies c1.1 = strategies (ctl l)
               /\ phase_history c1.1 = phase_history (ctl l)).
  { subst c1. destruct (next_update l <=? now); repeat split. }
  destruct c1 as [self next]. cbn [fst] in C1. destruct C1 as (C1s & C1h).
  destruct (phase_end_time self) as [e|]; [|discriminate].
  destruct (e <=? now).
  - cbn [append strategies]. rewrite C1s, Hr. cbn [Py.bind].
    intros [= <-]. unfold tabled.
    cbn [ctl append enter strategies phase_history timings].
    split; [|exact C1s]. split; [exact Et|].
    eexists (recs ++ [_; _]). rewrite C1h, Hh, <- !app_assoc.
    split; [reflexivity|].
    apply Forall_app. split; [exact F|].
    constructor; [|constructor; [|constructor]];
      unfold from_table; cbn [duration state phase]; rewrite Et;
      reflexivity.
  - intros [= <-]. unfold tabled. cbn [ctl timings]. split; [|exact C1s].
    split; [exact Et|]. exists recs. rewrite C1h. split; assumption.
Qed.

Lemma simulation_loop_tabled (h0 : list PhaseRecord) (tm : Timings) k
    (fuel : nat) (end_time update_interval : Z) l l' :
  recalculates (base_of (strategies (ctl l)) k) = false ->
  tabled h0 tm l ->
  simulation_loop fuel k end_time update_interval l = Py.Ok l' ->
  tabled h0 tm l'.
Proof.
  revert l. induction fuel as [|fuel IH]; intros l Hr Tb; simpl.
  - intros [= <-]. exact Tb.
  - destruct (current_time l <? end_time); [|intros [= <-]; exact Tb].
    destruct (loop_body k update_interval l) as [l1|ex] eqn:E;
      cbn [Py.bind]; [|discriminate].
    destruct (loop_body_tabled _ _ _ _ _ _ Hr Tb E) as (Tb1 & S1).
    apply IH; [rewrite S1; exact Hr|exact Tb1].
Qed.

Lemma start_tabled self k l :
  start self = Py.Ok (k, l) ->
  (exists c, calculate_signal_timings self = Py.Ok (timings l, c))
  /\ tabled (phase_history self) (timings l) l
  /\ base_of (strategies (ctl l)) k = base_of (strategies self) k.
Proof.
  unfold start. destruct (active_strategy self) as [k0|] eqn:A;
    [|discriminate].
  destruct (calculate_signal_timings self) as [[tm c]|e] eqn:E;
    cbn [Py.bind]; [|discriminate].
  destruct (calculate_signal_timings_ok _ _ _ _ A E)
    as (_ & B & _ & _ & _ & _ & Hh).
  intros [= <- <-]. unfold tabled.
  cbn [ctl append enter phase_history timings strategies].
  split; [exists c; reflexivity|]. split; [|apply B].
  split; [reflexivity|]. eexists [_]. rewrite Hh.
  split; [reflexivity|]. constructor; [|constructor].
  unfold from_table. reflexivity.
Qed.

End Clock.




(** X14.  When the active strategy's name is neither "Adaptive" nor
    "Webster", [start_simulation] computes the timing table once, from
    the first snapshot, and uses it to the end: the table in use when
    the run returns is the one [calculate_signal_timings] gave before
    the loop, and every record the run appended carries the duration
    that table gives its phase and state, however the traffic changes
    during the run. *)
Theorem timings_computed_once (self : Control.t) (k : Kind)
    (duration_seconds update_interval : Z) :
  Control.active_strategy self = Some k ->
  webster_valid (webster (Control.strategies self)) ->
  0 <= yellow_time (base_of (Control.strategies self) k) ->
  Control.recalculates (base_of (Control.strategies self) k) = false ->
  exists l c,
    Control.start_simulation self duration_seconds update_interval = Py.Ok l
    /\ Control.calculate_signal_timings self
       = Py.Ok (Control.timings l, c)
    /\ tabled (Control.phase_history self) (Control.timings l) l.
Proof.
  intros A V Hy Hr.
  destruct (start_simulation_returns self k duration_seconds
              update_interval A V Hy) as (l & E & _).
  pose proof E as E0. unfold Control.start_simulation in E.
  destruct (Control.start self) as [[k0 l0]|ex] eqn:Es;
    cbn [Py.bind fst snd] in E; [|discriminate].
  destruct (start_running _ _ _ Es) as (_ & _ & A0).
  assert (k0 = k) by congruence. subst k0.
  destruct (start_tabled _ _ _ Es) as ((c & Ec) & Tb & B).
  assert (Tl : tabled (Control.phase_history self) (Control.timings l0) l).
  { eapply simulation_loop_tabled; [|exact Tb|exact E].
    rewrite B. exact Hr. }
  exists l, c. split; [exact E0|].
  pose proof Tl as [Et _]. rewrite Et.
  split; [exact Ec|exact Tl].
Qed.

Lemma timings_computed_once_witness :
  exists l c,
    Control.start_simulation (Control.init "proportional" steady_supply)
      120 5 = Py.Ok l
    /\ Control.calculate_signal_timings
         (Control.init "proportional" steady_supply)
       = Py.Ok (Control.timings l, c)
    /\ tabled (Control.phase_history
                 (Control.init "proportional" steady_supply))
         (Control.timings l) l.
Proof.
  apply (timings_computed_once (Control.init "proportional" steady_supply)
           Proportional 120 5).
  - reflexivity.
  - vm_compute. repeat split; discriminate.
  - vm_compute. discriminate.
  - reflexivity.
Defined.

(** X15.  The records [start_simulation] appends are in time order: the
    first is the north-south green at second 0, no record is stamped
    earlier than the one before it, and none is stamped later than the
    clock value the run ends with. *)
Theorem records_in_time_order (self : Control.t) (k : Kind)
    (duration_seconds update_interval : Z) :
  Control.active_strategy self = Some k ->
  webster_valid (webster (Control.strategies self)) ->
  0 <= yellow_time (base_of (Control.strategies self) k) ->
  exists l,
    Control.start_simulation self duration_seconds update_interval = Py.Ok l
    /\ timed (Control.phase_history self) l.
Proof.
  intros A V Hy.
  destruct (start_simulation_returns self k duration_seconds
              update_interval A V Hy) as (l & E & _).
  exists l. split; [exact E|].
  unfold Control.start_simulation in E.
  destruct (Control.start self) as [[k0 l0]|ex] eqn:Es;
    cbn [Py.bind fst snd] in E; [|discriminate].
  destruct (start_running _ _ _ Es) as (R & _ & A0).
  assert (k0 = k) by congruence. subst k0.
  exact (simulation_loop_timed _ _ _ _ _ _ _ _ _ R Hy
           (start_timed _ _ _ Es) E).
Qed.

Lemma records_in_time_order_witness :
  exists l,
    Control.start_simulation (Control.init "adaptive" steady_supply) 200 5
    = Py.Ok l
    /\ timed (Control.phase_history (Control.init "adaptive" steady_supply))
         l.
Proof.
  apply (records_in_time_order (Control.init "adaptive" steady_supply)
           Adaptive 200 5).
  - reflexivity.
  - vm_compute. repeat split; discriminate.
  - vm_compute. discriminate.
Defined.

(* ------------------------------------------------------------------ *)
(** * Further properties of traffic_controller.py *)

Section Queues.
Context {Strategy : Type} `{Simulation.StrategyAPI Strategy}.
Import Simulation.

Implicit Types (self : t Strategy) (i : TickInput) (h : list Entry)
  (vc : Counts).

(** ** Draining the queues *)

(** X16.  One call of [process_vehicles] on queues that are not negative:
    each direction of the running phase pair loses [flow_rate] vehicles
    (3 on green, 1 on yellow) or all it has when it has fewer, the other
    two queues are untouched, the processed counter grows by exactly what
    left the queues (at most two flow rates), and the wait total grows by
    the vehicles left standing on the other pair. *)
Theorem process_vehicles_drains self :
  non_negative (vehicle_counts self) ->
  let self' := process_vehicles self in
  let rate := flow_rate (phase_state self) in
  (forall d, In d (active_directions (current_phase self)) ->
     get (vehicle_counts self') d
     = Z.max 0 (get (vehicle_counts self) d - rate))
  /\ (forall d, In d (active_directions (other (current_phase self))) ->
        get (vehicle_counts self') d = get (vehicle_counts self) d)
  /\ processed_vehicles self <= processed_vehicles self'
     <= processed_vehicles self + 2 * rate
  /\ processed_vehicles self' + total (vehicle_counts self')
     = processed_vehicles self + total (vehicle_counts self)
  /\ total_wait_time self'
     = total_wait_time self
       + queued (vehicle_counts self) (other (current_phase self)).
Proof.
  intros Hn self' rate. subst self' rate.
  pose proof (Hn north_inbound) as N1. pose proof (Hn south_inbound) as N2.
  pose proof (Hn east_inbound) as N3. pose proof (Hn west_inbound) as N4.
  cbn [get] in N1, N2, N3, N4.
  unfold process_vehicles, flow_rate, queued, total.
  destruct (current_phase self), (phase_state self);
    cbn [active_directions fold_left drain get set other
         vehicle_counts processed_vehicles total_wait_time
         north south east west];
    (split; [intros d [<-|[<-|[]]];
               cbn [get set north south east west]; lia|]);
    (split; [intros d [<-|[<-|[]]];
               cbn [get set north south east west]; reflexivity|]);
    repeat split; lia.
Qed.

(** The processed counter never grows by more than six per call, whatever
    the queues hold. *)
Lemma process_vehicles_at_most_six self :
  processed_vehicles (process_vehicles self) <= processed_vehicles self + 6
  /\ total_wait_time (process_vehicles self)
     = total_wait_time self
       + queued (vehicle_counts (process_vehicles self))
           (other (current_phase self))
  /\ (non_negative (vehicle_counts self) ->
      processed_vehicles self <= processed_vehicles (process_vehicles self)).
Proof.
  unfold process_vehicles, queued.
  destruct (current_phase self), (phase_state self);
    cbn [active_directions fold_left drain get set other
         vehicle_counts processed_vehicles total_wait_time
         north south east west];
    (split; [lia|split; [lia|]]); intros Hn;
    pose proof (Hn north_inbound); pose proof (Hn south_inbound);
    pose proof (Hn east_inbound); pose proof (Hn west_inbound);
    cbn [get] in *; lia.
Qed.

(** ** What one tick does to the clock and the counters *)

Lemma tick_time i self : time_elapsed (tick i self) = time_elapsed self + 1.
Proof.
  unfold tick. cbn [increment_time time_elapsed].
  destruct (check_clearance_fields
              (update_phase (process_vehicles
                 (add_random_traffic_event i
                    (update_vehicle_counts i self)))))
    as (_ & _ & _ & -> & _).
  destruct (update_phase_fields
              (process_vehicles
                 (add_random_traffic_event i
                    (update_vehicle_counts i self))))
    as (_ & -> & _).
  destruct (process_vehicles_fields
              (add_random_traffic_event i (update_vehicle_counts i self)))
    as (_ & _ & _ & _ & ->).
  destruct (add_random_traffic_event_fields i
              (update_vehicle_counts i self)) as (_ & _ & _ & -> & _).
  destruct (update_vehicle_counts_fields i self)
    as (_ & _ & _ & _ & -> & _).
  reflexivity.
Qed.

Lemma tick_processed i self :
  processed_vehicles (tick i self) <= processed_vehicles self + 6.
Proof.
  unfold tick. cbn [increment_time processed_vehicles].
  destruct (check_clearance_fields
              (update_phase (process_vehicles
                 (add_random_traffic_event i
                    (update_vehicle_counts i self)))))
    as (_ & _ & _ & _ & ->).
  destruct (update_phase_fields
              (process_vehicles
                 (add_random_traffic_event i
                    (update_vehicle_counts i self))))
    as (_ & _ & -> & _).
  pose proof (proj1 (process_vehicles_at_most_six
                (add_random_traffic_event i
                   (update_vehicle_counts i self)))) as P.
  destruct (add_random_traffic_event_fields i
              (update_vehicle_counts i self)) as (_ & _ & _ & _ & E).
  destruct (update_vehicle_counts_fields i self)
    as (_ & _ & _ & _ & _ & E' & _).
  lia.
Qed.

Lemma simulation_loop_rate (fuel : nat) (duration : Z)
    (inputs : Z -> TickInput) self :
  let self' := simulation_loop fuel duration inputs self in
  processed_vehicles self' - 6 * time_elapsed self'
  <= processed_vehicles self - 6 * time_elapsed self
  /\ time_elapsed self <= time_elapsed self'.
Proof.
  revert self. induction fuel as [|fuel IH]; intros self; simpl.
  - lia.
  - destruct (_ && _); [|lia].
    specialize (IH (tick (inputs (time_elapsed self)) self)).
    cbv zeta in IH.
    pose proof (tick_time (inputs (time_elapsed self)) self).
    pose proof (tick_processed (inputs (time_elapsed self)) self).
    lia.
Qed.

(** X17.  Over a run of a freshly constructed controller at most six
    vehicles are processed per tick, whatever the inputs, so the
    throughput [calculate_statistics] reports never exceeds 360
    vehicles per minute. *)
Theorem throughput_at_most_360
    (name : string) (viz re : bool) (duration : Z)
    (inputs : Z -> TickInput) self :
  init name viz re = Py.Ok self ->
  let self' := run_simulation duration inputs self in
  processed_vehicles self' <= 6 * time_elapsed self'
  /\ exists avg_wait_time throughput,
       calculate_statistics self' = Py.Ok (avg_wait_time, throughput)
       /\ (throughput <= 360)%Q.
Proof.
  intros I. destruct (init_fields _ _ _ _ I) as (_ & _ & _ & Hp & Ht).
  intros self'.
  pose proof (simulation_loop_rate
                (Z.to_nat (duration - time_elapsed self)) duration inputs
                self) as [R T].
  fold (run_simulation duration inputs self) in R, T. fold self' in R, T.
  rewrite Hp, Ht in R. rewrite Ht in T.
  split; [lia|].
  unfold calculate_statistics, Py.truediv.
  assert (M : (Z.max 1 (time_elapsed self') =? 0) = false)
    by (apply Z.eqb_neq; lia).
  rewrite M.
  destruct (processed_vehicles self' =? 0) eqn:P0; cbn [Py.bind].
  - eexists _, _. split; [reflexivity|].
    apply Z.eqb_eq in P0. rewrite P0. unfold Qdiv.
    assert (E : (inject_Z 0 * / inject_Z (Z.max 1 (time_elapsed self'))
                 * 60 == 0)%Q) by (change (inject_Z 0) with 0%Q; ring).
    rewrite E. lra.
  - assert (M' : (Z.max 1 (processed_vehicles self') =? 0) = false)
      by (apply Z.eqb_neq; lia).
    rewrite M'. cbn [Py.bind].
    eexists _, _. split; [reflexivity|].
    assert (Hm : (0 < inject_Z (Z.max 1 (time_elapsed self')))%Q)
      by (apply (inject_Z_lt 0); lia).
    assert (Hle : (inject_Z (processed_vehicles self')
                   <= 6 * inject_Z (Z.max 1 (time_elapsed self')))%Q).
    { change 6%Q with (inject_Z 6). rewrite <- inject_Z_mult.
      apply inject_Z_le. lia. }
    assert (Hd : (inject_Z (processed_vehicles self')
                  / inject_Z (Z.max 1 (time_elapsed self')) <= 6)%Q)
      by (apply Qle_shift_div_r; assumption).
    lra.
Qed.

End Queues.

Lemma process_vehicles_drains_witness :
  let self' := Simulation.process_vehicles queued_state in
  let rate := flow_rate (Simulation.phase_state queued_state) in
  (forall d,
     In d (Simulation.active_directions
             (Simulation.current_phase queued_state)) ->
     Simulation.get (Simulation.vehicle_counts self') d
     = Z.max 0 (Simulation.get (Simulation.vehicle_counts queued_state) d
                - rate))
  /\ (forall d,
        In d (Simulation.active_directions
                (other (Simulation.current_phase queued_state))) ->
        Simulation.get (Simulation.vehicle_counts self') d
        = Simulation.get (Simulation.vehicle_counts queued_state) d)
  /\ Simulation.processed_vehicles queued_state
     <= Simulation.processed_vehicles self'
     <= Simulation.processed_vehicles queued_state + 2 * rate
  /\ Simulation.processed_vehicles self'
     + Simulation.total (Simulation.vehicle_counts self')
     = Simulation.processed_vehicles queued_state
       + Simulation.total (Simulation.vehicle_counts queued_state)
  /\ Simulation.total_wait_time self'
     = Simulation.total_wait_time queued_state
       + queued (Simulation.vehicle_counts queued_state)
           (other (Simulation.current_phase queued_state)).
Proof.
  apply (process_vehicles_drains queued_state).
  intros []; simpl; lia.
Defined.

Lemma throughput_at_most_360_witness :
  let self' := Simulation.run_simulation 90 steady fresh in
  Simulation.processed_vehicles self' <= 6 * Simulation.time_elapsed self'
  /\ exists avg_wait_time throughput,
       Simulation.calculate_statistics self'
       = Py.Ok (avg_wait_time, throughput)
       /\ (throughput <= 360)%Q.
Proof.
  exact (throughput_at_most_360 "fixed" false true 90 steady fresh
           fresh_is_init).
Defined.

(* ------------------------------------------------------------------ *)
(** ** Counters over a run *)

Section Counters.
Context {Strategy : Type} `{Simulation.StrategyAPI Strategy}.
Import Simulation.

Implicit Types (self : t Strategy) (i : TickInput) (h : list Entry)
  (vc : Counts).

Lemma wait_untouched i self :
  total_wait_time (update_vehicle_counts i self) = total_wait_time self
  /\ total_wait_time (add_random_traffic_event i self) = total_wait_time self
  /\ total_wait_time (update_phase self) = total_wait_time self
  /\ total_wait_time (check_clearance self) = total_wait_time self.
Proof.
  split; [|split; [|split]].
  - unfold update_vehicle_counts. destruct (String.eqb _ _); reflexivity.
  - unfold add_random_traffic_event.
    destruct (negb _); [reflexivity|].
    destruct (drawn i) as [[d n|d|d]|]; reflexivity.
  - unfold update_phase. destruct (_ <=? _); [|reflexivity].
    destruct (phase_state self); [reflexivity|].
    destruct (get_phase_duration _ _ _). reflexivity.
  - unfold check_clearance. destruct (clear_accidents _ _ _). reflexivity.
Qed.

Lemma tick_monotone i self :
  well_formed i ->
  non_negative (vehicle_counts self) ->
  pending_non_negative (phase_history self) ->
  processed_vehicles self <= processed_vehicles (tick i self)
  /\ total_wait_time self <= total_wait_time (tick i self).
Proof.
  intros W N P. unfold tick.
  set (s1 := update_vehicle_counts i self).
  set (s2 := add_random_traffic_event i s1).
  set (s3 := process_vehicles s2).
  set (s4 := update_phase s3).
  set (s5 := check_clearance s4).
  destruct (update_vehicle_counts_fields i self)
    as (H1h & _ & _ & _ & _ & H1p & H1c). fold s1 in H1h, H1p, H1c.
  assert (N1 : non_negative (vehicle_counts s1)).
  { rewrite H1c. apply non_negative_add_counts; [exact N | exact (proj1 W)]. }
  assert (P1 : pending_non_negative (phase_history s1))
    by (rewrite H1h; exact P).
  destruct (add_random_traffic_event_bound i s1 W N1 P1) as (N2 & _).
  destruct (add_random_traffic_event_fields i s1) as (_ & _ & _ & _ & H2p).
  fold s2 in N2, H2p.
  destruct (process_vehicles_at_most_six s2) as (_ & H3w & H3p).
  specialize (H3p N2).
  pose proof (proj2 (process_vehicles_conserves s2) N2) as N3.
  destruct (process_vehicles_fields s2) as (_ & H3c & _).
  fold s3 in H3p, H3w, N3, H3c.
  destruct (update_phase_fields s3) as (_ & _ & H4p & _). fold s4 in H4p.
  destruct (check_clearance_fields s4) as (_ & _ & _ & _ & H5p).
  fold s5 in H5p.
  destruct (wait_untouched i self) as (W1 & _). fold s1 in W1.
  destruct (wait_untouched i s1) as (_ & W2 & _). fold s2 in W2.
  destruct (wait_untouched i s3) as (_ & _ & W4 & _). fold s4 in W4.
  destruct (wait_untouched i s4) as (_ & _ & _ & W5). fold s5 in W5.
  cbn [increment_time processed_vehicles total_wait_time].
  assert (Q : 0 <= queued (vehicle_counts s3) (other (current_phase s2))).
  { pose proof (N3 north_inbound). pose proof (N3 south_inbound).
    pose proof (N3 east_inbound). pose proof (N3 west_inbound).
    unfold queued. destruct (other _); cbn [get] in *; lia. }
  lia.
Qed.

Lemma simulation_loop_monotone (fuel : nat) (duration : Z)
    (inputs : Z -> TickInput) self :
  Forall well_formed (consumed fuel duration inputs self) ->
  non_negative (vehicle_counts self) ->
  pending_non_negative (phase_history self) ->
  let self' := simulation_loop fuel duration inputs self in
  non_negative (vehicle_counts self')
  /\ processed_vehicles self <= processed_vehicles self'
  /\ total_wait_time self <= total_wait_time self'.
Proof.
  revert self. induction fuel as [|fuel IH]; intros self; simpl.
  - intros _ N _. repeat split; [exact N|lia|lia].
  - destruct (_ && _).
    + intros W N P. inversion W as [|? ? W0 W']. subst.
      destruct (tick_bound _ self W0 N P) as (N1 & P1 & _).
      destruct (tick_monotone _ self W0 N P) as (M1 & M2).
      destruct (IH _ W' N1 P1) as (N' & M1' & M2').
      repeat split; [exact N'|lia|lia].
    + intros _ N _. repeat split; [exact N|lia|lia].
Qed.

(** X18.  Over a run of a freshly constructed controller on inputs as the
    generator and the random draws produce them (snapshot counts that are
    not negative, surges of 10 to 30), no queue is ever negative, and the
    processed counter and the wait total are not negative either. *)
Theorem queues_never_negative
    (name : string) (viz re : bool) (duration : Z)
    (inputs : Z -> TickInput) self :
  init name viz re = Py.Ok self ->
  Forall well_formed (run_inputs duration inputs self) ->
  let self' := run_simulation duration inputs self in
  non_negative (vehicle_counts self')
  /\ 0 <= processed_vehicles self'
  /\ 0 <= total_wait_time self'.
Proof.
  intros I W.
  assert (Hw : total_wait_time self = 0).
  { revert I. unfold init.
    destruct (_create_strategy false name) as [r|e]; simpl; [|discriminate].
    intros [= <-]. reflexivity. }
  destruct (init_fields _ _ _ _ I) as (_ & Hh & Hc & Hp & _).
  unfold run_simulation, run_inputs in *.
  destruct (simulation_loop_monotone _ _ _ _ W) as (N & M1 & M2).
  - rewrite Hc. intros []; simpl; lia.
  - rewrite Hh. constructor.
  - cbv zeta. repeat split; [exact N|lia|lia].
Qed.

(** ** When the loop ends *)

Lemma simulation_loop_ends_at (T : Z) (fuel : nat) (duration : Z)
    (inputs : Z -> TickInput) self :
  time_elapsed self <= T <= duration ->
  (forall time, time_elapsed self <= time < T ->
     stop_set (inputs time) = false) ->
  T = duration \/ stop_set (inputs T) = true ->
  T - time_elapsed self <= Z.of_nat fuel ->
  time_elapsed (simulation_loop fuel duration inputs self) = T.
Proof.
  revert self. induction fuel as [|fuel IH]; intros self HT Hs He Hf; simpl.
  - lia.
  - destruct (time_elapsed self <? duration) eqn:G.
    + apply Z.ltb_lt in G.
      destruct (stop_set (inputs (time_elapsed self))) eqn:S; cbn [negb andb].
      * destruct (Z.eq_dec (time_elapsed self) T) as [E|N]; [exact E|].
        rewrite Hs in S by lia. discriminate.
      * assert (N : time_elapsed self <> T).
        { intros E. rewrite E in S, G. destruct He as [E'|E']; [lia|].
          congruence. }
        apply IH; rewrite ?tick_time.
        -- lia.
        -- intros time Ht. apply Hs. lia.
        -- exact He.
        -- lia.
    + apply Z.ltb_ge in G. cbn [andb]. lia.
Qed.

(** X19.  [run_simulation] ends at the first tick at which it finds the
    stop flag set, and at [duration] when it never does: if no tick from
    the current time up to [T] finds the flag set, and [T] is the
    requested duration or the flag is found set at [T], the run returns
    with [time_elapsed = T].  A run asked for a duration that has already
    passed, or that finds the flag set at once, changes nothing. *)
Theorem run_simulation_ends_at (T duration : Z)
    (inputs : Z -> TickInput) self :
  time_elapsed self <= T <= duration ->
  (forall time, time_elapsed self <= time < T ->
     stop_set (inputs time) = false) ->
  T = duration \/ stop_set (inputs T) = true ->
  time_elapsed (run_simulation duration inputs self) = T
  /\ (T = time_elapsed self -> run_simulation duration inputs self = self).
Proof.
  intros HT Hs He. split.
  - unfold run_simulation. apply simulation_loop_ends_at; try assumption.
    lia.
  - intros E. unfold run_simulation.
    destruct (Z.to_nat (duration - time_elapsed self)) as [|fuel];
      [reflexivity|].
    simpl. destruct (time_elapsed self <? duration) eqn:G; [|reflexivity].
    apply Z.ltb_lt in G. destruct He as [E'|E']; [lia|].
    rewrite <- E, E'. reflexivity.
Qed.

End Counters.

Lemma queues_never_negative_witness :
  let self' := Simulation.run_simulation 45 one_accident fresh in
  non_negative (Simulation.vehicle_counts self')
  /\ 0 <= Simulation.processed_vehicles self'
  /\ 0 <= Simulation.total_wait_time self'.
Proof.
  apply (queues_never_negative "fixed" false true 45 one_accident fresh
           fresh_is_init).
  apply consumed_all. intros time. split.
  - intros []; simpl; lia.
  - unfold one_accident. cbn [Simulation.drawn].
    destruct (time =? 0); exact I.
Defined.

Lemma run_simulation_ends_at_witness :
  Simulation.time_elapsed (Simulation.run_simulation 100 stopped_at_40 fresh)
  = 40
  /\ (40 = Simulation.time_elapsed fresh ->
      Simulation.run_simulation 100 stopped_at_40 fresh = fresh).
Proof.
  apply (run_simulation_ends_at 40 100 stopped_at_40 fresh).
  - simpl. lia.
  - intros time Ht. simpl in Ht. unfold stopped_at_40.
    cbn [Simulation.stop_set]. apply Z.eqb_neq. lia.
  - right. reflexivity.
Defined.

(* ------------------------------------------------------------------ *)
(** ** The history of a run *)

Lemma entry_time_evolved (h h' : list Simulation.Entry) :
  Forall2 evolves h h' -> map entry_time h' = map entry_time h.
Proof.
  induction 1 as [|e e' h h' He _ IH]; [reflexivity|].
  cbn [map]. rewrite IH. destruct He; reflexivity.
Qed.

Lemma phase_records_evolved (h h' : list Simulation.Entry) :
  Forall2 evolves h h' -> phase_records h' = phase_records h.
Proof.
  induction 1 as [|e e' h h' He _ IH]; [reflexivity|].
  unfold phase_records in *. cbn [flat_map]. rewrite IH.
  destruct He; reflexivity.
Qed.

Lemma phase_records_app (h h' : list Simulation.Entry) :
  phase_records (h ++ h') = phase_records h ++ phase_records h'.
Proof. unfold phase_records. apply flat_map_app. Qed.

Lemma Forall_entry_times (P : Z -> Prop) (h : list Simulation.Entry) :
  Forall (fun e => P (entry_time e)) h <-> Forall P (map entry_time h).
Proof.
  induction h as [|e h IH]; cbn [map].
  - split; constructor.
  - split; intros F; inversion F; subst; constructor; tauto.
Qed.

Section Histories.
Context {Strategy : Type} `{Simulation.StrategyAPI Strategy}.
Import Simulation.

Implicit Types (self : t Strategy) (i : TickInput) (h : list Entry)
  (vc : Counts).

(** What each step of a tick appends to the history. *)
Lemma add_random_traffic_event_appends i self :
  exists extra,
    phase_history (add_random_traffic_event i self)
    = phase_history self ++ extra
    /\ phase_records extra = []
    /\ Forall (fun e => entry_time e = time_elapsed self) extra
    /\ (length extra <= 1)%nat.
Proof.
  unfold add_random_traffic_event.
  destruct (negb _);
    [exists []; rewrite app_nil_r; repeat split; cbn; first [lia | constructor]|].
  destruct (drawn i) as [[d n|d|d]|];
    try (exists []; cbn [with_counts phase_history]; rewrite app_nil_r;
         repeat split; cbn; first [lia | constructor]).
  eexists [_]. cbn [with_history with_counts phase_history time_elapsed].
  split; [reflexivity|]. split; [reflexivity|].
  split; [constructor; [reflexivity|constructor]|cbn; lia].
Qed.

Lemma update_phase_appends self :
  exists extra,
    phase_history (update_phase self) = phase_history self ++ extra
    /\ Forall (fun e => entry_time e = time_elapsed self) extra
    /\ (extra = []
        /\ phase_state (update_phase self) = phase_state self
        /\ current_phase (update_phase self) = current_phase self
        /\ phase_start_time (update_phase self) = phase_start_time self
        /\ phase_duration (update_phase self) = phase_duration self
        /\ time_elapsed self - phase_start_time self < phase_duration self
        \/ extra = [PhaseEntry (time_elapsed self) (current_phase self)
                      (phase_state self) (phase_duration self)
                      (vehicle_counts self)]
           /\ phase_duration self
              <= time_elapsed self - phase_start_time self
           /\ (phase_state (update_phase self) = Yellow ->
               phase_duration (update_phase self) = 5)).
Proof.
  unfold update_phase.
  destruct (phase_duration self <=? time_elapsed self - phase_start_time self)
    eqn:D.
  - apply Z.leb_le in D.
    exists [PhaseEntry (time_elapsed self) (current_phase self)
              (phase_state self) (phase_duration self)
              (vehicle_counts self)].
    split; [|split; [|right]].
    + destruct (phase_state self); [reflexivity|].
      destruct (get_phase_duration _ _ _). reflexivity.
    + constructor; [reflexivity|constructor].
    + split; [reflexivity|]. split; [exact D|].
      destruct (phase_state self); [reflexivity|].
      destruct (get_phase_duration _ _ _). discriminate.
  - apply Z.leb_gt in D. exists []. rewrite app_nil_r.
    split; [reflexivity|]. split; [constructor|]. left.
    repeat split. exact D.
Qed.

Lemma schedule_untouched i self :
  (phase_start_time (update_vehicle_counts i self) = phase_start_time self
   /\ phase_duration (update_vehicle_counts i self) = phase_duration self)
  /\ (phase_start_time (add_random_traffic_event i self)
      = phase_start_time self
      /\ phase_duration (add_random_traffic_event i self)
         = phase_duration self)
  /\ (phase_start_time (process_vehicles self) = phase_start_time self
      /\ phase_duration (process_vehicles self) = phase_duration self)
  /\ (phase_start_time (check_clearance self) = phase_start_time self
      /\ phase_duration (check_clearance self) = phase_duration self).
Proof.
  split; [|split; [|split]].
  - unfold update_vehicle_counts. destruct (String.eqb _ _); split;
      reflexivity.
  - unfold add_random_traffic_event.
    destruct (negb _); [split; reflexivity|].
    destruct (drawn i) as [[d n|d|d]|]; split; reflexivity.
  - unfold process_vehicles. destruct (fold_left _ _ _). split; reflexivity.
  - unfold check_clearance. destruct (clear_accidents _ _ _).
    split; reflexivity.
Qed.

Lemma check_clearance_evolves self :
  Forall2 evolves (phase_history self) (phase_history (check_clearance self)).
Proof.
  unfold check_clearance.
  pose proof (clear_accidents_evolves (time_elapsed self)
                (phase_history self) (vehicle_counts self)) as E.
  destruct (clear_accidents _ _ _) as [h vc]. exact E.
Qed.

(** *** Time order *)

Lemma appended_in_time_order (times extra : list Z) (now : Z) :
  chronological times -> Forall (fun t => t <= now) times ->
  Forall (fun t => t = now) extra ->
  (length extra <= 1)%nat ->
  chronological (times ++ extra) /\ Forall (fun t => t <= now) (times ++ extra).
Proof.
  intros C F E L. destruct extra as [|t [|t' extra]];
    [| |cbn in L; lia].
  - rewrite app_nil_r. split; assumption.
  - inversion E; subst. split.
    + apply chronological_snoc; assumption.
    + apply Forall_app. split; [exact F|]. constructor; [lia|constructor].
Qed.

Lemma tick_in_time_order i self :
  in_time_order self -> in_time_order (tick i self).
Proof.
  intros [C F]. unfold tick.
  set (s1 := update_vehicle_counts i self).
  set (s2 := add_random_traffic_event i s1).
  set (s3 := process_vehicles s2).
  set (s4 := update_phase s3).
  set (s5 := check_clearance s4).
  set (now := time_elapsed self).
  destruct (update_vehicle_counts_fields i self)
    as (H1h & _ & _ & _ & H1t & _). fold s1 in H1h, H1t.
  destruct (add_random_traffic_event_appends i s1)
    as (x2 & H2h & R2 & T2 & L2'). fold s2 in H2h. rewrite H1t in T2.
  destruct (add_random_traffic_event_fields i s1) as (_ & _ & _ & H2t & _).
  fold s2 in H2t.
  destruct (process_vehicles_fields s2) as (H3h & _ & _ & _ & H3t).
  fold s3 in H3h, H3t.
  destruct (update_phase_appends s3) as (x4 & H4h & T4 & X4).
  fold s4 in H4h.
  destruct (update_phase_fields s3) as (_ & H4t & _). fold s4 in H4t.
  pose proof (check_clearance_evolves s4) as H5. fold s5 in H5.
  destruct (check_clearance_fields s4) as (_ & _ & _ & H5t & _).
  fold s5 in H5t.
  assert (Et : time_elapsed s3 = now) by (subst now; congruence).
  rewrite Et in T4.
  assert (L2 : (length (map entry_time x2) <= 1)%nat).
  { rewrite length_map. exact L2'. }
  assert (L4 : (length (map entry_time x4) <= 1)%nat).
  { destruct X4 as [(-> & _)|(-> & _)]; cbn; lia. }
  assert (F0 : Forall (fun t => t <= now) (map entry_time (phase_history self))).
  { apply Forall_entry_times. eapply Forall_impl; [exact F|].
    cbn beta. intros e He. subst now. lia. }
  destruct (appended_in_time_order _ (map entry_time x2) now C F0)
    as (C2 & F2); [apply Forall_entry_times; exact T2|exact L2|].
  destruct (appended_in_time_order _ (map entry_time x4) now C2 F2)
    as (C4 & F4); [apply Forall_entry_times; exact T4|exact L4|].
  assert (E5 : map entry_time (phase_history s5)
               = (map entry_time (phase_history self) ++ map entry_time x2)
                 ++ map entry_time x4).
  { rewrite (entry_time_evolved _ _ H5), H4h, H3h, H2h, H1h, !map_app.
    reflexivity. }
  unfold in_time_order. cbn [increment_time phase_history time_elapsed].
  rewrite H5t, H4t, Et. split.
  - rewrite E5. exact C4.
  - apply (Forall_entry_times (fun t => t < now + 1)). rewrite E5.
    eapply Forall_impl; [exact F4|]. cbn beta. intros t Ht. lia.
Qed.

Lemma simulation_loop_in_time_order (fuel : nat) (duration : Z)
    (inputs : Z -> TickInput) self :
  in_time_order self ->
  in_time_order (simulation_loop fuel duration inputs self).
Proof.
  revert self. induction fuel as [|fuel IH]; intros self I; simpl.
  - exact I.
  - destruct (_ && _); [|exact I].
    apply IH. apply tick_in_time_order. exact I.
Qed.

(** X20.  The history of a run of a freshly constructed controller is in
    time order: no entry (phase record or accident entry) carries an
    earlier time than the entry before it, and every entry carries a time
    before the tick the run has reached. *)
Theorem history_in_time_order
    (name : string) (viz re : bool) (duration : Z)
    (inputs : Z -> TickInput) self :
  init name viz re = Py.Ok self ->
  in_time_order (run_simulation duration inputs self).
Proof.
  intros I. destruct (init_fields _ _ _ _ I) as (_ & Hh & _).
  apply simulation_loop_in_time_order.
  unfold in_time_order. rewrite Hh. split; [exact Logic.I|constructor].
Qed.

(** *** Durations of the recorded phases *)

Lemma tick_yellows_last_five i self :
  yellows_last_five self -> yellows_last_five (tick i self).
Proof.
  intros [F Y]. unfold tick.
  set (s1 := update_vehicle_counts i self).
  set (s2 := add_random_traffic_event i s1).
  set (s3 := process_vehicles s2).
  set (s4 := update_phase s3).
  set (s5 := check_clearance s4).
  destruct (update_vehicle_counts_fields i self)
    as (H1h & _ & H1s & _). fold s1 in H1h, H1s.
  destruct (schedule_untouched i self) as ((_ & D1) & _). fold s1 in D1.
  destruct (add_random_traffic_event_appends i s1) as (x2 & H2h & R2 & _ & _).
  fold s2 in H2h.
  destruct (add_random_traffic_event_fields i s1) as (_ & H2s & _).
  fold s2 in H2s.
  destruct (schedule_untouched i s1) as (_ & (_ & D2) & _). fold s2 in D2.
  destruct (process_vehicles_fields s2) as (H3h & _ & H3s & _).
  fold s3 in H3h, H3s.
  destruct (schedule_untouched i s2) as (_ & _ & (_ & D3) & _).
  fold s3 in D3.
  destruct (update_phase_appends s3) as (x4 & H4h & _ & X4).
  fold s4 in H4h, X4.
  pose proof (check_clearance_evolves s4) as H5. fold s5 in H5.
  destruct (check_clearance_fields s4) as (_ & H5s & _). fold s5 in H5s.
  destruct (schedule_untouched i s4) as (_ & _ & _ & (_ & D5)).
  fold s5 in D5.
  assert (Y3 : phase_state s3 = Yellow -> phase_duration s3 = 5).
  { rewrite H3s, H2s, H1s, D3, D2, D1. exact Y. }
  assert (R3 : phase_records (phase_history s3)
               = phase_records (phase_history self)).
  { rewrite H3h, H2h, H1h, phase_records_app, R2, app_nil_r. reflexivity. }
  unfold yellows_last_five.
  cbn [increment_time phase_history phase_state phase_duration].
  rewrite (phase_records_evolved _ _ H5), H5s, D5, H4h, phase_records_app, R3.
  destruct X4 as [(-> & S4 & _ & _ & D4 & _)|(-> & _ & Y4)].
  - rewrite app_nil_r, S4, D4. split; assumption.
  - split; [|exact Y4]. apply Forall_app. split; [exact F|].
    cbn. constructor; [|constructor]. unfold yellow_five.
    destruct (phase_state s3) eqn:S3; [exact Logic.I|]. apply Y3.
    reflexivity.
Qed.

Lemma tick_opening i self : opening 30 self -> opening 30 (tick i self).
Proof.
  intros O. unfold tick.
  set (s1 := update_vehicle_counts i self).
  set (s2 := add_random_traffic_event i s1).
  set (s3 := process_vehicles s2).
  set (s4 := update_phase s3).
  set (s5 := check_clearance s4).
  destruct (update_vehicle_counts_fields i self)
    as (H1h & H1p & H1s & _ & H1t & _). fold s1 in H1h, H1p, H1s, H1t.
  destruct (schedule_untouched i self) as ((B1 & D1) & _).
  fold s1 in B1, D1.
  destruct (add_random_traffic_event_appends i s1) as (x2 & H2h & R2 & _ & _).
  fold s2 in H2h.
  destruct (add_random_traffic_event_fields i s1)
    as (H2p & H2s & _ & H2t & _). fold s2 in H2p, H2s, H2t.
  destruct (schedule_untouched i s1) as (_ & (B2 & D2) & _).
  fold s2 in B2, D2.
  destruct (process_vehicles_fields s2) as (H3h & H3p & H3s & _ & H3t).
  fold s3 in H3h, H3p, H3s, H3t.
  destruct (schedule_untouched i s2) as (_ & _ & (B3 & D3) & _).
  fold s3 in B3, D3.
  destruct (update_phase_appends s3) as (x4 & H4h & _ & X4).
  fold s4 in H4h, X4.
  destruct (update_phase_fields s3) as (_ & H4t & _). fold s4 in H4t.
  pose proof (check_clearance_evolves s4) as H5. fold s5 in H5.
  destruct (check_clearance_fields s4) as (H5p & H5s & _ & H5t & _).
  fold s5 in H5p, H5s, H5t.
  destruct (schedule_untouched i s4) as (_ & _ & _ & (B5 & D5)).
  fold s5 in B5, D5.
  assert (R3 : phase_records (phase_history s3)
               = phase_records (phase_history self)).
  { rewrite H3h, H2h, H1h, phase_records_app, R2, app_nil_r. reflexivity. }
  assert (R5 : phase_records (phase_history s5)
               = phase_records (phase_history self) ++ phase_records x4).
  { rewrite (phase_records_evolved _ _ H5), H4h, phase_records_app, R3.
    reflexivity. }
  unfold opening.
  cbn [increment_time phase_history phase_state current_phase
       phase_start_time phase_duration time_elapsed].
  rewrite R5.
  destruct O as [(R0 & S0 & P0 & B0 & D0 & T0)|(rest & R0)].
  - assert (S3 : phase_state s3 = Green) by congruence.
    assert (P3 : current_phase s3 = North_South) by congruence.
    assert (B3' : phase_start_time s3 = 0) by congruence.
    assert (D3' : phase_duration s3 = 30) by congruence.
    assert (T3 : time_elapsed s3 = time_elapsed self) by congruence.
    destruct X4 as [(-> & S4 & P4 & B4 & D4 & L4)|(-> & L4 & _)].
    + left. rewrite R0, H5s, H5p, B5, D5, H5t, S4, P4, B4, D4, H4t.
      repeat split; try assumption. rewrite T3. lia.
    + right. exists []. rewrite R0, S3, P3, D3'. cbn.
      replace (time_elapsed s3) with 30 by lia. reflexivity.
  - right. rewrite R0. eexists. reflexivity.
Qed.

Lemma simulation_loop_durations (fuel : nat) (duration : Z)
    (inputs : Z -> TickInput) self :
  yellows_last_five self -> opening 30 self ->
  let self' := simulation_loop fuel duration inputs self in
  yellows_last_five self' /\ opening 30 self'.
Proof.
  revert self. induction fuel as [|fuel IH]; intros self Y O; simpl.
  - split; assumption.
  - destruct (_ && _); [|split; assumption].
    apply IH; [apply tick_yellows_last_five|apply tick_opening]; assumption.
Qed.

(** X21.  In the history of a run of a freshly constructed controller
    every yellow record has duration 5, and the first phase record, once
    there is one, is the north-south green closed at second 30 with
    duration 30: the opening green always lasts the constructor's default
    and is never asked of the strategy, whichever strategy was named. *)
Theorem recorded_durations
    (name : string) (viz re : bool) (duration : Z)
    (inputs : Z -> TickInput) self :
  init name viz re = Py.Ok self ->
  let records :=
    phase_records (phase_history (run_simulation duration inputs self)) in
  Forall yellow_five records
  /\ (records = []
      \/ exists rest, records = (30, North_South, Green, 30) :: rest).
Proof.
  intros I records. subst records.
  destruct (init_fields _ _ _ _ I) as (_ & Hh & _ & _ & Ht).
  assert (F : phase_state self = Green /\ current_phase self = North_South
              /\ phase_start_time self = 0 /\ phase_duration self = 30).
  { revert I. unfold init.
    destruct (_create_strategy false name) as [r|e]; simpl; [|discriminate].
    intros [= <-]. repeat split. }
  destruct F as (S0 & P0 & B0 & D0).
  destruct (simulation_loop_durations
              (Z.to_nat (duration - time_elapsed self)) duration inputs self)
    as ((Y & _) & O).
  - split; [rewrite Hh; constructor|]. rewrite S0. discriminate.
  - left. rewrite Hh. repeat split; try assumption. lia.
  - fold (run_simulation duration inputs self) in Y, O.
    split; [exact Y|].
    destruct O as [(R & _)|(rest & R)]; [left|right; exists rest]; exact R.
Qed.

End Histories.

Lemma history_in_time_order_witness :
  in_time_order (Simulation.run_simulation 70 one_accident fresh).
Proof.
  exact (history_in_time_order "fixed" false true 70 one_accident fresh
           fresh_is_init).
Defined.

Lemma recorded_durations_witness :
  let records :=
    phase_records
      (Simulation.phase_history (Simulation.run_simulation 70 steady fresh)) in
  Forall yellow_five records
  /\ (records = []
      \/ exists rest, records = (30, North_South, Green, 30) :: rest).
Proof.
  exact (recorded_durations "fixed" false true 70 steady fresh
           fresh_is_init).
Defined.

(* ------------------------------------------------------------------ *)
(** ** Incidents and their clearance *)

Section Clearance.
Context {Strategy : Type} `{Simulation.StrategyAPI Strategy}.
Import Simulation.

Implicit Types (self : t Strategy) (i : TickInput) (h : list Entry)
  (vc : Counts).

Lemma clear_accidents_not_due (now : Z) h vc :
  existsb (is_due now) h = false -> clear_accidents now h vc = (h, vc).
Proof.
  revert vc. induction h as [|e h IH]; intros vc; [reflexivity|].
  cbn [existsb]. intros E. apply orb_false_iff in E as [E1 E2].
  cbn [clear_accidents]. destruct e as [t p st dur c|t ev d r].
  - rewrite (IH vc E2). reflexivity.
  - cbn [is_due] in E1. rewrite E1, (IH vc E2). reflexivity.
Qed.

Lemma clear_accidents_leaves_none_due (now : Z) h vc :
  existsb (is_due now) (fst (clear_accidents now h vc)) = false.
Proof.
  revert vc. induction h as [|e h IH]; intros vc; [reflexivity|].
  cbn [clear_accidents]. destruct e as [t p st dur c|t ev d r].
  - specialize (IH vc). destruct (clear_accidents now h vc) as [h' vc'].
    cbn [fst existsb is_due] in *. exact IH.
  - destruct (String.eqb ev "accident_clear" && (t + 20 <=? now)) eqn:E.
    + specialize (IH (set vc d r)).
      destruct (clear_accidents now h (set vc d r)) as [h' vc'].
      cbn [fst existsb is_due] in *. rewrite IH. reflexivity.
    + specialize (IH vc). destruct (clear_accidents now h vc) as [h' vc'].
      cbn [fst existsb is_due] in *. rewrite E, IH. reflexivity.
Qed.

(** X22.  The clearance loop of [run_simulation] processes an accident
    entry once: after a pass at time [now] no entry of the history is
    still waiting with its 20 ticks over, so a second pass at the same
    time rewrites no entry and restores no queue, whatever the queues
    hold by then. *)
Theorem accidents_cleared_once (now : Z) h vc (vc' : Counts) :
  let h' := fst (clear_accidents now h vc) in
  existsb (is_due now) h' = false
  /\ clear_accidents now h' vc' = (h', vc').
Proof.
  intros h'. subst h'. split.
  - apply clear_accidents_leaves_none_due.
  - apply clear_accidents_not_due. apply clear_accidents_leaves_none_due.
Qed.

Lemma clear_accidents_app (now : Z) h1 h2 vc :
  clear_accidents now (h1 ++ h2) vc
  = (fst (clear_accidents now h1 vc)
     ++ fst (clear_accidents now h2 (snd (clear_accidents now h1 vc))),
     snd (clear_accidents now h2 (snd (clear_accidents now h1 vc)))).
Proof.
  revert vc. induction h1 as [|e h1 IH]; intros vc.
  - cbn. destruct (clear_accidents now h2 vc). reflexivity.
  - cbn [app clear_accidents].
    destruct (match e with
              | PhaseEntry _ _ _ _ _ => (e, vc)
              | EventEntry time event direction count_restore =>
                  if String.eqb event "accident_clear" && (time + 20 <=? now)
                  then (EventEntry time "accident_cleared" direction
                          count_restore, set vc direction count_restore)
                  else (e, vc)
              end) as [e' vc1].
    rewrite (IH vc1).
    destruct (clear_accidents now h1 vc1) as [a vc2]. cbn [fst snd].
    destruct (clear_accidents now h2 vc2) as [b vc3]. reflexivity.
Qed.

Lemma clear_accidents_other_direction (now : Z) (d : Direction) h vc :
  existsb (is_due_for now d) h = false ->
  get (snd (clear_accidents now h vc)) d = get vc d.
Proof.
  revert vc. induction h as [|e h IH]; intros vc; [reflexivity|].
  cbn [existsb]. intros E. apply orb_false_iff in E as [E1 E2].
  cbn [clear_accidents]. destruct e as [t p st dur c|t ev d' r].
  - specialize (IH vc E2). destruct (clear_accidents now h vc).
    exact IH.
  - cbn [is_due_for] in E1.
    destruct (String.eqb ev "accident_clear" && (t + 20 <=? now)) eqn:D.
    + specialize (IH (set vc d' r) E2).
      destruct (clear_accidents now h (set vc d' r)). cbn [snd] in *.
      rewrite IH. apply get_set_other.
      cbn [andb] in E1. destruct d, d'; (discriminate || congruence).
    + specialize (IH vc E2). destruct (clear_accidents now h vc).
      exact IH.
Qed.

(** X23.  When the clearance loop processes an accident entry (its 20
    ticks are over) and no later entry of the history is due for the same
    direction, the queue of that direction ends up at exactly the count
    saved when the accident struck: the vehicles that queued there in
    between are overwritten, not added to. *)
Theorem accident_clearance_overwrites (now time count_restore : Z)
    (d : Direction) (before after : list Entry) vc :
  time + 20 <= now ->
  existsb (is_due_for now d) after = false ->
  let r := clear_accidents now
             (before ++ EventEntry time "accident_clear" d count_restore
                :: after) vc in
  get (snd r) d = count_restore
  /\ nth_error (fst r) (length before)
     = Some (EventEntry time "accident_cleared" d count_restore).
Proof.
  intros Ht Ha r. subst r. rewrite clear_accidents_app. cbn [fst snd].
  set (vc1 := snd (clear_accidents now before vc)).
  assert (L : length (fst (clear_accidents now before vc)) = length before).
  { symmetry. eapply Forall2_length. apply clear_accidents_evolves. }
  cbn [clear_accidents].
  assert (D : String.eqb "accident_clear" "accident_clear"
              && (time + 20 <=? now) = true).
  { apply andb_true_iff. split; [reflexivity|]. apply Z.leb_le. exact Ht. }
  rewrite D.
  pose proof (clear_accidents_other_direction now d after
                (set vc1 d count_restore) Ha) as K.
  destruct (clear_accidents now after (set vc1 d count_restore))
    as [a vc2]. cbn [fst snd] in *. split.
  - rewrite K. apply get_set_same.
  - rewrite nth_error_app2 by lia. rewrite L, Nat.sub_diag. reflexivity.
Qed.

(** X24.  What a drawn incident does when random events are enabled: a
    surge adds its amount to the queue of its direction and an accident
    empties the queue of its direction and appends one entry that keeps
    the emptied count for the later restore; neither touches another
    queue, the processed counter, or (the surge) the history.  With
    random events disabled no draw has any effect. *)
Theorem surge_and_accident_effects self i (d : Direction) :
  (random_events self = true ->
   forall surge_amount, drawn i = Some (surge d surge_amount) ->
   let self' := add_random_traffic_event i self in
   get (vehicle_counts self') d = get (vehicle_counts self) d + surge_amount
   /\ (forall d', d' <> d ->
         get (vehicle_counts self') d' = get (vehicle_counts self) d')
   /\ phase_history self' = phase_history self
   /\ processed_vehicles self' = processed_vehicles self)
  /\ (random_events self = true ->
      drawn i = Some (accident d) ->
      let self' := add_random_traffic_event i self in
      get (vehicle_counts self') d = 0
      /\ (forall d', d' <> d ->
            get (vehicle_counts self') d' = get (vehicle_counts self) d')
      /\ phase_history self'
         = phase_history self ++
             [EventEntry (time_elapsed self) "accident_clear" d
                (get (vehicle_counts self) d)]
      /\ processed_vehicles self' = processed_vehicles self)
  /\ (random_events self = false -> add_random_traffic_event i self = self).
Proof.
  split; [|split].
  - intros Hr n Hd self'. subst self'. unfold add_random_traffic_event.
    rewrite Hr, Hd. cbn [negb with_counts vehicle_counts phase_history
                         processed_vehicles].
    split; [apply get_set_same|]. split; [|split; reflexivity].
    intros d' Hn. apply get_set_other. exact Hn.
  - intros Hr Hd self'. subst self'. unfold add_random_traffic_event.
    rewrite Hr, Hd. cbn [negb with_counts with_history vehicle_counts
                         phase_history processed_vehicles time_elapsed].
    split; [apply get_set_same|]. split; [|split; reflexivity].
    intros d' Hn. apply get_set_other. exact Hn.
  - intros Hr. unfold add_random_traffic_event. rewrite Hr. reflexivity.
Qed.

End Clearance.

Lemma accident_clearance_overwrites_witness :
  let r :=
    Simulation.clear_accidents 27
      ([Simulation.EventEntry 3 "accident_clear" Simulation.east_inbound 9]
       ++ Simulation.EventEntry 7 "accident_clear" Simulation.north_inbound 4
       :: [Simulation.EventEntry 12 "accident_clear"
             Simulation.north_inbound 6])
      {| north := 15; south := 2; east := 0; west := 1 |} in
  Simulation.get (snd r) Simulation.north_inbound = 4
  /\ nth_error (fst r) 1
     = Some (Simulation.EventEntry 7 "accident_cleared"
               Simulation.north_inbound 4).
Proof.
  apply (accident_clearance_overwrites 27 7 4 Simulation.north_inbound
           [Simulation.EventEntry 3 "accident_clear"
              Simulation.east_inbound 9]
           [Simulation.EventEntry 12 "accident_clear"
              Simulation.north_inbound 6]).
  - lia.
  - reflexivity.
Defined.

Lemma surge_and_accident_effects_witness :
  (let self' := Simulation.add_random_traffic_event surge_west queued_state in
   Simulation.get (Simulation.vehicle_counts self') Simulation.west_inbound
   = 1 + 12
   /\ Simulation.phase_history self' = [])
  /\ (let self' :=
        Simulation.add_random_traffic_event accident_east queued_state in
      Simulation.get (Simulation.vehicle_counts self') Simulation.east_inbound
      = 0
      /\ Simulation.phase_history self'
         = [Simulation.EventEntry 7 "accident_clear" Simulation.east_inbound
              9]).
Proof.
  split.
  - destruct (proj1 (surge_and_accident_effects queued_state surge_west
                       Simulation.west_inbound) eq_refl 12 eq_refl)
      as (A & _ & B & _).
    split; [exact A|exact B].
  - destruct (proj1 (proj2 (surge_and_accident_effects queued_state
                              accident_east Simulation.east_inbound))
                eq_refl eq_refl) as (A & _ & B & _).
    split; [exact A|exact B].
Defined.

(* ------------------------------------------------------------------ *)
(** * Properties of the data generator *)

Section TimeFactors.
Import Generator.

(** ** Time factors *)

Lemma fine_scale (bv : gmap string Z) (key : string) (x : Q)
    (f : gmap string Q) (k : gmap string Q -> outcome (gmap string Q)) :
  In key compass ->
  same_keys f bv ->
  (forall f', same_keys f' bv -> fine bv (k f')) ->
  fine bv (and_then (scale key x f) k).
Proof.
  intros C S K. unfold scale. destruct (f !! key) as [v|] eqn:E.
  - cbn [and_then]. apply K. intros d. rewrite <- (S d).
    destruct (decide (key = d)) as [<-|N].
    + rewrite lookup_insert_eq, E. split; intros _; eexists; reflexivity.
    + rewrite lookup_insert_ne by exact N. reflexivity.
  - cbn [and_then fine]. split; [|exact C].
    destruct (bv !! key) as [b|] eqn:B; [|reflexivity].
    assert (X : is_Some (f !! key)) by (apply S; rewrite B; eexists; reflexivity).
    rewrite E in X. destruct X; discriminate.
Qed.

Lemma fine_return (bv : gmap string Z) (f : gmap string Q) :
  same_keys f bv -> fine bv (Return f).
Proof. intros S. exact S. Qed.

Lemma same_keys_scale_all (bv : gmap string Z) (x : Q) (f : gmap string Q) :
  same_keys f bv -> same_keys (scale_all x f) bv.
Proof.
  intros S d. rewrite <- (S d). unfold scale_all.
  rewrite lookup_fmap. destruct (f !! d); cbn; split; intros [? ?];
    try discriminate; eexists; reflexivity.
Qed.

Lemma same_keys_ones (bv : gmap string Z) :
  same_keys ((fun _ => 1.0%Q) <$> bv) bv.
Proof.
  intros d. rewrite lookup_fmap. destruct (bv !! d); cbn; split;
    intros [? ?]; try discriminate; eexists; reflexivity.
Qed.

Lemma get_time_factors_fine (self : t) (hour weekday : Z) :
  fine (base_volume self) (get_time_factors self hour weekday).
Proof.
  unfold get_time_factors.
  pose proof (same_keys_ones (base_volume self)) as S0.
  set (F := (fun _ => 1.0%Q) <$> base_volume self) in *.
  assert (Second : forall f, same_keys f (base_volume self) ->
    fine (base_volume self)
      (if 5 <=? weekday
       then if (10 <=? hour) && (hour <? 20)
            then and_then (scale "north" 1.3 f)
                   (fun factors => scale "west" 1.2 factors)
            else Return (scale_all 0.7 f)
       else Return f)).
  { intros f S. destruct (5 <=? weekday); [|exact S].
    destruct ((10 <=? hour) && (hour <? 20)).
    - apply fine_scale; [cbn; tauto|exact S|]. intros f1 S1.
      replace (scale "west" 1.2 f1)
        with (and_then (scale "west" 1.2 f1) Return)
        by (destruct (scale "west" 1.2 f1); reflexivity).
      apply fine_scale; [cbn; tauto|exact S1|]. intros f2 S2. exact S2.
    - apply same_keys_scale_all. exact S. }
  assert (Last : forall key x f, In key compass ->
    same_keys f (base_volume self) ->
    fine (base_volume self)
      (and_then (scale key x f)
         (fun factors =>
            if 5 <=? weekday
            then if (10 <=? hour) && (hour <? 20)
                 then and_then (scale "north" 1.3 factors)
                        (fun factors => scale "west" 1.2 factors)
                 else Return (scale_all 0.7 factors)
            else Return factors))).
  { intros key x f C S. apply fine_scale; [exact C|exact S|]. exact Second. }
  destruct ((7 <=? hour) && (hour <? 9)).
  - destruct (negb (5 <=? weekday)); [|apply Second; exact S0].
    unfold and_then at 1.
    destruct (scale "south" 1.8 F) as [f1|e1] eqn:E1.
    + assert (S1 : same_keys f1 (base_volume self)).
      { pose proof (fine_scale _ "south" 1.8 F Return ltac:(cbn; tauto) S0
                      (fun f' S' => S')) as X.
        rewrite E1 in X. exact X. }
      cbn [and_then].
      destruct (scale "east" 1.5 f1) as [f2|e2] eqn:E2.
      * assert (S2 : same_keys f2 (base_volume self)).
        { pose proof (fine_scale _ "east" 1.5 f1 Return ltac:(cbn; tauto) S1
                        (fun f' S' => S')) as X.
          rewrite E2 in X. exact X. }
        cbn [and_then].
        destruct (scale "north" 0.9 f2) as [f3|e3] eqn:E3.
        -- assert (S3 : same_keys f3 (base_volume self)).
           { pose proof (fine_scale _ "north" 0.9 f2 Return ltac:(cbn; tauto) S2
                           (fun f' S' => S')) as X.
             rewrite E3 in X. exact X. }
           cbn [and_then]. apply Last; [cbn; tauto|exact S3].
        -- pose proof (fine_scale _ "north" 0.9 f2 Return ltac:(cbn; tauto) S2
                         (fun f' S' => S')) as X.
           rewrite E3 in X. exact X.
      * pose proof (fine_scale _ "east" 1.5 f1 Return ltac:(cbn; tauto) S1
                      (fun f' S' => S')) as X.
        rewrite E2 in X. exact X.
    + pose proof (fine_scale _ "south" 1.8 F Return ltac:(cbn; tauto) S0
                    (fun f' S' => S')) as X.
      rewrite E1 in X. exact X.
  - destruct ((16 <=? hour) && (hour <? 18)).
    + destruct (negb (5 <=? weekday)); [|apply Second; exact S0].
      unfold and_then at 1.
      destruct (scale "north" 1.8 F) as [f1|e1] eqn:E1.
      * assert (S1 : same_keys f1 (base_volume self)).
        { pose proof (fine_scale _ "north" 1.8 F Return ltac:(cbn; tauto) S0
                        (fun f' S' => S')) as X.
          rewrite E1 in X. exact X. }
        cbn [and_then].
        destruct (scale "west" 1.6 f1) as [f2|e2] eqn:E2.
        -- assert (S2 : same_keys f2 (base_volume self)).
           { pose proof (fine_scale _ "west" 1.6 f1 Return ltac:(cbn; tauto) S1
                           (fun f' S' => S')) as X.
             rewrite E2 in X. exact X. }
           cbn [and_then].
           destruct (scale "south" 0.8 f2) as [f3|e3] eqn:E3.
           ++ assert (S3 : same_keys f3 (base_volume self)).
              { pose proof (fine_scale _ "south" 0.8 f2 Return ltac:(cbn; tauto) S2
                              (fun f' S' => S')) as X.
                rewrite E3 in X. exact X. }
              cbn [and_then]. apply Last; [cbn; tauto|exact S3].
           ++ pose proof (fine_scale _ "south" 0.8 f2 Return ltac:(cbn; tauto) S2
                            (fun f' S' => S')) as X.
              rewrite E3 in X. exact X.
        -- pose proof (fine_scale _ "west" 1.6 f1 Return ltac:(cbn; tauto) S1
                         (fun f' S' => S')) as X.
           rewrite E2 in X. exact X.
      * pose proof (fine_scale _ "north" 1.8 F Return ltac:(cbn; tauto) S0
                      (fun f' S' => S')) as X.
        rewrite E1 in X. exact X.
    + destruct ((22 <=? hour) || (hour <? 5)); cbn [and_then].
      * apply Second. apply same_keys_scale_all. exact S0.
      * apply Second. exact S0.
Qed.

Lemma scale_present (key : string) (x v : Q) (f : gmap string Q) :
  f !! key = Some v -> scale key x f = Return (<[key := (v * x)%Q]> f).
Proof. intros E. unfold scale. rewrite E. reflexivity. Qed.

Lemma moderate_insert (key : string) (v : Q) (f : gmap string Q) :
  (0.2 <= v <= 1.8)%Q -> moderate f -> moderate (<[key := v]> f).
Proof.
  intros Hv M d x Hx. apply lookup_insert_Some in Hx as [[_ <-]|[_ Hx]].
  - exact Hv.
  - exact (M d x Hx).
Qed.

Lemma moderate_scaled (c lo hi : Q) (f : gmap string Q) :
  (forall d x, f !! d = Some x -> (lo <= x <= hi)%Q) ->
  (0 <= c)%Q -> (0.2 <= lo * c)%Q -> (hi * c <= 1.8)%Q ->
  moderate (scale_all c f).
Proof.
  intros M Hc Hlo Hhi d x Hx. unfold scale_all in Hx.
  apply lookup_fmap_Some in Hx as (y & <- & Hy).
  specialize (M d y Hy). nra.
Qed.

Lemma ones_exact (bv : gmap string Z) (d : string) (x : Q) :
  ((fun _ => 1.0%Q) <$> bv) !! d = Some x -> x = 1.0%Q.
Proof.
  intros Hx. apply lookup_fmap_Some in Hx as (y & <- & _). reflexivity.
Qed.

(** X25.  On a generator whose base volume has the four compass
    directions, [get_time_factors] returns for every hour and weekday,
    with one factor for each direction of the base volume and nothing
    else, and every factor lies between 0.2 and 1.8. *)
Theorem time_factors_on_four_directions (self : t) (hour weekday : Z) :
  is_Some (base_volume self !! "north") ->
  is_Some (base_volume self !! "south") ->
  is_Some (base_volume self !! "east") ->
  is_Some (base_volume self !! "west") ->
  exists factors,
    get_time_factors self hour weekday = Return factors
    /\ (forall d, is_Some (factors !! d) <-> is_Some (base_volume self !! d))
    /\ (forall d x, factors !! d = Some x -> (0.2 <= x <= 1.8)%Q).
Proof.
  intros [vn Hn] [vs Hs] [ve He] [vw Hw].
  pose proof (get_time_factors_fine self hour weekday) as Fine.
  assert (M : match get_time_factors self hour weekday with
              | Return f => moderate f
              | Raise _ => False
              end).
  { clear Fine. unfold get_time_factors.
    set (F := (fun _ => 1.0%Q) <$> base_volume self).
    assert (Ln : F !! "north" = Some 1.0%Q)
      by (unfold F; rewrite lookup_fmap, Hn; reflexivity).
    assert (Ls : F !! "south" = Some 1.0%Q)
      by (unfold F; rewrite lookup_fmap, Hs; reflexivity).
    assert (Le : F !! "east" = Some 1.0%Q)
      by (unfold F; rewrite lookup_fmap, He; reflexivity).
    assert (Lw : F !! "west" = Some 1.0%Q)
      by (unfold F; rewrite lookup_fmap, Hw; reflexivity).
    assert (M1 : forall d x, F !! d = Some x -> (1 <= x <= 1)%Q).
    { intros d x Hx. apply ones_exact in Hx. subst x. lra. }
    assert (M0 : moderate F).
    { intros d x Hx. apply M1 in Hx. lra. }
    assert (M3 : forall d x, scale_all 0.3 F !! d = Some x ->
                             (0.3 <= x <= 0.3)%Q).
    { intros d x Hx. unfold scale_all in Hx.
      apply lookup_fmap_Some in Hx as (y & <- & Hy).
      apply M1 in Hy. lra. }
    assert (Ln3 : scale_all 0.3 F !! "north" = Some (1.0 * 0.3)%Q)
      by (unfold scale_all; rewrite lookup_fmap, Ln; reflexivity).
    assert (Lw3 : scale_all 0.3 F !! "west" = Some (1.0 * 0.3)%Q)
      by (unfold scale_all; rewrite lookup_fmap, Lw; reflexivity).
    destruct (5 <=? weekday); cbn [negb].
    - (* weekend *)
      assert (Day : forall f vn' vw',
        f !! "north" = Some vn' -> f !! "west" = Some vw' ->
        (0.2 <= vn' * 1.3 <= 1.8)%Q -> (0.2 <= vw' * 1.2 <= 1.8)%Q ->
        moderate f ->
        match and_then (scale "north" 1.3 f)
                (fun factors => scale "west" 1.2 factors) with
        | Return f' => moderate f'
        | Raise _ => False
        end).
      { intros f vn' vw' En Ew Bn Bw Mf.
        rewrite (scale_present _ _ _ _ En). cbn [and_then].
        rewrite (scale_present "west" 1.2 vw')
          by (rewrite lookup_insert_ne by discriminate; exact Ew).
        apply moderate_insert; [exact Bw|].
        apply moderate_insert; [exact Bn|exact Mf]. }
      assert (M3' : moderate (scale_all 0.3 F)).
      { intros d x Hx. apply M3 in Hx. lra. }
      destruct ((7 <=? hour) && (hour <? 9)); cbn [and_then].
      + destruct ((10 <=? hour) && (hour <? 20)).
        * apply (Day F _ _ Ln Lw); [lra|lra|exact M0].
        * apply (moderate_scaled 0.7 1 1); [exact M1|lra|lra|lra].
      + destruct ((16 <=? hour) && (hour <? 18)); cbn [and_then].
        * destruct ((10 <=? hour) && (hour <? 20)).
          -- apply (Day F _ _ Ln Lw); [lra|lra|exact M0].
          -- apply (moderate_scaled 0.7 1 1); [exact M1|lra|lra|lra].
        * destruct ((22 <=? hour) || (hour <? 5)); cbn [and_then].
          -- destruct ((10 <=? hour) && (hour <? 20)).
             ++ apply (Day _ _ _ Ln3 Lw3); [lra|lra|exact M3'].
             ++ apply (moderate_scaled 0.7 0.3 0.3); [exact M3|lra|lra|lra].
          -- destruct ((10 <=? hour) && (hour <? 20)).
             ++ apply (Day F _ _ Ln Lw); [lra|lra|exact M0].
             ++ apply (moderate_scaled 0.7 1 1); [exact M1|lra|lra|lra].
    - (* weekday *)
      destruct ((7 <=? hour) && (hour <? 9)).
      + rewrite (scale_present _ _ _ _ Ls). cbn [and_then].
        rewrite (scale_present "east" 1.5 1.0)
          by (rewrite lookup_insert_ne by discriminate; exact Le).
        cbn [and_then].
        rewrite (scale_present "north" 0.9 1.0)
          by (rewrite !lookup_insert_ne by discriminate; exact Ln).
        cbn [and_then].
        rewrite (scale_present "west" 0.8 1.0)
          by (rewrite !lookup_insert_ne by discriminate; exact Lw).
        cbn [and_then].
        repeat (apply moderate_insert; [lra|]). exact M0.
      + destruct ((16 <=? hour) && (hour <? 18)).
        * rewrite (scale_present _ _ _ _ Ln). cbn [and_then].
          rewrite (scale_present "west" 1.6 1.0)
            by (rewrite lookup_insert_ne by discriminate; exact Lw).
          cbn [and_then].
          rewrite (scale_present "south" 0.8 1.0)
            by (rewrite !lookup_insert_ne by discriminate; exact Ls).
          cbn [and_then].
          rewrite (scale_present "east" 0.9 1.0)
            by (rewrite !lookup_insert_ne by discriminate; exact Le).
          cbn [and_then].
          repeat (apply moderate_insert; [lra|]). exact M0.
        * destruct ((22 <=? hour) || (hour <? 5)); cbn [and_then].
          -- intros d x Hx. apply M3 in Hx. lra.
          -- exact M0. }
  destruct (get_time_factors self hour weekday) as [f|e]; [|destruct M].
  exists f. split; [reflexivity|]. split; [exact Fine|exact M].
Qed.

(** X26.  A generator whose base volume lacks a compass direction fails
    at the hours that single that direction out: without a south entry
    [get_time_factors] raises [KeyError] in the weekday morning rush,
    without a north entry in the weekday evening rush and through the
    weekend daytime, and [get_traffic_data] fails with it.  Whenever
    [get_time_factors] raises, it is a [KeyError] for a compass direction
    the base volume lacks. *)
Theorem time_factors_missing_direction (self : t) (hour weekday : Z) :
  (base_volume self !! "south" = None ->
   weekday < 5 -> 7 <= hour < 9 ->
   get_time_factors self hour weekday = Raise (KeyError "south")
   /\ forall now include_events rnd,
        get_traffic_data self hour weekday now include_events rnd
        = Raise (KeyError "south"))
  /\ (base_volume self !! "north" = None ->
      (weekday < 5 /\ 16 <= hour < 18) \/ (5 <= weekday /\ 10 <= hour < 20) ->
      get_time_factors self hour weekday = Raise (KeyError "north"))
  /\ (forall e, get_time_factors self hour weekday = Raise e ->
        exists key, e = KeyError key /\ In key compass
                    /\ base_volume self !! key = None).
Proof.
  assert (F0 : forall key, base_volume self !! key = None ->
            ((fun _ => 1.0%Q) <$> base_volume self) !! key = None).
  { intros key E. rewrite lookup_fmap, E. reflexivity. }
  split; [|split].
  - intros Hs Hw Hh.
    assert (E : get_time_factors self hour weekday = Raise (KeyError "south")).
    { unfold get_time_factors.
      replace ((7 <=? hour) && (hour <? 9)) with true
        by (symmetry; apply andb_true_iff; split;
            [apply Z.leb_le|apply Z.ltb_lt]; lia).
      replace (5 <=? weekday) with false
        by (symmetry; apply Z.leb_gt; lia).
      cbn [negb]. unfold scale at 1. rewrite (F0 _ Hs). reflexivity. }
    split; [exact E|]. intros now include_events rnd.
    unfold get_traffic_data. rewrite E. reflexivity.
  - intros Hn [[Hw Hh]|[Hw Hh]]; unfold get_time_factors.
    + replace ((7 <=? hour) && (hour <? 9)) with false
        by (symmetry; apply andb_false_iff; right; apply Z.ltb_ge; lia).
      replace ((16 <=? hour) && (hour <? 18)) with true
        by (symmetry; apply andb_true_iff; split;
            [apply Z.leb_le|apply Z.ltb_lt]; lia).
      replace (5 <=? weekday) with false
        by (symmetry; apply Z.leb_gt; lia).
      cbn [negb]. unfold scale at 1. rewrite (F0 _ Hn). reflexivity.
    + replace (5 <=? weekday) with true
        by (symmetry; apply Z.leb_le; lia).
      replace ((10 <=? hour) && (hour <? 20)) with true
        by (symmetry; apply andb_true_iff; split;
            [apply Z.leb_le|apply Z.ltb_lt]; lia).
      replace ((22 <=? hour) || (hour <? 5)) with false
        by (symmetry; apply orb_false_iff; split;
            [apply Z.leb_gt|apply Z.ltb_ge]; lia).
      cbn [negb].
      destruct ((7 <=? hour) && (hour <? 9)); cbn [and_then].
      * unfold scale at 1. rewrite (F0 _ Hn). reflexivity.
      * destruct ((16 <=? hour) && (hour <? 18)); cbn [and_then];
          unfold scale at 1; rewrite (F0 _ Hn); reflexivity.
  - intros e E. pose proof (get_time_factors_fine self hour weekday) as Fine.
    rewrite E in Fine. destruct e as [key|]; [|destruct Fine].
    exists key. destruct Fine as [B C]. repeat split; assumption.
Qed.

End TimeFactors.

Lemma time_factors_on_four_directions_witness :
  exists factors,
    Generator.get_time_factors busy_generator 23 6 = Generator.Return factors
    /\ (forall d, is_Some (factors !! d)
                  <-> is_Some (Generator.base_volume busy_generator !! d))
    /\ (forall d x, factors !! d = Some x -> (0.2 <= x <= 1.8)%Q).
Proof.
  apply (time_factors_on_four_directions busy_generator 23 6);
    eexists; vm_compute; reflexivity.
Defined.

Lemma time_factors_missing_direction_witness :
  Generator.get_time_factors two_way 8 2
  = Generator.Raise (Generator.KeyError "south")
  /\ forall now include_events rnd,
       Generator.get_traffic_data two_way 8 2 now include_events rnd
       = Generator.Raise (Generator.KeyError "south").
Proof.
  apply (proj1 (time_factors_missing_direction two_way 8 2)).
  - vm_compute. reflexivity.
  - lia.
  - lia.
Defined.

(* ------------------------------------------------------------------ *)
(** ** Active events *)

Section Events.
Import Generator.

Lemma keys_filter_subset {A} (P : Z * A -> bool) (d : Dict A) (k : Z) :
  In k (keys (List.filter P d)) -> In k (keys d).
Proof.
  unfold keys. rewrite !in_map_iff. intros (p & E & I).
  apply filter_In in I as [I _]. exists p. split; assumption.
Qed.

Lemma keys_filter_NoDup {A} (P : Z * A -> bool) (d : Dict A) :
  List.NoDup (keys d) -> List.NoDup (keys (List.filter P d)).
Proof.
  induction d as [|[k v] d IH]; intros N; [constructor|].
  inversion N as [|? ? Hk Nd]; subst. cbn [List.filter].
  destruct (P (k, v)).
  - cbn [keys map fst]. constructor; [|apply IH; exact Nd].
    intros I. apply Hk. apply (keys_filter_subset P). exact I.
  - apply IH. exact Nd.
Qed.

Lemma del_all_skips {A} (ids : list Z) (k : Z) (v : A) (d : Dict A) :
  ~ In k ids ->
  fold_left (fun d event_id => del event_id d) ids ((k, v) :: d)
  = (k, v) :: fold_left (fun d event_id => del event_id d) ids d.
Proof.
  revert d. induction ids as [|id ids IH]; intros d N; [reflexivity|].
  cbn [fold_left del].
  destruct (k =? id) eqn:E.
  - apply Z.eqb_eq in E. subst id. exfalso. apply N. left. reflexivity.
  - apply IH. intros I. apply N. right. exact I.
Qed.

(** Deleting the keys that satisfy [P], one [del] at a time, leaves the
    entries that do not, in their order. *)
Lemma del_all_filter {A} (P : Z * A -> bool) (d : Dict A) :
  List.NoDup (keys d) ->
  fold_left (fun d event_id => del event_id d) (keys (List.filter P d)) d
  = List.filter (fun p => negb (P p)) d.
Proof.
  induction d as [|[k v] d IH]; intros N; [reflexivity|].
  inversion N as [|? ? Hk Nd]; subst. cbn [List.filter].
  destruct (P (k, v)); cbn [negb].
  - cbn [keys map fst fold_left del]. rewrite Z.eqb_refl.
    apply IH. exact Nd.
  - rewrite del_all_skips; [rewrite (IH Nd); reflexivity|].
    intros I. apply Hk. apply (keys_filter_subset P). exact I.
Qed.

Lemma filter_twice_none {A} (P : A -> bool) (l : list A) :
  List.filter P (List.filter (fun p => negb (P p)) l) = [].
Proof.
  induction l as [|a l IH]; [reflexivity|]. cbn [List.filter].
  destruct (P a) eqn:E; cbn [negb List.filter]; [exact IH|].
  rewrite E. exact IH.
Qed.

(** X27.  [remove_expired_events] drops exactly the events whose end
    time lies before the wall clock and returns their ids: an event is
    still active afterwards if and only if it was active and its end
    time has not passed, an id is returned if and only if it belonged to
    an event whose end time had passed, and a second call at the same
    time finds nothing to remove.  The base volume is not touched. *)
Theorem expired_events_removed (self : t) (now : Time) :
  List.NoDup (keys (active_events self)) ->
  let r := remove_expired_events self now in
  (forall id ev, In (id, ev) (active_events (snd r))
                 <-> In (id, ev) (active_events self) /\ now <= end_time ev)
  /\ (forall id, In id (fst r)
                 <-> exists ev, In (id, ev) (active_events self)
                                /\ end_time ev < now)
  /\ remove_expired_events (snd r) now = ([], snd r)
  /\ List.NoDup (keys (active_events (snd r)))
  /\ base_volume (snd r) = base_volume self.
Proof.
  intros N r. subst r. unfold remove_expired_events. cbn [fst snd].
  rewrite (del_all_filter (expired now) _ N).
  cbn [active_events base_volume].
  split; [|split; [|split; [|split]]].
  - intros id ev. rewrite filter_In. unfold expired. cbn [snd].
    rewrite negb_true_iff, Z.ltb_ge. reflexivity.
  - intros id. unfold keys. rewrite in_map_iff. split.
    + intros ([id' ev] & E & I). cbn [fst] in E. subst id'.
      apply filter_In in I as [I X]. unfold expired in X. cbn [snd] in X.
      apply Z.ltb_lt in X. exists ev. split; assumption.
    + intros (ev & I & X). exists (id, ev). split; [reflexivity|].
      apply filter_In. split; [exact I|]. unfold expired. cbn [snd].
      apply Z.ltb_lt. exact X.
  - rewrite filter_twice_none. reflexivity.
  - apply keys_filter_NoDup. exact N.
  - reflexivity.
Qed.

Lemma assign_keys {A} (k : Z) (v : A) (d : Dict A) :
  (In k (keys d) -> keys (assign k v d) = keys d)
  /\ (~ In k (keys d) -> keys (assign k v d) = keys d ++ [k]).
Proof.
  induction d as [|[k' v'] d [IH1 IH2]]; cbn [assign keys map fst].
  - split; [intros []|reflexivity].
  - destruct (k' =? k) eqn:E.
    + apply Z.eqb_eq in E. subst k'. cbn [map fst]. split; [reflexivity|].
      intros X. exfalso. apply X. left. reflexivity.
    + apply Z.eqb_neq in E. cbn [map fst]. unfold keys in IH1, IH2. split.
      * intros [X|X]; [contradiction|]. rewrite (IH1 X). reflexivity.
      * intros X. rewrite IH2; [reflexivity|]. intros Y. apply X. right.
        exact Y.
Qed.

Lemma assign_In {A} (k : Z) (v : A) (d : Dict A) (k' : Z) (v' : A) :
  List.NoDup (keys d) ->
  In (k', v') (assign k v d)
  <-> (k' = k /\ v' = v) \/ (k' <> k /\ In (k', v') d).
Proof.
  induction d as [|[k0 v0] d IH]; intros N; cbn [assign].
  - cbn [In]. split.
    + intros [[= <- <-]|[]]. left. split; reflexivity.
    + intros [[-> ->]|[_ []]]. left. reflexivity.
  - inversion N as [|? ? Hk Nd]; subst. specialize (IH Nd).
    destruct (k0 =? k) eqn:E.
    + apply Z.eqb_eq in E. subst k0. cbn [In]. split.
      * intros [[= <- <-]|I]; [left; split; reflexivity|].
        right. split; [|right; exact I]. intros ->. apply Hk.
        unfold keys. apply in_map_iff. exists (k, v'). split;
          [reflexivity|exact I].
      * intros [[-> ->]|(Ne & [[= E1 E2]|I])];
          [left; reflexivity|congruence|right; exact I].
    + apply Z.eqb_neq in E. cbn [In]. rewrite IH. split.
      * intros [[= <- <-]|[X|X]]; [right; split; [congruence|left; reflexivity]
                                  |left; exact X|].
        right. split; [tauto|right; tauto].
      * intros [X|(Ne & [[= <- <-]|I])];
          [right; left; exact X|left; reflexivity|].
        right. right. split; assumption.
Qed.

Lemma NoDup_snoc (l : list Z) (k : Z) :
  List.NoDup l -> ~ In k l -> List.NoDup (l ++ [k]).
Proof.
  induction l as [|a l IH]; intros N I; cbn [app].
  - constructor; [intros []|constructor].
  - inversion N as [|? ? Ha Nl]; subst. constructor.
    + rewrite in_app_iff. intros [X|[X|[]]]; [exact (Ha X)|].
      apply I. left. symmetry. exact X.
    + apply IH; [exact Nl|]. intros X. apply I. right. exact X.
Qed.

Lemma assign_NoDup {A} (k : Z) (v : A) (d : Dict A) :
  List.NoDup (keys d) -> List.NoDup (keys (assign k v d)).
Proof.
  intros N. destruct (in_dec Z.eq_dec k (keys d)) as [I|I].
  - rewrite (proj1 (assign_keys k v d) I). exact N.
  - rewrite (proj2 (assign_keys k v d) I).
    apply NoDup_snoc; assumption.
Qed.

(** X28.  [add_random_event] on a generator with at least one direction
    stores the new event under the drawn id and returns it: the event
    ends [duration_minutes] after the wall clock, carries one impact per
    direction of the base volume (the reduced draw for an affected
    direction, the raised one otherwise), and every other active event
    stays as it was.  A drawn id that is already in use replaces the
    older event in place, so the number of active events does not grow;
    a generator without directions raises [ValueError]. *)
Theorem add_random_event_stores (self : t) (draw : EventDraw) (now : Time)
    (duration_minutes : Z) :
  List.NoDup (keys (active_events self)) ->
  (base_volume self = ∅ ->
   add_random_event self draw now duration_minutes = Raise ValueError)
  /\ (base_volume self <> ∅ ->
      exists ev self',
        add_random_event self draw now duration_minutes
        = Return ((drawn_id draw, ev), self')
        /\ end_time ev = now + duration_minutes * 60
        /\ affected_directions ev = drawn_affected draw
        /\ (forall d, impact ev !! d
                      = if decide (is_Some (base_volume self !! d))
                        then Some (if mem d (drawn_affected draw)
                                   then reduced draw d else raised draw d)
                        else None)
        /\ (forall id ev', In (id, ev') (active_events self')
                           <-> (id = drawn_id draw /\ ev' = ev)
                               \/ (id <> drawn_id draw
                                   /\ In (id, ev') (active_events self)))
        /\ List.NoDup (keys (active_events self'))
        /\ (In (drawn_id draw) (keys (active_events self)) ->
            keys (active_events self') = keys (active_events self))
        /\ base_volume self' = base_volume self).
Proof.
  intros N. unfold add_random_event. split.
  - intros E. destruct (decide (base_volume self = ∅)); [reflexivity|].
    contradiction.
  - intros Ne. destruct (decide (base_volume self = ∅)); [contradiction|].
    eexists _, _. split; [reflexivity|].
    cbn [end_time affected_directions impact active_events base_volume].
    split; [reflexivity|]. split; [reflexivity|].
    split; [|split; [|split; [|split]]].
    + intros d. rewrite map_lookup_imap.
      destruct (base_volume self !! d) as [b|] eqn:B; cbn.
      * destruct (decide (is_Some (Some b))) as [_|X]; [reflexivity|].
        exfalso. apply X. eexists; reflexivity.
      * destruct (decide (is_Some None)) as [[x X]|_]; [discriminate|].
        reflexivity.
    + intros id ev'. apply assign_In. exact N.
    + apply assign_NoDup. exact N.
    + intros I. apply (proj1 (assign_keys _ _ _) I).
    + reflexivity.
Qed.

End Events.

Lemma expired_events_removed_witness :
  let r := Generator.remove_expired_events busy_generator 1000 in
  (forall id ev, In (id, ev) (Generator.active_events (snd r))
                 <-> In (id, ev) (Generator.active_events busy_generator)
                     /\ 1000 <= Generator.end_time ev)
  /\ (forall id, In id (fst r)
                 <-> exists ev,
                       In (id, ev) (Generator.active_events busy_generator)
                       /\ Generator.end_time ev < 1000)
  /\ Generator.remove_expired_events (snd r) 1000 = ([], snd r)
  /\ List.NoDup (Generator.keys (Generator.active_events (snd r)))
  /\ Generator.base_volume (snd r) = Generator.base_volume busy_generator.
Proof.
  apply (expired_events_removed busy_generator 1000).
  repeat constructor; simpl; intuition discriminate.
Defined.

Lemma add_random_event_stores_witness :
  let draw :=
    {| Generator.drawn_type := "accident";
       Generator.drawn_affected := ["south"]%string;
       Generator.reduced := fun _ => 0.5%Q;
       Generator.raised := fun _ => 1.1%Q;
       Generator.drawn_id := 31337 |} in
  exists ev self',
    Generator.add_random_event busy_generator draw 1000 30
    = Generator.Return ((31337, ev), self')
    /\ Generator.end_time ev = 1000 + 30 * 60
    /\ Generator.keys (Generator.active_events self') = [31337; 27182].
Proof.
  intros draw.
  destruct (proj2 (add_random_event_stores busy_generator draw 1000 30
                     ltac:(repeat constructor; simpl; intuition discriminate))
              ltac:(vm_compute; discriminate))
    as (ev & self' & E & T & _ & _ & _ & _ & K & _).
  exists ev, self'. split; [exact E|]. split; [exact T|].
  apply K. left. reflexivity.
Defined.

(* ------------------------------------------------------------------ *)
(** ** Generated snapshots *)

Section Snapshots.
Import Generator.

Lemma congestion_level_bounds (events : Dict Event) (direction : string)
    (count : Z) :
  1 <= count -> (0 < congestion_level events direction count <= 1)%Q.
Proof.
  intros Hc. unfold congestion_level.
  assert (B0 : (0 < Py.min 1.0 (inject_Z count / inject_Z 20) <= 1)%Q).
  { assert (P : (0 < inject_Z count / inject_Z 20)%Q).
    { apply Qlt_shift_div_l; [reflexivity|].
      apply inject_Z_le in Hc. change (inject_Z 1) with 1%Q in Hc. lra. }
    unfold Py.min. destruct (Py.ltb _ _) eqn:E.
    - apply ltb_true_iff in E. split; lra.
    - split; lra. }
  revert B0. generalize (Py.min 1.0 (inject_Z count / inject_Z 20)).
  induction (values events) as [|ev evs IH]; intros c B; cbn [fold_left].
  - exact B.
  - apply IH. destruct (mem direction (affected_directions ev)); [|exact B].
    unfold Py.min. destruct (Py.ltb _ _) eqn:E.
    + apply ltb_true_iff in E. split; lra.
    + split; lra.
Qed.

(** X29.  Every outcome of [get_traffic_data]: either it raises
    [KeyError] for a compass direction that the base volume lacks, or it
    returns a snapshot with one count for each direction of the base
    volume and nothing else, every count at least 1, every average speed
    at least 10 and every congestion level above 0 and at most 1.  The
    base volume is never changed, and with [include_events=False] the
    generator is left as it was and the snapshot carries neither event
    ids nor congestion levels. *)
Theorem traffic_data_outcomes (self : t) (hour weekday : Z) (now : Time)
    (include_events : bool) (rnd : Noise) :
  match get_traffic_data self hour weekday now include_events rnd with
  | Return (data, self') =>
      (forall d, is_Some (vehicle_counts data !! d)
                 <-> is_Some (base_volume self !! d))
      /\ (forall d v, vehicle_counts data !! d = Some v -> 1 <= v)
      /\ (forall d x, avg_speeds data !! d = Some x -> (10 <= x)%Q)
      /\ (forall c d x, congestion data = Some c -> c !! d = Some x ->
            (0 < x <= 1)%Q)
      /\ base_volume self' = base_volume self
      /\ (include_events = false ->
          self' = self /\ data_active_events data = None
          /\ congestion data = None)
  | Raise (KeyError key) =>
      In key compass /\ base_volume self !! key = None
  | Raise ValueError => False
  end.
Proof.
  unfold get_traffic_data.
  pose proof (get_time_factors_fine self hour weekday) as Fine.
  destruct (get_time_factors self hour weekday) as [tf|[key|]];
    cbn [and_then]; [|destruct Fine; split; assumption|exact Fine].
  set (self1 := if include_events then (remove_expired_events self now).2
                else self).
  assert (B1 : base_volume self1 = base_volume self)
    by (subst self1; destruct include_events; reflexivity).
  set (apply_events := include_events
                       && match active_events self1 with
                          | [] => false
                          | _ => true
                          end).
  set (counts := map_imap _ (base_volume self1)).
  assert (C1 : forall d v, counts !! d = Some v -> 1 <= v).
  { intros d v Hv. subst counts. rewrite map_lookup_imap in Hv.
    destruct (base_volume self1 !! d) as [b|]; cbn in Hv; [|discriminate].
    injection Hv as <-. unfold volume. lia. }
  cbn [vehicle_counts avg_speeds congestion data_active_events].
  split; [|split; [|split; [|split; [|split]]]].
  - intros d. subst counts. rewrite map_lookup_imap, B1.
    destruct (base_volume self !! d); cbn; split; intros [? ?];
      try discriminate; eexists; reflexivity.
  - exact C1.
  - intros d x Hx. rewrite map_lookup_imap in Hx.
    destruct (base_volume self1 !! d) as [b|]; cbn in Hx; [|discriminate].
    injection Hx as <-. unfold Py.max. change (inject_Z 10) with 10%Q.
    destruct (Py.ltb _ _) eqn:E; [apply ltb_true_iff in E|]; lra.
  - intros c d x Hc Hx. destruct apply_events; [|discriminate].
    injection Hc as <-. rewrite map_lookup_imap in Hx.
    destruct (counts !! d) as [v|] eqn:V; cbn in Hx; [|discriminate].
    injection Hx as <-. apply congestion_level_bounds. exact (C1 d v V).
  - exact B1.
  - intros ->. subst self1 apply_events. cbn [andb]. repeat split.
Qed.

(** ** Vehicle types *)

(** X30.  The four vehicle types of a snapshot always add up to the
    total number of vehicles, because the motorcycles are what is left
    after cars, trucks and buses.  For a total that is not negative and
    shares drawn from their ranges (0.7 to 0.8, 0.1 to 0.15, 0.03 to
    0.07), cars, trucks and buses are not negative, but the motorcycles
    can be: they are only known to lie above minus 2 percent of the total
    and below 17 percent of the total plus 3. *)
Theorem vehicle_types_add_up (total_vehicles : Z) (rnd : Noise) :
  let vt := distribute total_vehicles rnd in
  cars vt + trucks vt + buses vt + motorcycles vt = total_vehicles
  /\ (0 <= total_vehicles ->
      (0.7 <= cars_share rnd <= 0.8)%Q ->
      (0.1 <= trucks_share rnd <= 0.15)%Q ->
      (0.03 <= buses_share rnd <= 0.07)%Q ->
      0 <= cars vt <= total_vehicles
      /\ 0 <= trucks vt /\ 0 <= buses vt
      /\ - total_vehicles <= 50 * motorcycles vt
      /\ 100 * motorcycles vt < 17 * total_vehicles + 300).
Proof.
  intros vt. subst vt. unfold distribute.
  cbn [cars trucks buses motorcycles]. split; [lia|].
  intros Ht Hc Hk Hb.
  set (T := inject_Z total_vehicles).
  assert (HT : (0 <= T)%Q) by (apply (inject_Z_le 0); exact Ht).
  pose proof (Qfloor_le (T * cars_share rnd)) as C1.
  pose proof (Qlt_floor (T * cars_share rnd)) as C2.
  pose proof (Qfloor_le (T * trucks_share rnd)) as K1.
  pose proof (Qlt_floor (T * trucks_share rnd)) as K2.
  pose proof (Qfloor_le (T * buses_share rnd)) as B1.
  pose proof (Qlt_floor (T * buses_share rnd)) as B2.
  set (c := Qfloor (T * cars_share rnd)) in *.
  set (k := Qfloor (T * trucks_share rnd)) in *.
  set (b := Qfloor (T * buses_share rnd)) in *.
  rewrite inject_Z_plus in C2, K2, B2.
  change (inject_Z 1) with 1%Q in C2, K2, B2.
  assert (Pc : (0 <= T * cars_share rnd)%Q) by nra.
  assert (Pk : (0 <= T * trucks_share rnd)%Q) by nra.
  assert (Pb : (0 <= T * buses_share rnd)%Q) by nra.
  assert (Uc : (T * cars_share rnd <= 0.8 * T)%Q) by nra.
  assert (Uk : (T * trucks_share rnd <= 0.15 * T)%Q) by nra.
  assert (Ub : (T * buses_share rnd <= 0.07 * T)%Q) by nra.
  assert (Lc : (0.7 * T <= T * cars_share rnd)%Q) by nra.
  assert (Lk : (0.1 * T <= T * trucks_share rnd)%Q) by nra.
  assert (Lb : (0.03 * T <= T * buses_share rnd)%Q) by nra.
  assert (c0 : 0 <= c) by (apply floor_lower; exact Pc).
  assert (k0 : 0 <= k) by (apply floor_lower; exact Pk).
  assert (b0 : 0 <= b) by (apply floor_lower; exact Pb).
  assert (cT : c <= total_vehicles).
  { rewrite Zle_Qle. fold T. lra. }
  split; [lia|]. split; [exact k0|]. split; [exact b0|].
  set (m := total_vehicles - (c + k + b + 0)).
  assert (Hm : (inject_Z m + inject_Z c + inject_Z k + inject_Z b == T)%Q).
  { subst T. rewrite <- !inject_Z_plus. apply inject_Z_injective.
    subst m. lia. }
  split.
  - rewrite Zle_Qle. rewrite inject_Z_opp, inject_Z_mult. fold T.
    change (inject_Z 50) with 50%Q. lra.
  - rewrite Zlt_Qlt. rewrite inject_Z_plus, !inject_Z_mult. fold T.
    change (inject_Z 100) with 100%Q. change (inject_Z 17) with 17%Q.
    change (inject_Z 300) with 300%Q. lra.
Qed.

End Snapshots.

Lemma traffic_data_outcomes_witness :
  match Generator.get_traffic_data busy_generator 23 6 1000 false even_noise
  with
  | Generator.Return (data, self') =>
      self' = busy_generator
      /\ Generator.data_active_events data = None
      /\ Generator.congestion data = None
      /\ (forall d v, Generator.vehicle_counts data !! d = Some v -> 1 <= v)
  | Generator.Raise _ => False
  end.
Proof.
  pose proof (traffic_data_outcomes busy_generator 23 6 1000 false
                even_noise) as T.
  destruct (Generator.get_traffic_data busy_generator 23 6 1000 false
              even_noise) as [[data self']|[key|]].
  - destruct T as (_ & C & _ & _ & _ & F).
    destruct (F eq_refl) as (E1 & E2 & E3).
    split; [exact E1|]. split; [exact E2|]. split; [exact E3|exact C].
  - destruct T as [[<-|[<-|[<-|[<-|[]]]]] B]; vm_compute in B; discriminate.
  - exact T.
Defined.

Lemma vehicle_types_add_up_witness :
  let vt := Generator.distribute 100 upper_noise in
  Generator.motorcycles vt = -2
  /\ - 100 <= 50 * Generator.motorcycles vt
  /\ 100 * Generator.motorcycles vt < 17 * 100 + 300.
Proof.
  split; [vm_compute; reflexivity|].
  destruct (proj2 (vehicle_types_add_up 100 upper_noise))
    as (_ & _ & _ & L & U).
  - lia.
  - split; vm_compute; discriminate.
  - split; vm_compute; discriminate.
  - split; vm_compute; discriminate.
  - split; [exact L|exact U].
Defined.
